(** * Book exchange platform: the backend controllers, embedded and verified

    A shallow embedding of the Express/Mongoose backend found under
    [backend/src]: the models ([models/User.ts], [models/Book.ts],
    [models/Transaction.ts]) become records, a collection becomes the list of
    its documents in natural order, and every handler of the controllers
    becomes a function from the request and the collections to the JSON
    response and the new collections.

    Conventions.
    - An [ObjectId] is the 96-bit number behind its 24-digit hexadecimal
      spelling; [toString()] comparisons of ids are equalities on it.
    - A JavaScript string is a [string]; [undefined] body fields are [None].
    - [Date] values are milliseconds since the epoch, in [Z]; the clock
      ([Date.now()], [new Date()]) is an argument of the handler.
    - [save] validates the document against its schema. The handlers
      write transactions and users only in states that pass their schema,
      so for them [save] on a loaded document re-validates the paths the
      handler changed. Books are different: [updateBook] writes without
      validators, so [book.save()] validates the whole book and can throw.
    - The timestamps of a schema move on [save] only when the document is
      new or a path of it was modified. *)

From Stdlib Require Import ZArith Ascii String Sorted Permutation.
From Stdlib Require Import OrderedTypeEx.
From stdpp Require Import base decidable option list strings numbers.

Local Open Scope Z_scope.
Local Open Scope string_scope.

(** ** HTTP responses *)

(** [res.status(c).json({error})] and [res.status(c).json(payload)]. *)
Inductive Response (A : Type) : Type :=
| Json (code : Z) (payload : A)
| ErrorJson (code : Z) (error : string).
Arguments Json {A} code payload.
Arguments ErrorJson {A} code error.

Definition statusCode {A} (r : Response A) : Z :=
  match r with Json c _ => c | ErrorJson c _ => c end.

Definition isError {A} (r : Response A) : bool :=
  match r with Json _ _ => false | ErrorJson _ _ => true end.

(** JavaScript truthiness of a string-valued body field: [undefined] and the
    empty string are falsy. *)
Definition truthy (v : option string) : bool :=
  match v with
  | None => false
  | Some s => negb (bool_decide (s = ""))
  end.

(** [a || b] on strings, [b] being a string. *)
Definition orElse (v : option string) (d : string) : string :=
  match v with
  | Some s => if bool_decide (s = "") then d else s
  | None => d
  end.

(** ** Object ids *)

Abbreviation ObjectId := N.

Definition hexDigit (c : ascii) : option N :=
  let n := N_of_ascii c in
  if ((48 <=? n) && (n <=? 57))%N then Some (n - 48)%N
  else if ((97 <=? n) && (n <=? 102))%N then Some (n - 87)%N
  else if ((65 <=? n) && (n <=? 70))%N then Some (n - 55)%N
  else None.

Fixpoint parseHex (s : string) (acc : N) : option N :=
  match s with
  | EmptyString => Some acc
  | String c s' =>
      match hexDigit c with
      | Some d => parseHex s' (16 * acc + d)%N
      | None => None
      end
  end.

(** Casting a request parameter to an [ObjectId]: twenty-four hexadecimal
    digits. [Types.ObjectId.isValid] holds exactly when the cast succeeds. *)
Definition castObjectId (s : string) : option ObjectId :=
  if Nat.eqb (String.length s) 24 then parseHex s 0%N else None.

Definition ObjectId_isValid (s : string) : bool :=
  match castObjectId s with Some _ => true | None => false end.

(** A new document gets an id no document of the collection has. *)
Definition freshId (ids : list ObjectId) : ObjectId :=
  N.succ (foldr N.max 0%N ids).

(** ** Collections *)

Section Collection.
Context {D : Type} (idOf : D -> ObjectId).

(** [Model.findById(id)]. *)
Fixpoint findById (id : ObjectId) (c : list D) : option D :=
  match c with
  | [] => None
  | d :: c' => if bool_decide (idOf d = id) then Some d else findById id c'
  end.

(** [Model.findOne(filter)]: the first document, in natural order, that
    passes the filter. *)
Fixpoint findOne (p : D -> bool) (c : list D) : option D :=
  match c with
  | [] => None
  | d :: c' => if p d then Some d else findOne p c'
  end.

(** [doc.save()] for a document loaded from the collection: the stored
    document with that id is replaced. *)
Fixpoint replaceDoc (d : D) (c : list D) : list D :=
  match c with
  | [] => []
  | e :: c' =>
      if bool_decide (idOf e = idOf d) then d :: c' else e :: replaceDoc d c'
  end.

(** [doc.save()] for a new document. *)
Definition insertDoc (d : D) (c : list D) : list D := c ++ [d].
End Collection.

(** ** models/Book.ts *)

Module Book.
Record t : Type := mk {
  _id : ObjectId;
  title : string;
  author : string;
  genre : string;
  description : option string;
  condition : string;
  location : string;
  owner : ObjectId;
  status : string;
  createdAt : Z
}.

Definition set_status (s : string) (b : t) : t :=
  mk (_id b) (title b) (author b) (genre b) (description b) (condition b)
     (location b) (owner b) s (createdAt b).

(** The [enum]s of the [condition], [location] and [status] paths. *)
Definition conditionEnum : list string :=
  ["New"; "Like New"; "Good"; "Fair"; "Poor"].

Definition locationEnum : list string :=
  ["Mumbai"; "Delhi"; "Bangalore"; "Chennai"; "Hyderabad"].

Definition statusEnum : list string := ["available"; "pending"; "exchanged"].

(** [title], [author] and [genre] are [required], which for a string
    excludes the empty one; [condition] and [location] are [required] and
    in their [enum]. *)
Definition validFields (b : t) : bool :=
  negb (bool_decide (title b = ""))
  && negb (bool_decide (author b = ""))
  && negb (bool_decide (genre b = ""))
  && bool_decide (condition b ∈ conditionEnum)
  && bool_decide (location b ∈ locationEnum).

Definition validStatus (s : string) : bool := bool_decide (s ∈ statusEnum).

(** The validation [save] runs on a book. *)
Definition validate (b : t) : bool := validFields b && validStatus (status b).
End Book.

(** ** models/Transaction.ts *)

Module Message.
Record t : Type := mk {
  sender : ObjectId;
  content : string;
  createdAt : Z;
  read : bool;
  notified : bool
}.
End Message.

Module Terms.
Record t : Type := mk {
  deliveryMethod : string;
  duration : Z;
  location : option string;
  additionalNotes : option string
}.

(** [deliveryMethod]: required, one of the enum; [duration]: required,
    [min: 1], [max: 90]. *)
Definition validate (x : t) : bool :=
  (bool_decide (deliveryMethod x = "in-person")
   || bool_decide (deliveryMethod x = "courier")
   || bool_decide (deliveryMethod x = "mail"))
  && (1 <=? duration x)%Z && (duration x <=? 90)%Z.
End Terms.

Module Transaction.
Record t : Type := mk {
  _id : ObjectId;
  book : ObjectId;
  requester : ObjectId;
  owner : ObjectId;
  status : string;
  terms : Terms.t;
  messages : list Message.t;
  lastModifiedBy : ObjectId;
  createdAt : Z;
  updatedAt : Z
}.

Definition set_status (s : string) (x : t) : t :=
  mk (_id x) (book x) (requester x) (owner x) s (terms x) (messages x)
     (lastModifiedBy x) (createdAt x) (updatedAt x).

Definition set_lastModifiedBy (u : ObjectId) (x : t) : t :=
  mk (_id x) (book x) (requester x) (owner x) (status x) (terms x)
     (messages x) u (createdAt x) (updatedAt x).

Definition set_messages (ms : list Message.t) (x : t) : t :=
  mk (_id x) (book x) (requester x) (owner x) (status x) (terms x) ms
     (lastModifiedBy x) (createdAt x) (updatedAt x).

Definition set_updatedAt (now : Z) (x : t) : t :=
  mk (_id x) (book x) (requester x) (owner x) (status x) (terms x)
     (messages x) (lastModifiedBy x) (createdAt x) now.

(** The [enum] of the [status] path. *)
Definition statusEnum : list string :=
  ["pending"; "accepted"; "rejected"; "modified"; "completed"; "cancelled"].

Definition validStatus (s : string) : bool := bool_decide (s ∈ statusEnum).

(** [content] of an embedded message is [required], which for a string
    excludes the empty one. *)
Definition validMessage (m : Message.t) : bool :=
  negb (bool_decide (Message.content m = "")).

(** The validation [save] runs on a new document. *)
Definition validate (x : t) : bool :=
  validStatus (status x) && Terms.validate (terms x)
  && forallb validMessage (messages x).
End Transaction.

(** ** controllers/transactionController.ts *)

Module TransactionController.

Record Db : Type := mkDb {
  books : list Book.t;
  transactions : list Transaction.t
}.

(** The body of [POST /request]. *)
Record CreateBody : Type := mkCreateBody {
  bookId : string;
  terms : Terms.t;
  message : option string
}.

Definition createExchangeRequest
    (now : Z) (userId : ObjectId) (body : CreateBody) (db : Db)
  : Response Transaction.t * Db :=
  let requesterId := userId in
  match castObjectId (bookId body) with
  | None => (ErrorJson 500 "Failed to create exchange request", db)
  | Some bid =>
    match findById Book._id bid (books db) with
    | None => (ErrorJson 404 "Book not found", db)
    | Some book =>
      if negb (bool_decide (Book.status book = "available")) then
        (ErrorJson 400 "Book is not available for exchange", db)
      else if bool_decide (Book.owner book = userId) then
        (ErrorJson 400 "Cannot request your own book", db)
      else
        let transaction :=
          Transaction.mk
            (freshId (map Transaction._id (transactions db)))
            bid requesterId (Book.owner book)
            "pending"
            (terms body)
            (if truthy (message body)
             then [Message.mk requesterId (default "" (message body)) now
                              false false]
             else [])
            requesterId now now in
        if negb (Transaction.validate transaction) then
          (ErrorJson 500 "Failed to create exchange request", db)
        else
          let transactions' :=
            insertDoc transaction (transactions db) in
          let book := Book.set_status "pending" book in
          if negb (Book.validate book) then
            (ErrorJson 500 "Failed to create exchange request",
             mkDb (books db) transactions')
          else
            let books' := replaceDoc Book._id book (books db) in
            (Json 201 transaction, mkDb books' transactions')
    end
  end.

(** What the handler reads of the request: [req.params.exchangeId], absent
    when the matched route declares no parameter of that name, and [status]
    and [message] of the body. *)
Record UpdateReq : Type := mkUpdateReq {
  exchangeId : option string;
  status : string;
  updMessage : option string
}.

(** The [statusMessages] table, with [|| ''] for a status it lacks. *)
Definition statusMessages (status : string) : string :=
  if bool_decide (status = "accepted") then "Request accepted"
  else if bool_decide (status = "rejected") then "Request rejected"
  else if bool_decide (status = "cancelled") then "Request withdrawn"
  else "".

Definition updateExchangeStatus
    (now : Z) (userId : ObjectId) (req : UpdateReq) (db : Db)
  : Response Transaction.t * Db :=
  let status := status req in
  let message := updMessage req in
  match exchangeId req ≫= castObjectId with
  | None => (ErrorJson 400 "Invalid exchange ID", db)
  | Some eid =>
    match findById Transaction._id eid (transactions db) with
    | None => (ErrorJson 404 "Exchange request not found", db)
    | Some transaction =>
      let isOwner := bool_decide (Transaction.owner transaction = userId) in
      let isRequester :=
        bool_decide (Transaction.requester transaction = userId) in
      if negb isOwner && negb isRequester then
        (ErrorJson 403 "Not authorized to update this exchange", db)
      else if (bool_decide (status = "accepted")
               || bool_decide (status = "rejected")) && negb isOwner then
        (ErrorJson 403 "Only the owner can accept or reject requests", db)
      else if bool_decide (status = "cancelled") && negb isRequester then
        (ErrorJson 403 "Only the requester can cancel requests", db)
      else
        let statusModified :=
          negb (bool_decide (Transaction.status transaction = status)) in
        let transaction := Transaction.set_status status transaction in
        let modifierModified :=
          negb (bool_decide (Transaction.lastModifiedBy transaction = userId)) in
        let transaction := Transaction.set_lastModifiedBy userId transaction in
        let statusMessage := statusMessages status in
        let pushed :=
          if truthy (Some statusMessage) || truthy message then
            [Message.mk userId (orElse message statusMessage) now
                        false false]
          else [] in
        let transaction :=
          Transaction.set_messages
            (Transaction.messages transaction ++ pushed) transaction in
        let bookSaved :=
          match findById Book._id (Transaction.book transaction) (books db) with
          | Some book =>
              let status' :=
                if bool_decide (status = "accepted") then "pending"
                else if bool_decide (status = "rejected")
                        || bool_decide (status = "cancelled")
                then "available"
                else Book.status book in
              let book := Book.set_status status' book in
              if Book.validate book
              then Some (replaceDoc Book._id book (books db))
              else None
          | None => Some (books db)
          end in
        match bookSaved with
        | None => (ErrorJson 500 "Failed to update exchange status", db)
        | Some books' =>
          if negb (Transaction.validStatus status
                   && forallb Transaction.validMessage pushed) then
            (ErrorJson 500 "Failed to update exchange status",
             mkDb books' (transactions db))
          else
            let isModified :=
              statusModified || modifierModified
              || negb (Nat.eqb (length pushed) 0) in
            let transaction :=
              if isModified then Transaction.set_updatedAt now transaction
              else transaction in
            (Json 200 transaction,
             mkDb books'
                  (replaceDoc Transaction._id transaction (transactions db)))
        end
    end
  end.

(** routes/transactionRoutes.ts registers the handler as
    [router.patch('/:requestId/status', ...)]: on that route Express fills
    [req.params.requestId], and the handler finds no [exchangeId]. *)
Definition patchStatusRoute
    (now : Z) (userId : ObjectId) (requestId : string)
    (status : string) (message : option string) (db : Db)
  : Response Transaction.t * Db :=
  updateExchangeStatus now userId (mkUpdateReq None status message) db.

End TransactionController.

(** ** JavaScript string helpers

    Strings are sequences of code units below 256 (Latin-1). *)

Definition toLowerChar (c : ascii) : ascii :=
  let n := N_of_ascii c in
  if ((65 <=? n) && (n <=? 90))%N then ascii_of_N (n + 32)
  else if ((192 <=? n) && (n <=? 222) && negb (n =? 215))%N
  then ascii_of_N (n + 32)
  else c.

(** [String.prototype.toLowerCase]. *)
Fixpoint toLowerCase (s : string) : string :=
  match s with
  | EmptyString => EmptyString
  | String c s' => String (toLowerChar c) (toLowerCase s')
  end.

(** White space and line terminators: TAB, LF, VT, FF, CR, SP, NBSP. *)
Definition isWhiteSpace (c : ascii) : bool :=
  let n := N_of_ascii c in
  (((9 <=? n) && (n <=? 13)) || (n =? 32) || (n =? 160))%N.

Fixpoint trimStart (s : string) : string :=
  match s with
  | EmptyString => EmptyString
  | String c s' => if isWhiteSpace c then trimStart s' else s
  end.

Fixpoint trimEnd (s : string) : string :=
  match s with
  | EmptyString => EmptyString
  | String c s' =>
      match trimEnd s' with
      | EmptyString => if isWhiteSpace c then EmptyString else String c EmptyString
      | t => String c t
      end
  end.

(** [String.prototype.trim]. *)
Definition trim (s : string) : string := trimEnd (trimStart s).

Definition digitChar (d : Z) : ascii := ascii_of_N (48 + Z.to_N d).

Fixpoint digitsOf (fuel : nat) (n : Z) (acc : string) : string :=
  match fuel with
  | O => acc
  | S fuel' =>
      let acc' := String (digitChar (n mod 10)) acc in
      if (n / 10 =? 0)%Z then acc' else digitsOf fuel' (n / 10) acc'
  end.

(** [Number.prototype.toString] of a non-negative integer. *)
Definition Number_toString (n : Z) : string :=
  digitsOf (S (Z.to_nat (Z.log2 n))) n EmptyString.

(** A Number is an IEEE 754 double. The doubles [forgotPassword] computes
    with are non-negative multiples of [2^-53] below [2^21]; such a double
    is held as its numerator over [2^53]. [roundDouble n] is the double
    nearest to [n / 2^53], ties to even: a significand of 53 bits. *)
Definition roundDouble (n : Z) : Z :=
  let e := Z.log2 n - 52 in
  if (e <=? 0)%Z then n
  else
    let q := n / 2 ^ e in
    let r := n mod 2 ^ e in
    let half := 2 ^ (e - 1) in
    let q' :=
      if (r <? half)%Z then q
      else if (half <? r)%Z then q + 1
      else if Z.even q then q else q + 1 in
    q' * 2 ^ e.

(** [x * c] and [c + x] for a double [x] and an integer [c], and
    [Math.floor]. *)
Definition Number_times (x c : Z) : Z := roundDouble (x * c).

Definition Number_plus (c x : Z) : Z := roundDouble (c * 2 ^ 53 + x).

Definition Math_floor (x : Z) : Z := x / 2 ^ 53.

Definition isDigit (c : ascii) : bool :=
  let n := N_of_ascii c in ((48 <=? n) && (n <=? 57))%N.

Fixpoint allDigits (s : string) : bool :=
  match s with
  | EmptyString => true
  | String c s' => isDigit c && allDigits s'
  end.

(** ** The libraries the handlers call *)

(** [bcryptjs]: [hash(data, salt)] and [compare(data, hash)]. *)
Class Bcrypt : Type := {
  bcrypt_hash : string -> string -> string;
  bcrypt_compare : string -> string -> bool
}.

(** [jsonwebtoken]: [sign({userId}, secret, {expiresIn: '24h'})] at a time. *)
Class Jwt : Type := {
  jwt_sign : ObjectId -> Z -> string
}.

(** ** models/User.ts *)

Module User.
Record t : Type := mk {
  _id : ObjectId;
  email : string;
  password : string;
  name : string;
  bio : option string;
  location : option string;
  profileImage : option string;
  genres : list string;
  securityAnswers : list string;
  reputation : Z;
  createdAt : Z;
  resetPasswordToken : option string;
  resetPasswordExpires : option Z
}.

Definition set_password (p : string) (u : t) : t :=
  mk (_id u) (email u) p (name u) (bio u) (location u) (profileImage u)
     (genres u) (securityAnswers u) (reputation u) (createdAt u)
     (resetPasswordToken u) (resetPasswordExpires u).

Definition set_resetPasswordToken (v : option string) (u : t) : t :=
  mk (_id u) (email u) (password u) (name u) (bio u) (location u)
     (profileImage u) (genres u) (securityAnswers u) (reputation u)
     (createdAt u) v (resetPasswordExpires u).

Definition set_resetPasswordExpires (v : option Z) (u : t) : t :=
  mk (_id u) (email u) (password u) (name u) (bio u) (location u)
     (profileImage u) (genres u) (securityAnswers u) (reputation u)
     (createdAt u) (resetPasswordToken u) v.
End User.

(** ** controllers/authController.ts *)

Module AuthController.
Section Handlers.
Context `{Bcrypt} `{Jwt}.

(** An email handed to [sendEmail]. *)
Record Email : Type := mkEmail {
  to : string;
  template : string;
  data : string
}.

(** The users collection and the emails delivered so far. *)
Record World : Type := mkWorld {
  users : list User.t;
  outbox : list Email
}.

(** The filter [{ email }]: Mongoose casts the filter with the schema of
    the path, which trims it. *)
Definition byEmail (email : string) (u : User.t) : bool :=
  bool_decide (User.email u = trim email).

(** The body of [POST /login]; [loginPassword] is [None] when the field is
    absent or is not a string. *)
Record LoginBody : Type := mkLoginBody {
  loginEmail : string;
  loginPassword : option string
}.

Record LoginOk : Type := mkLoginOk {
  okMessage : string;
  okToken : string;
  okId : ObjectId;
  okName : string;
  okEmail : string
}.

Definition login (now : Z) (body : LoginBody) (users : list User.t)
  : Response LoginOk :=
  match findOne (byEmail (loginEmail body)) users with
  | None => ErrorJson 400 "Invalid credentials"
  | Some user =>
      match loginPassword body with
      | None =>
          (* bcrypt.compare throws on a password that is no string *)
          ErrorJson 500 "Login failed, please try again"
      | Some password =>
          let validPassword := bcrypt_compare password (User.password user) in
          if negb validPassword then ErrorJson 400 "Invalid credentials"
          else
            let token := jwt_sign (User._id user) now in
            Json 200 (mkLoginOk "Login successful!" token (User._id user)
                                (User.name user) (User.email user))
      end
  end.

(** [Math.floor(100000 + Math.random() * 900000).toString()], the draw of
    [Math.random()] being the double [k / 2^53] with [0 <= k < 2^53]; the
    product and the sum are rounded as doubles. *)
Definition generateOtp (k : Z) : string :=
  Number_toString (Math_floor (Number_plus 100000 (Number_times k 900000))).

(** [forgotPassword]; [sendOk] tells whether the transport delivers. *)
Definition forgotPassword
    (now : Z) (k : Z) (sendOk : bool) (email : string) (w : World)
  : Response string * World :=
  match findOne (byEmail email) (users w) with
  | None => (ErrorJson 404 "User not found", w)
  | Some user =>
      let otp := generateOtp k in
      let otpExpiry := now + 3600000 in
      let user := User.set_resetPasswordToken (Some otp) user in
      let user := User.set_resetPasswordExpires (Some otpExpiry) user in
      let users1 := replaceDoc User._id user (users w) in
      if sendOk then
        (Json 200 "OTP sent to email",
         mkWorld users1 (outbox w ++ [mkEmail email "passwordReset" otp]))
      else
        let user := User.set_resetPasswordToken None user in
        let user := User.set_resetPasswordExpires None user in
        (ErrorJson 500 "Failed to send OTP email",
         mkWorld (replaceDoc User._id user users1) (outbox w))
  end.

Record ResetBody : Type := mkResetBody {
  resetEmail : string;
  otp : string;
  newPassword : string
}.

(** The filter of [resetPassword]: the email, the code, and an expiry
    [$gt] the current time. *)
Definition otpFilter (now : Z) (email otp : string) (u : User.t) : bool :=
  byEmail email u
  && bool_decide (User.resetPasswordToken u = Some otp)
  && match User.resetPasswordExpires u with
     | Some e => (now <? e)%Z
     | None => false
     end.

Definition resetPassword
    (now : Z) (salt : string) (body : ResetBody) (users : list User.t)
  : Response string * list User.t :=
  match findOne (otpFilter now (resetEmail body) (otp body)) users with
  | None => (ErrorJson 400 "Invalid or expired OTP", users)
  | Some user =>
      let user := User.set_password (bcrypt_hash (newPassword body) salt) user in
      let user := User.set_resetPasswordToken None user in
      let user := User.set_resetPasswordExpires None user in
      (Json 200 "Password reset successful", replaceDoc User._id user users)
  end.

(** The comparison of the submitted answers against the stored hashes:
    [answers.map(async (answer, index) => ...)]. *)
Fixpoint answersMatchFrom (index : nat) (user : User.t) (answers : list string)
  : list bool :=
  match answers with
  | [] => []
  | answer :: rest =>
      (match User.securityAnswers user !! index with
       | None => false
       | Some stored =>
           if bool_decide (stored = "") then false
           else bcrypt_compare (trim (toLowerCase answer)) stored
       end) :: answersMatchFrom (S index) user rest
  end.

Definition answersMatch (user : User.t) (answers : list string) : list bool :=
  answersMatchFrom 0 user answers.

(** [answersMatch.every(match => match)]. *)
Definition every (bs : list bool) : bool := forallb (fun b => b) bs.

Record VerifyBody : Type := mkVerifyBody {
  verifyEmail : string;
  answers : list string
}.

Definition verifySecurityAnswers (body : VerifyBody) (users : list User.t)
  : Response string :=
  if bool_decide (verifyEmail body = "")
     || negb (Nat.eqb (length (answers body)) 3) then
    ErrorJson 400 "Email and three security answers are required"
  else
    match findOne (byEmail (verifyEmail body)) users with
    | None => ErrorJson 400 "Invalid email or security answers"
    | Some user =>
        if negb (every (answersMatch user (answers body))) then
          ErrorJson 400 "Invalid security answers"
        else Json 200 "Security answers verified successfully"
    end.

Record ResetSecBody : Type := mkResetSecBody {
  secEmail : string;
  secAnswers : list string;
  secNewPassword : string
}.

Definition resetPasswordWithSecurityAnswers
    (salt : string) (body : ResetSecBody) (users : list User.t)
  : Response string * list User.t :=
  if bool_decide (secEmail body = "")
     || bool_decide (secNewPassword body = "")
     || negb (Nat.eqb (length (secAnswers body)) 3) then
    (ErrorJson 400 "Email, security answers, and new password are required",
     users)
  else
    match findOne (byEmail (secEmail body)) users with
    | None => (ErrorJson 400 "Invalid email or security answers", users)
    | Some user =>
        if negb (every (answersMatch user (secAnswers body))) then
          (ErrorJson 400 "Invalid security answers", users)
        else
          let hashedPassword := bcrypt_hash (secNewPassword body) salt in
          let user := User.set_password hashedPassword user in
          (Json 200 "Password reset successful",
           replaceDoc User._id user users)
    end.

End Handlers.
End AuthController.

(** ** controllers/bookController.ts *)

(** The parts of the JavaScript runtime [getBooks] relies on:
    [new RegExp(source, 'i')], which throws on a malformed source, with its
    [test], and [String.prototype.localeCompare], a collation order. *)
Class JsRuntime : Type := {
  RegExp_i : string -> option (string -> bool);
  localeCompare : string -> string -> Z;
  localeCompare_total :
    forall a b, (localeCompare a b <= 0 \/ localeCompare b a <= 0)%Z;
  localeCompare_trans :
    forall a b c,
      (localeCompare a b <= 0 -> localeCompare b c <= 0 ->
       localeCompare a c <= 0)%Z
}.

(** [Array.prototype.sort(compare)], a stable sort: an element is placed
    before the first later element it does not compare greater than. *)
Section ArraySort.
Context {A : Type} (compare : A -> A -> Z).

Fixpoint sortInsert (x : A) (l : list A) : list A :=
  match l with
  | [] => [x]
  | y :: l' =>
      if (compare x y <=? 0)%Z then x :: y :: l' else y :: sortInsert x l'
  end.

Definition Array_sort (l : list A) : list A := foldr sortInsert [] l.
End ArraySort.

Module BookController.
Section Handlers.
Context `{JsRuntime}.

Definition ITEMS_PER_PAGE : Z := 15.

(** [req.query]; [page] is the outcome of [parseInt], [None] for [NaN]. *)
Record Query : Type := mkQuery {
  page : option Z;
  search : option string;
  genre : option string;
  condition : option string;
  location : option string;
  sortBy : option string
}.

Record OwnerResponse : Type := mkOwnerResponse {
  ownerId : ObjectId;
  ownerName : string;
  ownerEmail : string;
  ownerLocation : option string;
  ownerGenres : list string
}.

Record BookResponse : Type := mkBookResponse {
  id : ObjectId;
  title : string;
  author : string;
  bookGenre : string;
  bookCondition : string;
  status : string;
  description : option string;
  bookLocation : string;
  owner : OwnerResponse;
  createdAt : Z
}.

Record Pagination : Type := mkPagination {
  currentPage : Z;
  totalPages : Z;
  totalItems : Z;
  itemsPerPage : Z
}.

Record Listing : Type := mkListing {
  books : list BookResponse;
  pagination : Pagination
}.

(** A filter of the form [if (f && f !== 'All') query.where(path).equals(f)]. *)
Definition equalsFilter (f : option string) (v : string) : bool :=
  if truthy f && negb (bool_decide (f = Some "All"))
  then bool_decide (f = Some v) else true.

(** The Mongo query built by [getBooks], once the search expression is
    compiled. *)
Definition matches (q : Query) (re : option (string -> bool)) (b : Book.t)
  : bool :=
  bool_decide (Book.status b = "available")
  && match re with
     | Some test => test (Book.title b) || test (Book.author b)
     | None => true
     end
  && equalsFilter (genre q) (Book.genre b)
  && equalsFilter (condition q) (Book.condition b)
  && equalsFilter (location q) (Book.location b).

Definition includes (l : list string) (s : string) : bool :=
  bool_decide (s ∈ l).

(** The comparator handed to [sort]. *)
Definition compareBooks (sortBy : option string) (userGenres : list string)
    (a b : Book.t) : Z :=
  if bool_decide (sortBy = Some "recommended")
     && Nat.ltb 0 (length userGenres) then
    let aScore := if includes userGenres (Book.genre a) then 1 else 0 in
    let bScore := if includes userGenres (Book.genre b) then 1 else 0 in
    bScore - aScore
  else if bool_decide (sortBy = Some "newest") then
    Book.createdAt b - Book.createdAt a
  else if bool_decide (sortBy = Some "oldest") then
    Book.createdAt a - Book.createdAt b
  else if bool_decide (sortBy = Some "title_asc") then
    localeCompare (Book.title a) (Book.title b)
  else if bool_decide (sortBy = Some "title_desc") then
    localeCompare (Book.title b) (Book.title a)
  else 0.

(** [populate('owner', ...)] followed by the transformation of a book; a
    book whose owner is gone has [owner: null], and reading [_id] of it
    throws. *)
Definition transform (users : list User.t) (b : Book.t)
  : option BookResponse :=
  match findById User._id (Book.owner b) users with
  | None => None
  | Some o =>
      Some (mkBookResponse (Book._id b) (Book.title b) (Book.author b)
              (Book.genre b) (Book.condition b) (Book.status b)
              (Book.description b) (Book.location b)
              (mkOwnerResponse (User._id o) (User.name o) (User.email o)
                 (User.location o) (User.genres o))
              (Book.createdAt b))
  end.

(** [Math.ceil(a / b)] for [b > 0]. *)
Definition ceilDiv (a b : Z) : Z := (a + b - 1) / b.

(** [parseInt(req.query.page) || 1]. *)
Definition currentPageOf (q : Query) : Z :=
  match page q with
  | Some p => if (p =? 0)%Z then 1 else p
  | None => 1
  end.

(** [currentUser?.preferences?.genres || []], [currentUser] being
    [User.findById(req.userId)]. *)
Definition userGenresOf (userId : option ObjectId) (users : list User.t)
  : list string :=
  from_option User.genres []
    (userId ≫= (fun u => findById User._id u users)).

(** The search expression: absent, compiled, or malformed ([None]). *)
Definition compileSearch (q : Query) : option (option (string -> bool)) :=
  if truthy (search q)
  then match RegExp_i (default "" (search q)) with
       | Some test => Some (Some test)
       | None => None
       end
  else Some None.

(** The documents of the query, in natural order, and the page cut out of
    them by [skip] and [limit]. *)
Definition findBooks (q : Query) (re : option (string -> bool))
    (collection : list Book.t) : list Book.t :=
  filter (fun b => Is_true (matches q re b)) collection.

Definition pageSlice (q : Query) (re : option (string -> bool))
    (collection : list Book.t) : list Book.t :=
  take (Z.to_nat ITEMS_PER_PAGE)
    (drop (Z.to_nat ((currentPageOf q - 1) * ITEMS_PER_PAGE))
       (findBooks q re collection)).

(** [getBooks]; [userId] is [req.userId], [None] when the request carries
    no identity. A negative [skip] is refused by the database. *)
Definition getBooks
    (userId : option ObjectId) (q : Query)
    (users : list User.t) (collection : list Book.t)
  : Response Listing :=
  let page := currentPageOf q in
  let userGenres := userGenresOf userId users in
  match compileSearch q with
  | None => ErrorJson 500 "Failed to fetch books"
  | Some re =>
      let totalBooks := Z.of_nat (length (findBooks q re collection)) in
      let skip := (page - 1) * ITEMS_PER_PAGE in
      if (skip <? 0)%Z then ErrorJson 500 "Failed to fetch books"
      else
        let books := pageSlice q re collection in
        let sortedBooks :=
          Array_sort (compareBooks (sortBy q) userGenres) books in
        match mapM (transform users) sortedBooks with
        | None => ErrorJson 500 "Failed to fetch books"
        | Some transformedBooks =>
            Json 200
              (mkListing transformedBooks
                 (mkPagination page (ceilDiv totalBooks ITEMS_PER_PAGE)
                    totalBooks ITEMS_PER_PAGE))
        end
  end.

End Handlers.
End BookController.

(** ** Collections, continued *)

Section CollectionRemoval.
Context {D : Type}.

(** [Model.findOneAndDelete(filter)] and [Model.findByIdAndDelete(id)]: the
    first document that passes the filter is removed. *)
Fixpoint deleteOne (p : D -> bool) (c : list D) : list D :=
  match c with
  | [] => []
  | d :: c' => if p d then c' else d :: deleteOne p c'
  end.

(** [Model.countDocuments(filter)]. *)
Definition countDocuments (p : D -> bool) (c : list D) : nat :=
  length (filter (fun d => Is_true (p d)) c).
End CollectionRemoval.

(** ** controllers/transactionController.ts, the message thread *)

Module ExchangeThread.
Import TransactionController.

(** What [addMessage] reads of the request: [req.params.exchangeId] and
    [message] of the body. *)
Record MessageReq : Type := mkMessageReq {
  msgExchangeId : option string;
  msgText : option string
}.

Definition addMessage
    (now : Z) (userId : ObjectId) (req : MessageReq) (db : Db)
  : Response Transaction.t * Db :=
  match msgExchangeId req ≫= castObjectId with
  | None => (ErrorJson 400 "Invalid exchange ID", db)
  | Some transactionId =>
    match findById Transaction._id transactionId (transactions db) with
    | None => (ErrorJson 404 "Exchange request not found", db)
    | Some transaction =>
      if negb (bool_decide (Transaction.owner transaction = userId)
               || bool_decide (Transaction.requester transaction = userId))
      then (ErrorJson 403 "Not authorized to message in this exchange", db)
      else
        let pushed :=
          Message.mk userId (default "" (msgText req)) now false true in
        let transaction :=
          Transaction.set_messages
            (Transaction.messages transaction ++ [pushed]) transaction in
        if negb (Transaction.validMessage pushed) then
          (ErrorJson 500 "Failed to send message", db)
        else
          let transaction := Transaction.set_updatedAt now transaction in
          (Json 200 transaction,
           mkDb (books db)
                (replaceDoc Transaction._id transaction (transactions db)))
    end
  end.

(** The [$elemMatch] of [getUnreadCount]: a message somebody else sent that
    is not read. *)
Definition unreadFrom (userId : ObjectId) (m : Message.t) : bool :=
  negb (bool_decide (Message.sender m = userId)) && negb (Message.read m).

(** The filter of [getUnreadCount]. *)
Definition unreadFilter (userId : ObjectId) (t : Transaction.t) : bool :=
  (bool_decide (Transaction.requester t = userId)
   || bool_decide (Transaction.owner t = userId))
  && existsb (unreadFrom userId) (Transaction.messages t).

Definition getUnreadCount (userId : ObjectId) (db : Db) : Response nat :=
  Json 200 (countDocuments (unreadFilter userId) (transactions db)).

End ExchangeThread.

(** ** controllers/authController.ts, registration and password change *)

Module Accounts.
Section Handlers.
Context `{Bcrypt} `{Jwt}.
Import AuthController.

(** The body of [POST /register]; an absent field is [None]. *)
Record RegisterBody : Type := mkRegisterBody {
  regEmail : option string;
  regPassword : option string;
  regName : option string;
  regAnswers : option (list string)
}.

Record RegisterOk : Type := mkRegisterOk {
  regToken : string;
  regId : ObjectId;
  regUserName : string;
  regUserEmail : string;
  regGenres : list string
}.

(** The answers as [register] stores them: lower-cased, trimmed, hashed. *)
Definition hashAnswers (salt : string) (answers : list string) : list string :=
  map (fun answer => bcrypt_hash (trim (toLowerCase answer)) salt) answers.

(** The unique index on [email]. *)
Definition emailTaken (email : string) (users : list User.t) : bool :=
  existsb (fun u => bool_decide (User.email u = email)) users.

(** [register]. The schema trims [email] and [name] when the document is
    built, requires both, and keeps [email] unique; a bcrypt hash is never
    empty, so [required] holds of [password]. [sendOk] tells whether the
    welcome email is delivered. *)
Definition register
    (now : Z) (salt : string) (sendOk : bool) (body : RegisterBody)
    (w : World)
  : Response RegisterOk * World :=
  if negb (truthy (regEmail body)) || negb (truthy (regPassword body))
     || negb (truthy (regName body))
     || negb (bool_decide (is_Some (regAnswers body))) then
    (ErrorJson 400 "All fields are required", w)
  else
    let email := default "" (regEmail body) in
    let password := default "" (regPassword body) in
    let name := default "" (regName body) in
    let securityAnswers := default [] (regAnswers body) in
    if negb (Nat.eqb (length securityAnswers) 3)
       || existsb (fun answer => bool_decide (answer = "")) securityAnswers
    then (ErrorJson 400 "Three security answers are required", w)
    else
      match findOne (byEmail email) (users w) with
      | Some _ => (ErrorJson 400 "Email already registered", w)
      | None =>
          let hashedPassword := bcrypt_hash password salt in
          let hashedAnswers := hashAnswers salt securityAnswers in
          let user :=
            User.mk (freshId (map User._id (users w))) (trim email)
              hashedPassword (trim name) None None None [] hashedAnswers
              0 now None None in
          if bool_decide (User.email user = "")
             || bool_decide (User.name user = "")
             || emailTaken (User.email user) (users w)
          then (ErrorJson 500 "Registration failed, please try again", w)
          else
            let token := jwt_sign (User._id user) now in
            let outbox' :=
              if sendOk
              then (outbox w ++ [mkEmail email "welcome" name])%list
              else outbox w in
            (Json 201
               (mkRegisterOk token (User._id user) (User.name user)
                  (User.email user) []),
             mkWorld (insertDoc user (users w)) outbox')
      end.



End Handlers.
End Accounts.

(** ** controllers/bookController.ts, the owner's operations *)

Module BookOwner.
Import BookController.

(** The fields [updateBook] copies from the body; an absent field is
    [None], and Mongoose leaves such a key out of the update. *)
Record UpdateBody : Type := mkUpdateBody {
  updTitle : option string;
  updAuthor : option string;
  updGenre : option string;
  updCondition : option string;
  updDescription : option string;
  updLocation : option string
}.

(** The update applied to the stored book; the schema trims [title],
    [author] and [description]. *)
Definition applyUpdate (u : UpdateBody) (b : Book.t) : Book.t :=
  Book.mk (Book._id b)
    (from_option trim (Book.title b) (updTitle u))
    (from_option trim (Book.author b) (updAuthor u))
    (default (Book.genre b) (updGenre u))
    (match updDescription u with
     | Some d => Some (trim d)
     | None => Book.description b
     end)
    (default (Book.condition b) (updCondition u))
    (default (Book.location b) (updLocation u))
    (Book.owner b) (Book.status b) (Book.createdAt b).

Definition updateBook
    (userId : ObjectId) (idParam : string) (body : UpdateBody)
    (users : list User.t) (books : list Book.t)
  : Response BookResponse * list Book.t :=
  match castObjectId idParam with
  | None => (ErrorJson 500 "Failed to update book", books)
  | Some bookId =>
    match findById Book._id bookId books with
    | None => (ErrorJson 404 "Book not found", books)
    | Some existingBook =>
      if negb (bool_decide (Book.owner existingBook = userId)) then
        (ErrorJson 403 "Not authorized to update this book", books)
      else
        let updatedBook := applyUpdate body existingBook in
        let books' := replaceDoc Book._id updatedBook books in
        match transform users updatedBook with
        | None => (ErrorJson 500 "Failed to update book", books')
        | Some transformedBook => (Json 200 transformedBook, books')
        end
    end
  end.

(** The filter of [deleteBook]: [{ _id: req.params.id, owner: req.userId }]. *)
Definition ownedBook (bookId userId : ObjectId) (b : Book.t) : bool :=
  bool_decide (Book._id b = bookId) && bool_decide (Book.owner b = userId).

Definition deleteBook
    (userId : ObjectId) (idParam : string) (books : list Book.t)
  : Response string * list Book.t :=
  match castObjectId idParam with
  | None => (ErrorJson 500 "Delete failed", books)
  | Some bookId =>
    match findOne (ownedBook bookId userId) books with
    | None => (ErrorJson 404 "Book not found", books)
    | Some _ =>
        (Json 200 "Book deleted successfully",
         deleteOne (ownedBook bookId userId) books)
    end
  end.

End BookOwner.

(** ** controllers/userController.ts *)

Module UserController.

(** The three collections and the files under the upload directory. *)
Record World : Type := mkWorld {
  users : list User.t;
  books : list Book.t;
  transactions : list Transaction.t;
  files : list string
}.

(** [{ $or: [{ requester: userId }, { owner: userId }] }]. *)
Definition involves (userId : ObjectId) (t : Transaction.t) : bool :=
  bool_decide (Transaction.requester t = userId)
  || bool_decide (Transaction.owner t = userId).

(** [Transaction.updateMany(filter, { status: 'cancelled' })] at a time:
    the schema keeps [updatedAt]. *)
Definition cancelInvolved (now : Z) (userId : ObjectId) (t : Transaction.t)
  : Transaction.t :=
  if involves userId t
  then Transaction.set_updatedAt now (Transaction.set_status "cancelled" t)
  else t.

Definition deleteAccount (now : Z) (userId : ObjectId) (w : World)
  : Response string * World :=
  match findById User._id userId (users w) with
  | None => (ErrorJson 404 "User not found", w)
  | Some user =>
      let files' :=
        if truthy (User.profileImage user)
        then filter (fun f => f <> default "" (User.profileImage user))
               (files w)
        else files w in
      let books' := filter (fun b => Book.owner b <> userId) (books w) in
      let transactions' := map (cancelInvolved now userId) (transactions w) in
      let users' :=
        deleteOne (fun u => bool_decide (User._id u = userId)) (users w) in
      (Json 200 "Account deleted successfully",
       mkWorld users' books' transactions' files')
  end.

Record Stats : Type := mkStats {
  totalBooks : nat;
  activeExchanges : nat;
  completedExchanges : nat;
  reputation : Z
}.

Definition getUserStats (userId : ObjectId) (w : World) : Response Stats :=
  let totalBooks :=
    countDocuments (fun b => bool_decide (Book.owner b = userId)) (books w) in
  let activeExchanges :=
    countDocuments
      (fun t => involves userId t
                && (bool_decide (Transaction.status t = "pending")
                    || bool_decide (Transaction.status t = "accepted")))
      (transactions w) in
  let completedExchanges :=
    countDocuments
      (fun t => involves userId t
                && bool_decide (Transaction.status t = "completed"))
      (transactions w) in
  match findById User._id userId (users w) with
  | None => ErrorJson 404 "User not found"
  | Some userWithReputation =>
      Json 200
        (mkStats totalBooks activeExchanges completedExchanges
           (User.reputation userWithReputation))
  end.

End UserController.

(** ** Vocabulary of the statements *)

(** A status update went through: the response carries the saved
    transaction, which now has status [s] and is the stored document [eid]. *)
Definition updateSucceeds
    (r : Response Transaction.t * TransactionController.Db)
    (eid : ObjectId) (s : string) : Prop :=
  exists t',
    r.1 = Json 200 t'
    /\ Transaction.status t' = s
    /\ findById Transaction._id eid (TransactionController.transactions r.2)
       = Some t'.

(** The role guards of a status update: accepting and rejecting are the
    owner's, cancelling is the requester's. *)
Definition roleFits (t : Transaction.t) (userId : ObjectId) (s : string) : Prop :=
  ((s = "accepted" \/ s = "rejected") -> Transaction.owner t = userId)
  /\ (s = "cancelled" -> Transaction.requester t = userId).

Definition isParticipant (t : Transaction.t) (userId : ObjectId) : Prop :=
  Transaction.owner t = userId \/ Transaction.requester t = userId.

(** The message a status update pushes, if any, and the document it saves. *)
Definition pushedMessage (now : Z) (userId : ObjectId)
    (req : TransactionController.UpdateReq) : list Message.t :=
  let s := TransactionController.status req in
  let m := TransactionController.updMessage req in
  if truthy (Some (TransactionController.statusMessages s)) || truthy m
  then [Message.mk userId (orElse m (TransactionController.statusMessages s))
                   now false false]
  else [].

(** The update modifies the stored transaction: the status or the
    modifier differs, or a message is pushed. *)
Definition isModified (now : Z) (userId : ObjectId)
    (req : TransactionController.UpdateReq) (t : Transaction.t) : bool :=
  negb (bool_decide (Transaction.status t = TransactionController.status req))
  || negb (bool_decide (Transaction.lastModifiedBy t = userId))
  || negb (Nat.eqb (length (pushedMessage now userId req)) 0).

Definition updatedTransaction (now : Z) (userId : ObjectId)
    (req : TransactionController.UpdateReq) (t : Transaction.t) : Transaction.t :=
  Transaction.mk (Transaction._id t) (Transaction.book t)
    (Transaction.requester t) (Transaction.owner t)
    (TransactionController.status req) (Transaction.terms t)
    (Transaction.messages t ++ pushedMessage now userId req)
    userId (Transaction.createdAt t)
    (if isModified now userId req t then now else Transaction.updatedAt t).

(** The status a status update gives the book of the transaction. *)
Definition bookStatusAfter (s : string) (old : string) : string :=
  if bool_decide (s = "accepted") then "pending"
  else if bool_decide (s = "rejected") || bool_decide (s = "cancelled")
  then "available"
  else old.

Definition booksAfter (s : string) (t : Transaction.t) (books : list Book.t)
  : list Book.t :=
  match findById Book._id (Transaction.book t) books with
  | Some b =>
      replaceDoc Book._id (Book.set_status (bookStatusAfter s (Book.status b)) b)
        books
  | None => books
  end.

(** The book of the transaction, if it is still stored, passes its schema
    once it carries the status the update gives it; and a sufficient
    condition: it passes its schema as it is stored. *)
Definition bookSaves (s : string) (t : Transaction.t) (books : list Book.t)
  : Prop :=
  forall b, findById Book._id (Transaction.book t) books = Some b ->
    Book.validFields b = true
    /\ Book.validStatus (bookStatusAfter s (Book.status b)) = true.

Definition bookPasses (t : Transaction.t) (books : list Book.t) : Prop :=
  forall b, findById Book._id (Transaction.book t) books = Some b ->
    Book.validate b = true.

Definition bookSavesb (s : string) (t : Transaction.t) (books : list Book.t)
  : bool :=
  match findById Book._id (Transaction.book t) books with
  | Some b =>
      Book.validate (Book.set_status (bookStatusAfter s (Book.status b)) b)
  | None => true
  end.

(** [b'] is [b] but for the status, field by field. *)
Definition sameBookFields (b b' : Book.t) : Prop :=
  Book._id b' = Book._id b /\ Book.title b' = Book.title b
  /\ Book.author b' = Book.author b /\ Book.genre b' = Book.genre b
  /\ Book.description b' = Book.description b
  /\ Book.condition b' = Book.condition b
  /\ Book.location b' = Book.location b /\ Book.owner b' = Book.owner b
  /\ Book.createdAt b' = Book.createdAt b.

(** A submitted security answer matches the hash stored at [index]. *)
Definition matchAt `{Bcrypt} (user : User.t) (index : nat) (answer : string)
  : Prop :=
  exists stored,
    User.securityAnswers user !! index = Some stored
    /\ stored <> ""
    /\ bcrypt_compare (trim (toLowerCase answer)) stored = true.

(** What a status update may change of a transaction, and of a book. *)
Definition sameExchange (t t' : Transaction.t) : Prop :=
  Transaction._id t' = Transaction._id t
  /\ Transaction.book t' = Transaction.book t
  /\ Transaction.requester t' = Transaction.requester t
  /\ Transaction.owner t' = Transaction.owner t
  /\ Transaction.terms t' = Transaction.terms t
  /\ Transaction.createdAt t' = Transaction.createdAt t
  /\ Transaction.messages t `prefix_of` Transaction.messages t'.

Definition sameBookButStatus (b b' : Book.t) : Prop :=
  Book.set_status (Book.status b) b' = b.

(** A string that does not start with white space. *)
Definition trimmedStart (s : string) : Prop :=
  match s with
  | EmptyString => True
  | String c _ => isWhiteSpace c = false
  end.

(** The ids of the books a listing returns, none for an error. *)
Definition listedIds (r : Response BookController.Listing) : list ObjectId :=
  match r with
  | Json _ listing => map BookController.id (BookController.books listing)
  | ErrorJson _ _ => []
  end.

(** The query for another page. *)
Definition setPage (p : Z) (q : BookController.Query) : BookController.Query :=
  BookController.mkQuery (Some p) (BookController.search q)
    (BookController.genre q) (BookController.condition q)
    (BookController.location q) (BookController.sortBy q).

(** A stored transaction passes the validation of its schema; a stored
    book has not been exchanged. *)
Definition storedValid (t : Transaction.t) : Prop :=
  Transaction.validate t = true.

Definition notExchanged (b : Book.t) : Prop := Book.status b <> "exchanged".

(** ** Sample data

    Two users, Alice (who owns the book) and Bob (who asks for it), the
    listing of Dune and Bob's request for it. *)

Module Sample.
Definition alice : ObjectId := 1%N.
Definition bob : ObjectId := 2%N.

Definition duneId : string := "000000000000000000000010".
Definition requestId : string := "000000000000000000000020".

Definition dune (status : string) : Book.t :=
  Book.mk 16%N "Dune" "Frank Herbert" "Science Fiction" None "Good" "Mumbai"
    alice status 1000.

Definition byMail (days : Z) : Terms.t := Terms.mk "mail" days None None.

Definition request (status : string) : Transaction.t :=
  Transaction.mk 32%N 16%N bob alice status (byMail 5) [] bob 2000 2000.

(** Dune with its title blanked. *)
Definition untitled (status : string) : Book.t :=
  Book.mk 16%N "" "Frank Herbert" "Science Fiction" None "Good" "Mumbai"
    alice status 1000.

(** The collections once Bob's request is in [status]. *)
Definition db (status : string) : TransactionController.Db :=
  TransactionController.mkDb [dune "pending"] [request status].

(** The collections before any request. *)
Definition dbListed : TransactionController.Db :=
  TransactionController.mkDb [dune "available"] [].

(** The request has lost its book. *)
Definition dbOrphan : TransactionController.Db :=
  TransactionController.mkDb [] [request "pending"].

(** A stand-in for bcrypt that keeps the data readable, and one for the
    token signer. *)
Definition bcrypt : Bcrypt :=
  {| bcrypt_hash data salt := "$" ++ data;
     bcrypt_compare data hash := bool_decide (hash = "$" ++ data) |}.

Definition jwt : Jwt := {| jwt_sign userId now := "token" |}.

Definition aliceUser (token : option string) (expires : option Z) : User.t :=
  User.mk alice "alice@x.com" "$secret" "Alice" None None None ["Fantasy"]
    ["$rex"; "$pune"; "$blue"] 0 500 token expires.

Definition bobUser : User.t :=
  User.mk bob "bob@x.com" "$hunter2" "Bob" None None None []
    ["$tom"; "$goa"; "$red"] 0 600 None None.

Definition people (token : option string) (expires : option Z)
  : list User.t :=
  [aliceUser token expires; bobUser].

(** A runtime whose expressions match by equality and whose collation is
    the code-unit order. *)
Definition compareStrings (a b : string) : Z :=
  match String.compare a b with Lt => -1 | Eq => 0 | Gt => 1 end.

Lemma compareStrings_total a b :
  compareStrings a b <= 0 \/ compareStrings b a <= 0.
Proof.
  unfold compareStrings. rewrite (String.compare_antisym a b).
  destruct (String.compare b a); simpl; lia.
Qed.

Lemma compareStrings_trans a b c :
  compareStrings a b <= 0 -> compareStrings b c <= 0 ->
  compareStrings a c <= 0.
Proof.
  unfold compareStrings.
  destruct (String.compare a b) eqn:Hab; [| |lia].
  - apply String.compare_eq_iff in Hab. subst b. tauto.
  - destruct (String.compare b c) eqn:Hbc; [| |lia].
    + apply String.compare_eq_iff in Hbc. subst c. rewrite Hab. lia.
    + intros _ _.
      apply String_as_OT.cmp_lt in Hab. apply String_as_OT.cmp_lt in Hbc.
      pose proof (String_as_OT.lt_trans _ _ _ Hab Hbc) as Hac.
      apply String_as_OT.cmp_lt in Hac. unfold String_as_OT.cmp in Hac.
      rewrite Hac. lia.
Qed.

Definition runtime : JsRuntime :=
  {| RegExp_i source := Some (fun s => bool_decide (s = source));
     localeCompare := compareStrings;
     localeCompare_total := compareStrings_total;
     localeCompare_trans := compareStrings_trans |}.

Definition emma : Book.t :=
  Book.mk 17%N "Emma" "Jane Austen" "Romance" None "Fair" "Delhi"
    bob "available" 3000.

Definition hobbit : Book.t :=
  Book.mk 18%N "The Hobbit" "J. R. R. Tolkien" "Fantasy" None "New" "Delhi"
    bob "available" 2000.

Definition ulysses : Book.t :=
  Book.mk 19%N "Ulysses" "James Joyce" "Fiction" None "Poor" "Chennai"
    alice "pending" 4000.

Definition shelf : list Book.t := [dune "available"; emma; ulysses; hobbit].

(** A query with no filter, and the titles of a listing. *)
Definition browse (page : option Z) (sortBy : option string)
  : BookController.Query :=
  BookController.mkQuery page None None None None sortBy.

Definition titlesOf (r : Response BookController.Listing) : list string :=
  match r with
  | Json _ listing =>
      map BookController.title (BookController.books listing)
  | ErrorJson _ _ => []
  end.

(** Carol, who is about to register. *)
Definition carolBody : Accounts.RegisterBody :=
  Accounts.mkRegisterBody (Some " carol@x.com") (Some "pa55word")
    (Some "Carol ") (Some ["Milo"; "Agra"; "Teal"]).

(** Alice's Dune is pending for Bob's request. *)
Definition pendingWorld : UserController.World :=
  UserController.mkWorld (people None None) [dune "pending"]
    [request "pending"] [].
End Sample.

(** * Properties *)

(** ** Collections *)

Section CollectionFacts.
Context {D : Type} (idOf : D -> ObjectId).

Lemma findById_Some_id id c d :
  findById idOf id c = Some d -> idOf d = id.
Proof.
  induction c as [|e c IH]; simpl; [discriminate|].
  case_bool_decide; [intros [= <-]; assumption | exact IH].
Qed.

Lemma findById_replaceDoc_eq d c e :
  findById idOf (idOf d) c = Some e ->
  findById idOf (idOf d) (replaceDoc idOf d c) = Some d.
Proof.
  induction c as [|x c IH]; simpl; [discriminate|].
  case_bool_decide as Hx.
  - intros _. simpl. rewrite bool_decide_true; reflexivity.
  - intros Hf. simpl. rewrite bool_decide_false by assumption. auto.
Qed.

Lemma findById_replaceDoc_ne id d c :
  id <> idOf d ->
  findById idOf id (replaceDoc idOf d c) = findById idOf id c.
Proof.
  intros Hne. induction c as [|x c IH]; simpl; [reflexivity|].
  case_bool_decide as Hx; simpl.
  - rewrite !bool_decide_false by congruence. reflexivity.
  - rewrite IH. reflexivity.
Qed.

Lemma replaceDoc_same d c :
  findById idOf (idOf d) c = Some d -> replaceDoc idOf d c = c.
Proof.
  induction c as [|x c IH]; simpl; [reflexivity|].
  case_bool_decide as Hx; [intros [= ->]; reflexivity|].
  intros Hf. rewrite IH by assumption. reflexivity.
Qed.

Lemma replaceDoc_absent d c :
  findById idOf (idOf d) c = None -> replaceDoc idOf d c = c.
Proof.
  induction c as [|x c IH]; simpl; [reflexivity|].
  case_bool_decide as Hx; [discriminate|].
  intros Hf. rewrite IH by assumption. reflexivity.
Qed.

Lemma findById_le_max id c d :
  findById idOf id c = Some d -> (id <= foldr N.max 0 (map idOf c))%N.
Proof.
  induction c as [|x c IH]; simpl; [discriminate|].
  case_bool_decide as Hx.
  - intros _. subst id. apply N.le_max_l.
  - intros Hf. etransitivity; [apply IH, Hf | apply N.le_max_r].
Qed.

Lemma findById_freshId c :
  findById idOf (freshId (map idOf c)) c = None.
Proof.
  destruct (findById idOf (freshId (map idOf c)) c) as [d|] eqn:Hf;
    [|reflexivity].
  apply findById_le_max in Hf. unfold freshId in Hf. lia.
Qed.

Lemma findById_insertDoc_new d c :
  findById idOf (idOf d) c = None ->
  findById idOf (idOf d) (insertDoc d c) = Some d.
Proof.
  unfold insertDoc. induction c as [|x c IH]; simpl.
  - intros _. rewrite bool_decide_true; reflexivity.
  - case_bool_decide; [discriminate | exact IH].
Qed.
End CollectionFacts.

(** ** The exchange controller *)

Section TransactionFacts.
Import TransactionController.

Lemma set_status_same b : Book.set_status (Book.status b) b = b.
Proof. destruct b; reflexivity. Qed.

Lemma orElse_nonempty m d :
  truthy (Some d) || truthy m = true -> orElse m d <> "".
Proof.
  destruct m as [s|]; simpl; repeat case_bool_decide; simpl;
    congruence.
Qed.

Lemma pushedMessage_valid now userId req :
  forallb Transaction.validMessage (pushedMessage now userId req) = true.
Proof.
  unfold pushedMessage.
  destruct (truthy _ || truthy _) eqn:Hp; [|reflexivity].
  simpl. unfold Transaction.validMessage. simpl.
  rewrite bool_decide_false; [reflexivity|].
  apply orElse_nonempty, Hp.
Qed.

Lemma validStatus_three s :
  s = "accepted" \/ s = "rejected" \/ s = "cancelled" ->
  Transaction.validStatus s = true.
Proof. intros [Hs|[Hs|Hs]]; subst s; reflexivity. Qed.

Lemma booksAfter_invalid s t books :
  Transaction.validStatus s = false -> booksAfter s t books = books.
Proof.
  intros Hv. unfold booksAfter.
  destruct (findById _ _ books) as [b|] eqn:Hb; [|reflexivity].
  assert (bookStatusAfter s (Book.status b) = Book.status b) as ->.
  { unfold bookStatusAfter.
    repeat case_bool_decide; subst; simpl; try reflexivity;
      discriminate Hv. }
  rewrite set_status_same. apply replaceDoc_same.
  rewrite (findById_Some_id _ _ _ _ Hb). exact Hb.
Qed.

(** The validation of a book reads the status apart from the other
    fields. *)
Lemma validate_set_status s b :
  Book.validate (Book.set_status s b)
  = Book.validFields b && Book.validStatus s.
Proof. reflexivity. Qed.

Lemma bookSavesb_spec s t books :
  bookSavesb s t books = true <-> bookSaves s t books.
Proof.
  unfold bookSavesb, bookSaves.
  destruct (findById Book._id (Transaction.book t) books) as [b|].
  - rewrite validate_set_status, andb_true_iff. split.
    + intros Hv b' [= <-]. exact Hv.
    + intros Hv. apply Hv. reflexivity.
  - split; [intros _ b Hb; discriminate Hb | reflexivity].
Qed.

Lemma bookStatusAfter_valid s old :
  Book.validStatus old = true ->
  Book.validStatus (bookStatusAfter s old) = true.
Proof.
  intros Hold. unfold bookStatusAfter.
  repeat case_bool_decide; simpl; first [reflexivity | exact Hold].
Qed.

(** A book that passes its schema as stored can be saved with any status
    an update gives it. *)
Lemma bookPasses_saves s t books : bookPasses t books -> bookSaves s t books.
Proof.
  intros Hp b Hb. specialize (Hp b Hb). unfold Book.validate in Hp.
  apply andb_true_iff in Hp as [Hfields Hs]. split; [exact Hfields|].
  apply bookStatusAfter_valid, Hs.
Qed.

(** For the three guarded statuses only the fields of the book matter. *)
Lemma bookSaves_three s t books :
  s = "accepted" \/ s = "rejected" \/ s = "cancelled" ->
  bookSaves s t books
  <-> forall b, findById Book._id (Transaction.book t) books = Some b ->
        Book.validFields b = true.
Proof.
  intros H3. unfold bookSaves. split.
  - intros Hs b Hb. apply (Hs b Hb).
  - intros Hs b Hb. split; [apply (Hs b Hb)|].
    unfold bookStatusAfter.
    destruct H3 as [H3|[H3|H3]]; rewrite H3; reflexivity.
Qed.

(** The handler past its two lookups. *)
Lemma updateExchangeStatus_found now userId req db eid t :
  exchangeId req ≫= castObjectId = Some eid ->
  findById Transaction._id eid (transactions db) = Some t ->
  updateExchangeStatus now userId req db =
  let s := status req in
  let isOwner := bool_decide (Transaction.owner t = userId) in
  let isRequester := bool_decide (Transaction.requester t = userId) in
  if negb isOwner && negb isRequester then
    (ErrorJson 403 "Not authorized to update this exchange", db)
  else if (bool_decide (s = "accepted") || bool_decide (s = "rejected"))
          && negb isOwner then
    (ErrorJson 403 "Only the owner can accept or reject requests", db)
  else if bool_decide (s = "cancelled") && negb isRequester then
    (ErrorJson 403 "Only the requester can cancel requests", db)
  else if negb (bookSavesb s t (books db)) then
    (ErrorJson 500 "Failed to update exchange status", db)
  else if negb (Transaction.validStatus s
                && forallb Transaction.validMessage
                     (pushedMessage now userId req)) then
    (ErrorJson 500 "Failed to update exchange status",
     mkDb (booksAfter s t (books db)) (transactions db))
  else
    (Json 200 (updatedTransaction now userId req t),
     mkDb (booksAfter s t (books db))
          (replaceDoc Transaction._id (updatedTransaction now userId req t)
             (transactions db))).
Proof.
  intros Hc Hf. unfold updateExchangeStatus. rewrite Hc, Hf. cbv zeta.
  repeat match goal with
         | |- (if ?b then _ else _) = (if ?b then _ else _) =>
             destruct b; [reflexivity|]
         end.
  cbn [Transaction.book Transaction.set_messages Transaction.set_status
       Transaction.set_lastModifiedBy Transaction.status
       Transaction.lastModifiedBy Transaction.messages].
  unfold bookSavesb, booksAfter.
  fold (bookStatusAfter (status req)).
  change (if truthy (Some (statusMessages (status req)))
             || truthy (updMessage req)
          then [Message.mk userId
                  (orElse (updMessage req) (statusMessages (status req)))
                  now false false]
          else [])
    with (pushedMessage now userId req).
  destruct (findById Book._id (Transaction.book t) (books db)) as [b|];
    cbv beta.
  - unfold bookStatusAfter at 1.
    fold (bookStatusAfter (status req) (Book.status b)).
    destruct (Book.validate _); simpl negb; cbv iota; [|reflexivity].
    destruct (negb _); [reflexivity|].
    unfold updatedTransaction, isModified.
    destruct (_ || _ || _); reflexivity.
  - simpl negb. cbv iota. destruct (negb _); [reflexivity|].
    unfold updatedTransaction, isModified.
    destruct (_ || _ || _); reflexivity.
Qed.

(** Every outcome of [updateExchangeStatus] on a stored transaction. *)
Lemma updateExchangeStatus_cases now userId req db eid t :
  exchangeId req ≫= castObjectId = Some eid ->
  findById Transaction._id eid (transactions db) = Some t ->
  let s := status req in
  let r := updateExchangeStatus now userId req db in
  (~ isParticipant t userId
   /\ r = (ErrorJson 403 "Not authorized to update this exchange", db))
  \/ (isParticipant t userId /\ (s = "accepted" \/ s = "rejected")
      /\ Transaction.owner t <> userId
      /\ r = (ErrorJson 403 "Only the owner can accept or reject requests", db))
  \/ (isParticipant t userId /\ s = "cancelled"
      /\ Transaction.requester t <> userId
      /\ r = (ErrorJson 403 "Only the requester can cancel requests", db))
  \/ (isParticipant t userId /\ roleFits t userId s
      /\ (~ bookSaves s t (books db) \/ Transaction.validStatus s = false)
      /\ r = (ErrorJson 500 "Failed to update exchange status", db))
  \/ (isParticipant t userId /\ roleFits t userId s
      /\ bookSaves s t (books db)
      /\ Transaction.validStatus s = true
      /\ r = (Json 200 (updatedTransaction now userId req t),
              mkDb (booksAfter s t (books db))
                   (replaceDoc Transaction._id
                      (updatedTransaction now userId req t)
                      (transactions db)))).
Proof.
  intros Hc Hf s r. subst r.
  rewrite (updateExchangeStatus_found _ _ _ _ _ _ Hc Hf).
  cbv zeta. fold s. rewrite pushedMessage_valid, andb_true_r.
  pose proof (bookSavesb_spec s t (books db)) as Hspec.
  unfold isParticipant, roleFits.
  case_bool_decide as Ho; case_bool_decide as Hr; simpl negb; cbv iota.
  4: { left. split; [tauto | reflexivity]. }
  all: right.
  all: case_bool_decide as Ha; case_bool_decide as Hj;
    case_bool_decide as Hk; simpl orb; simpl andb; cbv iota;
    try congruence.
  all: try (left; repeat split; solve [tauto | reflexivity]).
  all: right; try (left; repeat split; solve [tauto | reflexivity]).
  all: right.
  all: destruct (bookSavesb s t (books db)) eqn:Hb; simpl negb; cbv iota.
  all: try (left; split; [tauto|];
            split; [split; intros; try tauto; congruence|];
            split; [left; intros Hs; apply Hspec in Hs; discriminate Hs
                   | reflexivity]).
  all: destruct (Transaction.validStatus s) eqn:Hv; simpl negb; cbv iota;
    [right | left]; (split; [tauto|]);
    (split; [split; intros; try tauto; congruence|]).
  all: try (split; [apply Hspec; reflexivity|]; split; reflexivity).
  all: split; [right; reflexivity|].
  all: rewrite (booksAfter_invalid _ _ _ Hv); destruct db; reflexivity.
Qed.

End TransactionFacts.

Section StatusUpdates.
Import TransactionController.

Lemma replaceDoc_replaceDoc {D} (idOf : D -> ObjectId) d e c :
  idOf d = idOf e ->
  replaceDoc idOf d (replaceDoc idOf e c) = replaceDoc idOf d c.
Proof.
  intros Hid. induction c as [|x c IH]; simpl; [reflexivity|].
  destruct (decide (idOf x = idOf e)) as [Hx|Hx].
  - rewrite (bool_decide_true (idOf x = idOf e)) by assumption. simpl.
    rewrite !bool_decide_true by congruence. reflexivity.
  - rewrite (bool_decide_false (idOf x = idOf e)) by assumption. simpl.
    rewrite !bool_decide_false by congruence. f_equal. exact IH.
Qed.

Lemma updated_succeeds now userId req db eid t bs :
  findById Transaction._id eid (transactions db) = Some t ->
  updateSucceeds
    (Json 200 (updatedTransaction now userId req t),
     mkDb bs (replaceDoc Transaction._id (updatedTransaction now userId req t)
                (transactions db)))
    eid (status req).
Proof.
  intros Hf. exists (updatedTransaction now userId req t).
  split; [reflexivity|]. split; [reflexivity|]. simpl.
  pose proof (findById_Some_id _ _ _ _ Hf) as Hid. subst eid.
  apply (findById_replaceDoc_eq Transaction._id
           (updatedTransaction now userId req t) _ t).
  exact Hf.
Qed.

(** Through the route as registered, the handler stops at its first check. *)
Remark patchStatusRoute_invalid now userId requestId status message db :
  patchStatusRoute now userId requestId status message db
  = (ErrorJson 400 "Invalid exchange ID", db).
Proof. reflexivity. Qed.

(** A status update goes through exactly when the caller is a participant,
    the role guard of the requested status holds, the status is in the
    enum and the book can be saved. *)
Lemma updateSucceeds_iff now userId req db eid t :
  exchangeId req ≫= castObjectId = Some eid ->
  findById Transaction._id eid (transactions db) = Some t ->
  updateSucceeds (updateExchangeStatus now userId req db) eid (status req)
  <-> isParticipant t userId /\ roleFits t userId (status req)
      /\ Transaction.validStatus (status req) = true
      /\ bookSaves (status req) t (books db).
Proof.
  intros Hc Hf.
  pose proof (updateExchangeStatus_cases now userId req db eid t Hc Hf)
    as Hcases.
  cbv zeta in Hcases.
  pose proof (updated_succeeds now userId req db eid t
                (booksAfter (status req) t (books db)) Hf) as Hok.
  destruct Hcases as
    [[Hn Hr]|[(_ & Hs & Ho & Hr)|[(_ & Hs & Hq & Hr)
    |[(_ & _ & Hbad & Hr)|(Hp & Hfit & Hsaves & Hv & Hr)]]]]; rewrite Hr.
  5: { split; [intros _; auto | intros _; exact Hok]. }
  all: split; [intros (t' & Ht' & _); discriminate Ht'|].
  all: intros (Hp & [Hfo Hfr] & Hv & Hsaves).
  - contradiction.
  - exfalso. auto.
  - exfalso. auto.
  - destruct Hbad as [Hbad|Hbad]; [contradiction | congruence].
Qed.

Lemma update_failure_frame now userId req db eid t :
  exchangeId req ≫= castObjectId = Some eid ->
  findById Transaction._id eid (transactions db) = Some t ->
  isError (updateExchangeStatus now userId req db).1 = true ->
  (updateExchangeStatus now userId req db).2 = db.
Proof.
  intros Hc Hf.
  pose proof (updateExchangeStatus_cases now userId req db eid t Hc Hf)
    as Hcases.
  cbv zeta in Hcases.
  destruct Hcases as
    [[_ Hr]|[(_ & _ & _ & Hr)|[(_ & _ & _ & Hr)
    |[(_ & _ & _ & Hr)|(_ & _ & _ & _ & Hr)]]]]; rewrite Hr; simpl;
    congruence.
Qed.

Lemma owner_guard now userId req db eid t :
  exchangeId req ≫= castObjectId = Some eid ->
  findById Transaction._id eid (transactions db) = Some t ->
  isParticipant t userId ->
  status req = "accepted" \/ status req = "rejected" ->
  Transaction.owner t <> userId ->
  updateExchangeStatus now userId req db
  = (ErrorJson 403 "Only the owner can accept or reject requests", db).
Proof.
  intros Hc Hf [Hp|Hp] Hs Ho; [contradiction|].
  rewrite (updateExchangeStatus_found _ _ _ _ _ _ Hc Hf). cbv zeta.
  rewrite (bool_decide_false (Transaction.owner t = userId)) by assumption.
  rewrite (bool_decide_true (Transaction.requester t = userId)) by assumption.
  destruct Hs as [Hs|Hs]; rewrite Hs; reflexivity.
Qed.

Lemma requester_guard now userId req db eid t :
  exchangeId req ≫= castObjectId = Some eid ->
  findById Transaction._id eid (transactions db) = Some t ->
  isParticipant t userId ->
  status req = "cancelled" ->
  Transaction.requester t <> userId ->
  updateExchangeStatus now userId req db
  = (ErrorJson 403 "Only the requester can cancel requests", db).
Proof.
  intros Hc Hf [Hp|Hp] Hs Hq; [|contradiction].
  rewrite (updateExchangeStatus_found _ _ _ _ _ _ Hc Hf). cbv zeta.
  rewrite (bool_decide_true (Transaction.owner t = userId)) by assumption.
  rewrite (bool_decide_false (Transaction.requester t = userId))
    by assumption.
  rewrite Hs. reflexivity.
Qed.

(** An update that passes the guards and cannot be written answers 500. *)
Lemma update_unwritable now userId req db eid t :
  exchangeId req ≫= castObjectId = Some eid ->
  findById Transaction._id eid (transactions db) = Some t ->
  isParticipant t userId -> roleFits t userId (status req) ->
  ~ bookSaves (status req) t (books db)
  \/ Transaction.validStatus (status req) = false ->
  updateExchangeStatus now userId req db
  = (ErrorJson 500 "Failed to update exchange status", db).
Proof.
  intros Hc Hf Hp [Hfo Hfr] Hbad.
  pose proof (updateExchangeStatus_cases now userId req db eid t Hc Hf)
    as Hcases.
  cbv zeta in Hcases.
  destruct Hcases as
    [[Hn _]|[(_ & Hs & Ho & _)|[(_ & Hs & Hq & _)
    |[(_ & _ & _ & Hr)|(_ & _ & Hsaves & Hv & _)]]]].
  - contradiction.
  - exfalso. auto.
  - exfalso. auto.
  - exact Hr.
  - destruct Hbad as [Hbad|Hbad]; [contradiction | congruence].
Qed.

(** C1, as the handler has it. For a pending transaction and a caller who
    is its owner or its requester: a request for 'accepted' or 'rejected'
    is refused with 403 unless the caller is the owner, and a request for
    'cancelled' is refused with 403 unless the caller is the requester.
    The role guards stop there: they do not cover 'pending', 'modified'
    and 'completed', which either participant can request. A request that
    passes the guards goes through and stores the status when the
    transaction's book is gone or can be saved with its new status, that
    is, passes the Book schema; when the stored book does not pass (its
    owner blanked the title through [updateBook], say), the answer is
    500. A status outside the enum fails validation (500). Every call
    that is answered with an error leaves every collection as it was. *)
Theorem C1_update_status_roles now userId req db eid t :
  exchangeId req ≫= castObjectId = Some eid ->
  findById Transaction._id eid (transactions db) = Some t ->
  Transaction.status t = "pending" ->
  isParticipant t userId ->
  let s := status req in
  let r := updateExchangeStatus now userId req db in
  ((s = "accepted" \/ s = "rejected") ->
     (Transaction.owner t = userId -> bookSaves s t (books db) ->
      updateSucceeds r eid s)
     /\ (Transaction.owner t <> userId ->
         r = (ErrorJson 403 "Only the owner can accept or reject requests",
              db)))
  /\ (s = "cancelled" ->
     (Transaction.requester t = userId -> bookSaves s t (books db) ->
      updateSucceeds r eid s)
     /\ (Transaction.requester t <> userId ->
         r = (ErrorJson 403 "Only the requester can cancel requests", db)))
  /\ (s = "pending" \/ s = "modified" \/ s = "completed" ->
      bookSaves s t (books db) -> updateSucceeds r eid s)
  /\ (Transaction.validStatus s = false ->
      r = (ErrorJson 500 "Failed to update exchange status", db))
  /\ (roleFits t userId s -> ~ bookSaves s t (books db) ->
      r = (ErrorJson 500 "Failed to update exchange status", db))
  /\ (updateSucceeds r eid s ->
      roleFits t userId s /\ bookSaves s t (books db)
      /\ s ∈ Transaction.statusEnum)
  /\ (isError r.1 = true -> r.2 = db).
Proof.
  intros Hc Hf _ Hp s r. subst s r.
  pose proof (updateSucceeds_iff now userId req db eid t Hc Hf) as Hiff.
  split; [|split; [|split; [|split; [|split; [|split]]]]].
  - intros Hs. split.
    + intros Ho Hsaves. apply Hiff. split; [exact Hp|]. split; [split|split].
      * intros _. exact Ho.
      * intros Hk. destruct Hs as [Hs|Hs]; rewrite Hs in Hk; discriminate Hk.
      * apply validStatus_three. tauto.
      * exact Hsaves.
    + intros Ho. apply (owner_guard now userId req db eid t); assumption.
  - intros Hs. split.
    + intros Hq Hsaves. apply Hiff. split; [exact Hp|]. split; [split|split].
      * intros [Hk|Hk]; rewrite Hs in Hk; discriminate Hk.
      * intros _. exact Hq.
      * apply validStatus_three. tauto.
      * exact Hsaves.
    + intros Hq. apply (requester_guard now userId req db eid t); assumption.
  - intros Hs Hsaves. apply Hiff. split; [exact Hp|]. split; [split|split].
    + intros [Hk|Hk]; destruct Hs as [Hs|[Hs|Hs]]; rewrite Hs in Hk;
        discriminate Hk.
    + intros Hk. destruct Hs as [Hs|[Hs|Hs]]; rewrite Hs in Hk;
        discriminate Hk.
    + destruct Hs as [Hs|[Hs|Hs]]; rewrite Hs; reflexivity.
    + exact Hsaves.
  - intros Hv. apply (update_unwritable now userId req db eid t);
      try assumption; [|right; exact Hv].
    split.
    + intros [Hk|Hk]; rewrite Hk in Hv; discriminate Hv.
    + intros Hk. rewrite Hk in Hv. discriminate Hv.
  - intros Hfit Hbad. apply (update_unwritable now userId req db eid t);
      try assumption. left. exact Hbad.
  - intros Hs. apply Hiff in Hs as (_ & Hfit & Hv & Hsaves).
    split; [exact Hfit|]. split; [exact Hsaves|].
    unfold Transaction.validStatus in Hv.
    apply bool_decide_eq_true in Hv. exact Hv.
  - apply update_failure_frame with eid t; assumption.
Qed.

(** C1 at Bob's pending request: Alice, its owner, accepts it. *)
Lemma C1_update_status_roles_witness :
  let req := mkUpdateReq (Some Sample.requestId) "accepted" None in
  updateSucceeds
    (updateExchangeStatus 3000 Sample.alice req (Sample.db "pending"))
    32%N "accepted".
Proof.
  intros req.
  refine (proj1 (proj1 (C1_update_status_roles 3000 Sample.alice req
            (Sample.db "pending") 32%N (Sample.request "pending")
            _ _ _ _) _) _ _).
  - reflexivity.
  - reflexivity.
  - reflexivity.
  - left. reflexivity.
  - left. reflexivity.
  - reflexivity.
  - intros b Hb. injection Hb as <-. split; reflexivity.
Defined.

(** C1 as stated fails: Bob, the requester, asks for 'completed' on his
    pending request; the pair (requester, completed) is none of the three
    allowed ones, yet the call answers 200 and the stored status changes. *)
Lemma C1_counterexample :
  let req := mkUpdateReq (Some Sample.requestId) "completed" None in
  let r := updateExchangeStatus 3000 Sample.bob req (Sample.db "pending") in
  Transaction.status (Sample.request "pending") = "pending"
  /\ Transaction.requester (Sample.request "pending") = Sample.bob
  /\ isError r.1 = false
  /\ Transaction.status <$> findById Transaction._id 32%N (transactions r.2)
     = Some "completed".
Proof. repeat split. Qed.

(** The owner blanks the title of Dune: [updateBook] stores the book
    although [title] is required, and from then on no status update of
    Bob's request can be written. *)
Example blank_title_blocks_updates :
  let shelf :=
    (BookOwner.updateBook Sample.alice Sample.duneId
       (BookOwner.mkUpdateBody (Some "  ") None None None None None)
       (Sample.people None None) [Sample.dune "pending"]).2 in
  shelf = [Sample.untitled "pending"]
  /\ updateExchangeStatus 3000 Sample.alice
       (mkUpdateReq (Some Sample.requestId) "accepted" None)
       (mkDb shelf [Sample.request "pending"])
     = (ErrorJson 500 "Failed to update exchange status",
        mkDb shelf [Sample.request "pending"]).
Proof. split; reflexivity. Qed.

End StatusUpdates.

Section StatusMachine.
Import TransactionController.

(** C2, as the handler has it. No status is terminal for
    [updateExchangeStatus], which never reads the current status: whatever
    the status of the stored transaction ('rejected', 'cancelled' and
    'completed' included), the call goes through exactly when the caller
    is a participant, the role guard of the requested status holds, the
    requested status is one of the six values of the enum and the
    transaction's book is gone or can be saved, and it then stores the
    requested status; a failed call changes nothing; whether the call
    goes through is the same whatever status the transaction had. From
    'pending', with a book that passes its schema, the statuses reachable
    in one step are the six of the enum. *)
Theorem C2_no_terminal_status now userId req db eid t :
  exchangeId req ≫= castObjectId = Some eid ->
  findById Transaction._id eid (transactions db) = Some t ->
  let s := status req in
  let r := updateExchangeStatus now userId req db in
  (updateSucceeds r eid s
   <-> isParticipant t userId /\ roleFits t userId s
       /\ Transaction.validStatus s = true
       /\ bookSaves s t (books db))
  /\ (isError r.1 = true -> r.2 = db)
  /\ (forall s0,
        let db0 :=
          mkDb (books db)
               (replaceDoc Transaction._id (Transaction.set_status s0 t)
                  (transactions db)) in
        updateSucceeds (updateExchangeStatus now userId req db0) eid s
        <-> updateSucceeds r eid s)
  /\ (Transaction.status t = "pending" -> bookPasses t (books db) ->
      forall s',
        (exists now' u m,
            updateSucceeds
              (updateExchangeStatus now' u
                 (mkUpdateReq (exchangeId req) s' m) db) eid s')
        <-> s' ∈ Transaction.statusEnum).
Proof.
  intros Hc Hf s r. subst s r.
  split; [apply updateSucceeds_iff; assumption|].
  split; [apply update_failure_frame with eid t; assumption|].
  split.
  - intros s0 db0.
    pose proof (findById_Some_id _ _ _ _ Hf) as Hid.
    assert (findById Transaction._id eid (transactions db0)
            = Some (Transaction.set_status s0 t)) as Hf0.
    { subst db0 eid. simpl.
      apply (findById_replaceDoc_eq Transaction._id
               (Transaction.set_status s0 t) _ t). exact Hf. }
    rewrite (updateSucceeds_iff now userId req db0 eid _ Hc Hf0).
    rewrite (updateSucceeds_iff now userId req db eid t Hc Hf).
    reflexivity.
  - intros _ Hbook s'. split.
    + intros (now' & u & m & Hs).
      apply (updateSucceeds_iff now' u (mkUpdateReq (exchangeId req) s' m)
               db eid t Hc Hf) in Hs.
      destruct Hs as (_ & _ & Hv & _). simpl in Hv.
      unfold Transaction.validStatus in Hv.
      apply bool_decide_eq_true in Hv. exact Hv.
    + intros Hin.
      exists now,
        (if bool_decide (s' = "cancelled") then Transaction.requester t
         else Transaction.owner t), None.
      apply (updateSucceeds_iff now _ (mkUpdateReq (exchangeId req) s' None)
               db eid t Hc Hf).
      simpl. unfold isParticipant, roleFits.
      pose proof (bookPasses_saves s' t (books db) Hbook) as Hsaves.
      case_bool_decide as Hk.
      * subst s'. repeat split; auto; try (intros [?|?]; discriminate);
          apply Hsaves; assumption.
      * split; [left; reflexivity|].
        split; [split; [reflexivity | contradiction]|].
        split; [|exact Hsaves].
        unfold Transaction.validStatus. apply bool_decide_eq_true. exact Hin.
Qed.

(** C2 at Bob's request once it is rejected: Alice still accepts it. *)
Lemma C2_no_terminal_status_witness :
  let req := mkUpdateReq (Some Sample.requestId) "accepted" None in
  updateSucceeds
    (updateExchangeStatus 3000 Sample.alice req (Sample.db "rejected"))
    32%N "accepted".
Proof.
  intros req.
  apply (proj1 (C2_no_terminal_status 3000 Sample.alice req
                  (Sample.db "rejected") 32%N (Sample.request "rejected")
                  eq_refl eq_refl)).
  split; [left; reflexivity|].
  split; [split; [reflexivity | discriminate]|].
  split; [reflexivity|].
  intros b Hb. injection Hb as <-. split; reflexivity.
Defined.

(** C2 as stated fails: 'rejected' is not terminal. Bob's request is
    rejected; Alice, its owner, asks for 'accepted'; the call answers 200
    and the stored status is now 'accepted'. *)
Lemma C2_counterexample :
  let req := mkUpdateReq (Some Sample.requestId) "accepted" None in
  let r := updateExchangeStatus 3000 Sample.alice req (Sample.db "rejected") in
  Transaction.status <$>
    findById Transaction._id 32%N (transactions (Sample.db "rejected"))
  = Some "rejected"
  /\ isError r.1 = false
  /\ Transaction.status <$> findById Transaction._id 32%N (transactions r.2)
     = Some "accepted".
Proof. repeat split. Qed.

(** An update that changes nothing leaves [updatedAt] alone: Bob asks for
    'pending' on his pending request, which he was the last to modify,
    without a message. *)
Example idle_update_keeps_updatedAt :
  updateExchangeStatus 3000 Sample.bob
    (mkUpdateReq (Some Sample.requestId) "pending" None) (Sample.db "pending")
  = (Json 200 (Sample.request "pending"), Sample.db "pending").
Proof. reflexivity. Qed.

End StatusMachine.

Section StatusSideEffects.
Import TransactionController.

Lemma updateSucceeds_result now userId req db eid t :
  exchangeId req ≫= castObjectId = Some eid ->
  findById Transaction._id eid (transactions db) = Some t ->
  updateSucceeds (updateExchangeStatus now userId req db) eid (status req) ->
  updateExchangeStatus now userId req db
  = (Json 200 (updatedTransaction now userId req t),
     mkDb (booksAfter (status req) t (books db))
          (replaceDoc Transaction._id (updatedTransaction now userId req t)
             (transactions db))).
Proof.
  intros Hc Hf Hs.
  pose proof (updateExchangeStatus_cases now userId req db eid t Hc Hf)
    as Hcases.
  cbv zeta in Hcases.
  destruct Hs as (t' & Ht' & _).
  destruct Hcases as
    [[_ Hr]|[(_ & _ & _ & Hr)|[(_ & _ & _ & Hr)
    |[(_ & _ & _ & Hr)|(_ & _ & _ & _ & Hr)]]]];
    rewrite Hr in Ht' |- *; try discriminate Ht'.
  reflexivity.
Qed.

Lemma sameBookFields_set_status s b : sameBookFields b (Book.set_status s b).
Proof. repeat split. Qed.

(** C4. For a pending transaction and a requested status among 'accepted',
    'rejected' and 'cancelled'. When the update goes through and the book
    is stored, the book is stored afterwards with status 'pending' for
    'accepted' and with status 'available' for 'rejected' and 'cancelled',
    its other fields as before, and no other book is touched. When the
    book no longer exists, the books collection is left alone and the
    update goes through all the same, that is, exactly when the role
    guard holds. When the book is stored, the update goes through exactly
    when the role guard holds and the stored book passes the validation
    of its fields. *)
Theorem C4_book_status_follows now userId req db eid t :
  exchangeId req ≫= castObjectId = Some eid ->
  findById Transaction._id eid (transactions db) = Some t ->
  Transaction.status t = "pending" ->
  let s := status req in
  let r := updateExchangeStatus now userId req db in
  s = "accepted" \/ s = "rejected" \/ s = "cancelled" ->
  (updateSucceeds r eid s ->
   forall b, findById Book._id (Transaction.book t) (books db) = Some b ->
     exists b',
       findById Book._id (Transaction.book t) (books r.2) = Some b'
       /\ (s = "accepted" -> Book.status b' = "pending")
       /\ (s = "rejected" \/ s = "cancelled" -> Book.status b' = "available")
       /\ sameBookFields b b'
       /\ (forall id, id <> Transaction.book t ->
           findById Book._id id (books r.2) = findById Book._id id (books db)))
  /\ (findById Book._id (Transaction.book t) (books db) = None ->
      (updateSucceeds r eid s <-> roleFits t userId s)
      /\ books r.2 = books db)
  /\ (forall b, findById Book._id (Transaction.book t) (books db) = Some b ->
      (updateSucceeds r eid s
       <-> roleFits t userId s /\ Book.validFields b = true)).
Proof.
  intros Hc Hf _ s r H3. subst s r.
  pose proof (updateSucceeds_iff now userId req db eid t Hc Hf) as Hiff.
  pose proof (bookSaves_three (status req) t (books db) H3) as Hthree.
  assert (roleFits t userId (status req) -> isParticipant t userId) as Hpart.
  { intros [Hfo Hfr]. unfold isParticipant.
    destruct H3 as [H3|[H3|H3]]; auto. }
  pose proof (validStatus_three _ H3) as Hv.
  split; [|split].
  - intros Hs b Hb.
    rewrite (updateSucceeds_result now userId req db eid t Hc Hf Hs).
    cbn [snd books]. unfold booksAfter. rewrite Hb.
    pose proof (findById_Some_id _ _ _ _ Hb) as Hid.
    exists (Book.set_status (bookStatusAfter (status req) (Book.status b)) b).
    split.
    { rewrite <- Hid at 1.
      apply (findById_replaceDoc_eq Book._id (Book.set_status _ b) _ b).
      simpl. rewrite Hid. exact Hb. }
    split; [intros Hk; rewrite Hk; reflexivity|].
    split; [intros [Hk|Hk]; rewrite Hk; reflexivity|].
    split; [apply sameBookFields_set_status|].
    intros id Hne. apply findById_replaceDoc_ne. simpl. congruence.
  - intros Hnone. split.
    + rewrite Hiff. split; [tauto|]. intros Hfit.
      split; [apply Hpart, Hfit|]. split; [exact Hfit|].
      split; [exact Hv|]. intros b Hb. congruence.
    + destruct (isError (updateExchangeStatus now userId req db).1) eqn:He.
      * rewrite (update_failure_frame now userId req db eid t Hc Hf He).
        reflexivity.
      * assert (updateSucceeds (updateExchangeStatus now userId req db) eid
                  (status req)) as Hs.
        { pose proof (updateExchangeStatus_cases now userId req db eid t
                        Hc Hf) as Hcases.
          cbv zeta in Hcases.
          destruct Hcases as
            [[_ Hr]|[(_ & _ & _ & Hr)|[(_ & _ & _ & Hr)
            |[(_ & _ & _ & Hr)|(_ & _ & _ & _ & Hr)]]]];
            rewrite Hr in He |- *; try discriminate He.
          apply updated_succeeds. exact Hf. }
        rewrite (updateSucceeds_result now userId req db eid t Hc Hf Hs).
        cbn [snd books]. unfold booksAfter. rewrite Hnone. reflexivity.
  - intros b Hb. rewrite Hiff, Hthree. split.
    + intros (_ & Hfit & _ & Hs). split; [exact Hfit | apply (Hs b Hb)].
    + intros [Hfit Hfields].
      split; [apply Hpart, Hfit|]. split; [exact Hfit|].
      split; [exact Hv|]. intros b' Hb'. congruence.
Qed.

(** C4 at Bob's pending request: Alice rejects it and Dune, which was
    'pending', is stored as 'available'; and at a request whose book is
    gone: Alice rejects it, the update goes through and no book is
    touched. *)
Lemma C4_book_status_follows_witness :
  let req := mkUpdateReq (Some Sample.requestId) "rejected" None in
  let r := updateExchangeStatus 3000 Sample.alice req (Sample.db "pending") in
  let r0 := updateExchangeStatus 3000 Sample.alice req Sample.dbOrphan in
  (exists b',
      findById Book._id 16%N (books r.2) = Some b'
      /\ Book.status b' = "available" /\ Book.title b' = "Dune")
  /\ updateSucceeds r0 32%N "rejected" /\ books r0.2 = [].
Proof.
  intros req r r0.
  assert (roleFits (Sample.request "pending") Sample.alice "rejected")
    as Hfit by (split; [intros _; reflexivity | discriminate]).
  split.
  - pose proof (C4_book_status_follows 3000 Sample.alice req
                  (Sample.db "pending") 32%N (Sample.request "pending")
                  eq_refl eq_refl eq_refl (or_intror (or_introl eq_refl)))
      as (Hbook & _ & Hiff).
    destruct (Hbook (proj2 (Hiff (Sample.dune "pending") eq_refl)
                       (conj Hfit eq_refl))
                (Sample.dune "pending") eq_refl)
      as (b' & Hb' & _ & Hav & Hsame & _).
    exists b'. split; [exact Hb'|].
    split; [apply Hav; left; reflexivity|].
    destruct Hsame as (_ & Htitle & _). exact Htitle.
  - pose proof (C4_book_status_follows 3000 Sample.alice req Sample.dbOrphan
                  32%N (Sample.request "pending") eq_refl eq_refl eq_refl
                  (or_intror (or_introl eq_refl))) as (_ & Hgone & _).
    destruct (Hgone eq_refl) as [Hiff Hbooks].
    split; [apply Hiff, Hfit | exact Hbooks].
Defined.

(** Rejecting Bob's request frees the book. *)
Example reject_frees_book :
  let req := mkUpdateReq (Some Sample.requestId) "rejected" None in
  books (updateExchangeStatus 3000 Sample.alice req (Sample.db "pending")).2
  = [Sample.dune "available"].
Proof. reflexivity. Qed.

(** C5, as the handler has it. A status update to 'accepted', 'rejected'
    or 'cancelled' that goes through appends exactly one message, sent by
    the acting user, unread and not notified; its content is the fixed
    text of the status when the caller supplied no message (or an empty
    one), and is the caller's text alone when the caller supplied one. *)
Theorem C5_status_message now userId req db eid t :
  exchangeId req ≫= castObjectId = Some eid ->
  findById Transaction._id eid (transactions db) = Some t ->
  let s := status req in
  let r := updateExchangeStatus now userId req db in
  s = "accepted" \/ s = "rejected" \/ s = "cancelled" ->
  updateSucceeds r eid s ->
  exists t' m,
    findById Transaction._id eid (transactions r.2) = Some t'
    /\ Transaction.messages t' = (Transaction.messages t ++ [m])%list
    /\ Message.sender m = userId
    /\ Message.createdAt m = now
    /\ Message.read m = false
    /\ Message.notified m = false
    /\ (truthy (updMessage req) = false ->
        (s = "accepted" -> Message.content m = "Request accepted")
        /\ (s = "rejected" -> Message.content m = "Request rejected")
        /\ (s = "cancelled" -> Message.content m = "Request withdrawn"))
    /\ (forall text, updMessage req = Some text -> text <> "" ->
        Message.content m = text).
Proof.
  intros Hc Hf s r H3 Hs. subst s r.
  rewrite (updateSucceeds_result now userId req db eid t Hc Hf Hs).
  exists (updatedTransaction now userId req t),
    (Message.mk userId
       (orElse (updMessage req) (statusMessages (status req))) now
       false false).
  split.
  { simpl. pose proof (findById_Some_id _ _ _ _ Hf) as Hid. subst eid.
    apply (findById_replaceDoc_eq Transaction._id
             (updatedTransaction now userId req t) _ t). exact Hf. }
  split.
  { simpl. f_equal. unfold pushedMessage.
    destruct H3 as [H3|[H3|H3]]; rewrite H3; reflexivity. }
  do 4 (split; [reflexivity|]). simpl. split.
  - intros Hm.
    assert (orElse (updMessage req) (statusMessages (status req))
            = statusMessages (status req)) as ->.
    { destruct (updMessage req) as [text|]; [|reflexivity].
      simpl in Hm |- *. destruct (bool_decide (text = ""));
        [reflexivity | discriminate Hm]. }
    repeat split; intros ->; reflexivity.
  - intros text -> Hne. simpl. rewrite bool_decide_false by assumption.
    reflexivity.
Qed.

(** C5 at Bob's pending request: Alice accepts it and says why. *)
Lemma C5_status_message_witness :
  let req := mkUpdateReq (Some Sample.requestId) "accepted" (Some "See you Friday") in
  let r := updateExchangeStatus 3000 Sample.alice req (Sample.db "pending") in
  exists t' m,
    findById Transaction._id 32%N (transactions r.2) = Some t'
    /\ Transaction.messages t' = [m]
    /\ Message.sender m = Sample.alice
    /\ Message.content m = "See you Friday".
Proof.
  intros req r.
  destruct (C5_status_message 3000 Sample.alice req (Sample.db "pending")
              32%N (Sample.request "pending") eq_refl eq_refl
              (or_introl eq_refl))
    as (t' & m & Hf & Hm & Hsender & _ & _ & _ & _ & Htext).
  - exists (updatedTransaction 3000 Sample.alice req (Sample.request "pending")).
    repeat split.
  - exists t', m. split; [exact Hf|]. split; [exact Hm|].
    split; [exact Hsender|]. apply Htext; [reflexivity | discriminate].
Defined.

(** C5 as stated fails: Alice accepts Bob's request with the message
    "ok". The one message appended has content "ok": no concatenation of
    the fixed text 'Request accepted' with the caller's text, of which
    it is not even long enough to be one. *)
Lemma C5_counterexample :
  let req := mkUpdateReq (Some Sample.requestId) "accepted" (Some "ok") in
  let r := updateExchangeStatus 3000 Sample.alice req (Sample.db "pending") in
  isError r.1 = false
  /\ Transaction.messages <$>
       findById Transaction._id 32%N (transactions r.2)
     = Some [Message.mk Sample.alice "ok" 3000 false false]
  /\ "ok" <> "Request accepted" ++ "ok"
  /\ "ok" <> "ok" ++ "Request accepted"
  /\ (String.length "ok" < String.length "Request accepted")%nat.
Proof.
  cbv zeta. split; [reflexivity|]. split; [reflexivity|].
  split; [discriminate|]. split; [discriminate|]. simpl. lia.
Qed.

End StatusSideEffects.

Section CreateRequest.
Import TransactionController.

(** What [createExchangeRequest] seeds the message log with. *)
Lemma seed_valid userId now (message : option string) :
  forallb Transaction.validMessage
    (if truthy message
     then [Message.mk userId (default "" message) now false false]
     else []) = true.
Proof.
  destruct message as [text|]; simpl; [|reflexivity].
  case_bool_decide as Ht; simpl; [reflexivity|].
  unfold Transaction.validMessage. simpl.
  rewrite bool_decide_false by assumption. reflexivity.
Qed.

Lemma seed_spelled userId now (message : option string) :
  (if truthy message
   then [Message.mk userId (default "" message) now false false]
   else [])
  = match message with
    | Some text =>
        if bool_decide (text = "") then []
        else [Message.mk userId text now false false]
    | None => []
    end.
Proof.
  destruct message as [text|]; simpl; [|reflexivity].
  case_bool_decide; reflexivity.
Qed.

(** The transaction [createExchangeRequest] builds. *)
Lemma createExchangeRequest_found now userId body db bid book :
  castObjectId (bookId body) = Some bid ->
  findById Book._id bid (books db) = Some book ->
  Book.status book = "available" ->
  Book.owner book <> userId ->
  let tx :=
    Transaction.mk (freshId (map Transaction._id (transactions db)))
      bid userId (Book.owner book) "pending" (terms body)
      (if truthy (message body)
       then [Message.mk userId (default "" (message body)) now false false]
       else [])
      userId now now in
  createExchangeRequest now userId body db
  = if negb (Terms.validate (terms body)) then
      (ErrorJson 500 "Failed to create exchange request", db)
    else if negb (Book.validFields book) then
      (ErrorJson 500 "Failed to create exchange request",
       mkDb (books db) (transactions db ++ [tx]))
    else
      (Json 201 tx,
       mkDb (replaceDoc Book._id (Book.set_status "pending" book) (books db))
            (transactions db ++ [tx])).
Proof.
  intros Hc Hb Hav Hown tx. unfold createExchangeRequest.
  rewrite Hc, Hb. cbv zeta.
  rewrite (bool_decide_true (Book.status book = "available")) by assumption.
  rewrite (bool_decide_false (Book.owner book = userId)) by assumption.
  cbn [negb]. cbv iota.
  unfold Transaction.validate. cbn [Transaction.status Transaction.terms
                                      Transaction.messages].
  rewrite seed_valid, andb_true_r.
  change (Transaction.validStatus "pending") with true.
  rewrite andb_true_l, validate_set_status.
  change (Book.validStatus "pending") with true. rewrite andb_true_r.
  reflexivity.
Qed.

(** C3, as the handler has it. [createExchangeRequest] answers with
    success exactly when the book exists, its status is 'available', the
    caller is not its owner, the terms pass the validation of the
    transaction schema (delivery method in the enum, duration from 1 to
    90) and the book passes the validation of its own schema (title,
    author and genre not empty, condition and location in their enums).
    On success the new transaction is 'pending', requested by the caller
    from the book's owner, holds the caller's opening message when one was
    supplied and no message otherwise, is added to the collection under an
    unused id, and the book is stored with status 'pending', its other
    fields and every other book as before. On every failure the books are
    unchanged. On a failure no transaction is created either, with one
    exception: when all but the book's own validation holds, the answer
    is 500 and the new 'pending' transaction is stored all the same,
    [transaction.save()] coming before [book.save()]. *)
Theorem C3_create_request now userId body db :
  let r := createExchangeRequest now userId body db in
  let bookFits bid book :=
    castObjectId (bookId body) = Some bid
    /\ findById Book._id bid (books db) = Some book
    /\ Book.status book = "available"
    /\ Book.owner book <> userId
    /\ Terms.validate (terms body) = true in
  (isError r.1 = false <->
     exists bid book, bookFits bid book /\ Book.validFields book = true)
  /\ (forall code tx, r.1 = Json code tx ->
        code = 201
        /\ Transaction.status tx = "pending"
        /\ Transaction.requester tx = userId
        /\ Transaction.terms tx = terms body
        /\ Transaction.messages tx
           = match message body with
             | Some text =>
                 if bool_decide (text = "") then []
                 else [Message.mk userId text now false false]
             | None => []
             end
        /\ transactions r.2 = (transactions db ++ [tx])%list
        /\ findById Transaction._id (Transaction._id tx) (transactions db)
           = None
        /\ exists bid book book',
             castObjectId (bookId body) = Some bid
             /\ findById Book._id bid (books db) = Some book
             /\ Transaction.book tx = bid
             /\ Transaction.owner tx = Book.owner book
             /\ findById Book._id bid (books r.2) = Some book'
             /\ Book.status book' = "pending"
             /\ sameBookFields book book'
             /\ (forall id, id <> bid ->
                 findById Book._id id (books r.2)
                 = findById Book._id id (books db)))
  /\ (isError r.1 = true -> books r.2 = books db)
  /\ (forall bid book,
        bookFits bid book -> Book.validFields book = false ->
        r.1 = ErrorJson 500 "Failed to create exchange request"
        /\ exists tx,
             transactions r.2 = (transactions db ++ [tx])%list
             /\ Transaction.status tx = "pending"
             /\ Transaction.book tx = bid
             /\ Transaction.requester tx = userId
             /\ Transaction.owner tx = Book.owner book)
  /\ (isError r.1 = true ->
      (forall bid book, ~ bookFits bid book) -> r.2 = db).
Proof.
  intros r bookFits. subst r bookFits. cbv beta.
  destruct (castObjectId (bookId body)) as [bid|] eqn:Hc.
  2: { unfold createExchangeRequest. rewrite Hc. simpl.
       split; [split; [discriminate | intros (? & ? & ([=] & _) & _)]|].
       split; [discriminate|]. split; [reflexivity|].
       split; [intros ? ? ([=] & _) | reflexivity]. }
  destruct (findById Book._id bid (books db)) as [book|] eqn:Hb.
  2: { unfold createExchangeRequest. rewrite Hc, Hb. simpl.
       split; [split; [discriminate
                      | intros (? & ? & ([= <-] & Hb' & _) & _); congruence]|].
       split; [discriminate|]. split; [reflexivity|].
       split; [intros ? ? ([= <-] & Hb' & _); congruence | reflexivity]. }
  destruct (decide (Book.status book = "available")) as [Hav|Hav].
  2: { unfold createExchangeRequest. rewrite Hc, Hb. cbv zeta.
       rewrite (bool_decide_false (Book.status book = "available"))
         by assumption. simpl.
       split; [split; [discriminate
                      | intros (? & ? & ([= <-] & Hb' & Hs & _) & _);
                        congruence]|].
       split; [discriminate|]. split; [reflexivity|].
       split; [intros ? ? ([= <-] & Hb' & Hs & _); congruence
              | reflexivity]. }
  destruct (decide (Book.owner book = userId)) as [Hown|Hown].
  1: { unfold createExchangeRequest. rewrite Hc, Hb. cbv zeta.
       rewrite (bool_decide_true (Book.status book = "available"))
         by assumption.
       rewrite (bool_decide_true (Book.owner book = userId)) by assumption.
       simpl.
       split; [split; [discriminate
                      | intros (? & ? & ([= <-] & Hb' & _ & Ho & _) & _);
                        congruence]|].
       split; [discriminate|]. split; [reflexivity|].
       split; [intros ? ? ([= <-] & Hb' & _ & Ho & _); congruence
              | reflexivity]. }
  rewrite (createExchangeRequest_found now userId body db bid book
             Hc Hb Hav Hown). cbv zeta.
  destruct (Terms.validate (terms body)) eqn:Hv; cbn [negb]; cbv iota.
  2: { simpl.
       split; [split; [discriminate
                      | intros (? & ? & (_ & _ & _ & _ & [=]) & _)]|].
       split; [discriminate|]. split; [reflexivity|].
       split; [intros ? ? (_ & _ & _ & _ & [=]) | reflexivity]. }
  destruct (Book.validFields book) eqn:Hfields; cbn [negb]; cbv iota.
  - cbn [fst snd isError books transactions].
    split; [split; [intros _; exists bid, book; repeat split; assumption
                   | reflexivity]|].
    split.
    { intros code tx [= <- <-]. cbn.
      do 4 (split; [reflexivity|]).
      split; [apply seed_spelled|].
      split; [reflexivity|].
      split; [apply findById_freshId|].
      exists bid, book, (Book.set_status "pending" book).
      do 4 (split; [first [reflexivity | assumption]|]).
      pose proof (findById_Some_id _ _ _ _ Hb) as Hid.
      split.
      { rewrite <- Hid at 1.
        apply (findById_replaceDoc_eq Book._id
                 (Book.set_status "pending" book) _ book).
        simpl. rewrite Hid. exact Hb. }
      split; [reflexivity|].
      split; [apply sameBookFields_set_status|].
      intros id Hne. apply findById_replaceDoc_ne. simpl. congruence. }
    split; [discriminate|].
    split; [|discriminate].
    intros bid' book' ([= <-] & Hb' & _) Hbad. congruence.
  - cbn [fst snd isError books transactions].
    split; [split; [discriminate
                   | intros (? & ? & ([= <-] & Hb' & _) & Hok); congruence]|].
    split; [discriminate|]. split; [reflexivity|].
    split.
    { intros bid' book' ([= <-] & Hb' & _) _.
      assert (book' = book) as -> by congruence.
      split; [reflexivity|]. eexists. split; [reflexivity|].
      repeat split. }
    intros _ Hno. exfalso. apply (Hno bid book). repeat split; assumption.
Qed.

(** C3 at the listed Dune: Bob's request by mail for five days goes
    through, and Dune is stored as 'pending'. *)
Lemma C3_create_request_witness :
  let r :=
    createExchangeRequest 2000 Sample.bob
      (mkCreateBody Sample.duneId (Sample.byMail 5) None) Sample.dbListed in
  isError r.1 = false
  /\ exists book',
       findById Book._id 16%N (books r.2) = Some book'
       /\ Book.status book' = "pending" /\ Book.title book' = "Dune".
Proof.
  intros r.
  pose proof (C3_create_request 2000 Sample.bob
                (mkCreateBody Sample.duneId (Sample.byMail 5) None)
                Sample.dbListed) as (Hiff & Hok & _).
  split.
  - apply Hiff. exists 16%N, (Sample.dune "available").
    repeat split. discriminate.
  - destruct (Hok 201 _ eq_refl)
      as (_ & _ & _ & _ & _ & _ & _ & bid & book & book' & Hc & Hb & _ & _
          & Hb' & Hst & Hsame & _).
    injection Hc as <-. injection Hb as <-.
    exists book'. split; [exact Hb'|]. split; [exact Hst|].
    destruct Hsame as (_ & Htitle & _). exact Htitle.
Defined.

(** Bob asks for Dune, by mail for five days, with an opening line. *)
Example bob_requests_dune :
  createExchangeRequest 2000 Sample.bob
    (mkCreateBody Sample.duneId (Sample.byMail 5) (Some "Hello")) Sample.dbListed
  = (Json 201
       (Transaction.mk 1%N 16%N Sample.bob Sample.alice "pending"
          (Sample.byMail 5)
          [Message.mk Sample.bob "Hello" 2000 false false]
          Sample.bob 2000 2000),
     mkDb [Sample.dune "pending"]
       [Transaction.mk 1%N 16%N Sample.bob Sample.alice "pending"
          (Sample.byMail 5)
          [Message.mk Sample.bob "Hello" 2000 false false]
          Sample.bob 2000 2000]).
Proof. reflexivity. Qed.

(** C3 as stated fails: Dune exists, is 'available' and is not Bob's, yet
    Bob's request for a duration of zero days is answered with an error:
    the new transaction does not pass the schema ([min: 1]). *)
Lemma C3_counterexample :
  let body := mkCreateBody Sample.duneId (Sample.byMail 0) None in
  let r := createExchangeRequest 2000 Sample.bob body Sample.dbListed in
  (exists bid book,
      castObjectId (bookId body) = Some bid
      /\ findById Book._id bid (books Sample.dbListed) = Some book
      /\ Book.status book = "available"
      /\ Book.owner book <> Sample.bob)
  /\ r.1 = ErrorJson 500 "Failed to create exchange request".
Proof.
  cbv zeta. split; [|reflexivity].
  exists 16%N, (Sample.dune "available").
  repeat split. discriminate.
Qed.

(** A request for a book whose title was blanked: the answer is an error
    and the book stays 'available', yet the request is stored. *)
Example untitled_book_orphans_request :
  createExchangeRequest 2000 Sample.bob
    (mkCreateBody Sample.duneId (Sample.byMail 5) None)
    (mkDb [Sample.untitled "available"] [])
  = (ErrorJson 500 "Failed to create exchange request",
     mkDb [Sample.untitled "available"]
       [Transaction.mk 1%N 16%N Sample.bob Sample.alice "pending"
          (Sample.byMail 5) [] Sample.bob 2000 2000]).
Proof. reflexivity. Qed.

End CreateRequest.

(** ** The authentication controller *)

Section FindFacts.
Context {D : Type} (idOf : D -> ObjectId).

Lemma findOne_Some p (c : list D) d :
  findOne p c = Some d -> d ∈ c /\ p d = true.
Proof.
  induction c as [|x c IH]; simpl; [discriminate|].
  destruct (p x) eqn:Hx.
  - intros [= <-]. split; [left | exact Hx].
  - intros Hf. destruct (IH Hf). split; [right; assumption | assumption].
Qed.

Lemma findOne_None p (c : list D) d :
  findOne p c = None -> d ∈ c -> p d = false.
Proof.
  induction c as [|x c IH]; simpl; [intros _ Hin; inversion Hin|].
  destruct (p x) eqn:Hx; [discriminate|].
  intros Hf Hin. inversion Hin; subst; auto.
Qed.

Lemma findById_Some_elem id (c : list D) d :
  findById idOf id c = Some d -> d ∈ c.
Proof.
  induction c as [|x c IH]; simpl; [discriminate|].
  case_bool_decide; [intros [= <-]; left | intros Hf; right; auto].
Qed.

Lemma elem_findById (c : list D) d :
  d ∈ c -> exists e, findById idOf (idOf d) c = Some e.
Proof.
  induction c as [|x c IH]; [intros Hin; inversion Hin|].
  intros Hin. simpl. case_bool_decide; [eauto|].
  inversion Hin; subst; [contradiction | auto].
Qed.

(** Ids are unique in a collection; the document found under the id of a
    stored document is then that document. *)
Lemma NoDup_findById (c : list D) d :
  NoDup (map idOf c) -> d ∈ c -> findById idOf (idOf d) c = Some d.
Proof.
  induction c as [|x c IH]; [intros _ Hin; inversion Hin|].
  simpl. intros Hnd Hin.
  pose proof (NoDup_cons_1_1 _ _ Hnd) as Hx.
  apply NoDup_cons_1_2 in Hnd.
  inversion Hin; subst.
  - rewrite bool_decide_true; reflexivity.
  - rewrite bool_decide_false; [auto|].
    intros Heq. apply Hx. rewrite Heq.
    apply list_elem_of_In, in_map, list_elem_of_In. assumption.
Qed.

Lemma replaceDoc_elem d (c : list D) e :
  findById idOf (idOf d) c = Some e -> d ∈ replaceDoc idOf d c.
Proof.
  intros Hf. eapply findById_Some_elem.
  eapply findById_replaceDoc_eq. exact Hf.
Qed.
End FindFacts.

Section OneTimeCode.

Lemma digitChar_isDigit d : 0 <= d < 10 -> isDigit (digitChar d) = true.
Proof.
  intros Hd.
  assert (d = 0 \/ d = 1 \/ d = 2 \/ d = 3 \/ d = 4 \/ d = 5 \/ d = 6
          \/ d = 7 \/ d = 8 \/ d = 9) as Hcases by lia.
  repeat (destruct Hcases as [->|Hcases]; [reflexivity|]).
  subst d. reflexivity.
Qed.

Lemma digitsOf_allDigits fuel : forall n acc,
  allDigits acc = true -> allDigits (digitsOf fuel n acc) = true.
Proof.
  induction fuel as [|fuel IH]; intros n acc Hacc; simpl; [exact Hacc|].
  assert (allDigits (String (digitChar (n mod 10)) acc) = true) as Hstep.
  { simpl. rewrite digitChar_isDigit, Hacc; [reflexivity|].
    apply Z.mod_pos_bound. lia. }
  destruct (n / 10 =? 0)%Z; [exact Hstep | apply IH, Hstep].
Qed.

Lemma digitsOf_length_six fuel n acc :
  (6 <= fuel)%nat -> 100000 <= n <= 999999 ->
  String.length (digitsOf fuel n acc) = (6 + String.length acc)%nat.
Proof.
  intros Hfuel Hn.
  do 6 (destruct fuel as [|fuel]; [lia|]). clear Hfuel.
  cbn [digitsOf].
  repeat match goal with
         | |- context [(?q =? 0)%Z] =>
             destruct (Z.eqb_spec q 0);
               try (exfalso; Z.to_euclidean_division_equations; lia)
         end.
  reflexivity.
Qed.

(** The rounded value is a multiple of the unit in the last place, next to
    the exact one. *)
Lemma roundDouble_shape n :
  0 <= n ->
  let e := Z.max 0 (Z.log2 n - 52) in
  exists q', roundDouble n = q' * 2 ^ e
    /\ n / 2 ^ e <= q' <= n / 2 ^ e + 1
    /\ (n mod 2 ^ e = 0 -> q' = n / 2 ^ e).
Proof.
  intros Hn e. unfold roundDouble. subst e.
  destruct (Z.leb_spec (Z.log2 n - 52) 0) as [He|He].
  - rewrite Z.max_l by lia. exists n. rewrite Z.pow_0_r, Z.div_1_r.
    split; [lia|]. split; [lia|]. reflexivity.
  - rewrite Z.max_r by lia. set (e := Z.log2 n - 52) in *.
    assert (0 < 2 ^ (e - 1)) as Hhalf by (apply Z.pow_pos_nonneg; lia).
    eexists. split; [reflexivity|]. split.
    + destruct (_ <? _)%Z; [lia|]. destruct (_ <? _)%Z; [lia|].
      destruct (Z.even _); lia.
    + intros ->. destruct (Z.ltb_spec 0 (2 ^ (e - 1))); [reflexivity | lia].
Qed.

(** Rounding never crosses a double. *)
Lemma roundDouble_le n c :
  0 <= n <= c -> (2 ^ Z.max 0 (Z.log2 n - 52) | c) -> roundDouble n <= c.
Proof.
  intros Hn [m Hm].
  destruct (roundDouble_shape n (proj1 Hn)) as (q' & -> & Hq & Hz).
  set (p := 2 ^ Z.max 0 (Z.log2 n - 52)) in *.
  assert (0 < p) as Hp by (apply Z.pow_pos_nonneg; lia).
  pose proof (Z.div_mod n p ltac:(lia)) as Hdm.
  pose proof (Z.mod_pos_bound n p Hp) as Hr.
  subst c. apply Z.mul_le_mono_nonneg_r; [lia|].
  destruct (Z.eq_dec (n mod p) 0) as [H0|H0]; [rewrite (Hz H0); nia | nia].
Qed.

Lemma roundDouble_ge n c :
  0 <= c <= n -> (2 ^ Z.max 0 (Z.log2 n - 52) | c) -> c <= roundDouble n.
Proof.
  intros Hn [m Hm].
  destruct (roundDouble_shape n ltac:(lia)) as (q' & -> & Hq & Hz).
  set (p := 2 ^ Z.max 0 (Z.log2 n - 52)) in *.
  assert (0 < p) as Hp by (apply Z.pow_pos_nonneg; lia).
  pose proof (Z.div_mod n p ltac:(lia)) as Hdm.
  pose proof (Z.mod_pos_bound n p Hp) as Hr.
  subst c. apply Z.mul_le_mono_nonneg_r; [lia|]. nia.
Qed.

Lemma pow2_divide a b : 0 <= a <= b -> (2 ^ a | 2 ^ b).
Proof.
  intros Hab. exists (2 ^ (b - a)). rewrite <- Z.pow_add_r by lia.
  f_equal. lia.
Qed.

Lemma log2_lt_pow2 n b : 0 < b -> n < 2 ^ b -> Z.log2 n < b.
Proof.
  intros Hb Hn. destruct (Z.le_gt_cases n 0) as [H0|H0].
  - rewrite Z.log2_nonpos by exact H0. exact Hb.
  - apply Z.log2_lt_pow2; assumption.
Qed.

(** [Math.random() * 900000] stays below 900000 by at least one unit in
    the last place. *)
Lemma product_range k :
  0 <= k < 2 ^ 53 ->
  0 <= Number_times k 900000 <= 900000 * 2 ^ 53 - 2 ^ 20.
Proof.
  intros Hk. unfold Number_times. set (n := k * 900000).
  assert (0 <= n <= (2 ^ 53 - 1) * 900000) as Hn by (subst n; lia).
  assert (Z.log2 n < 73) as Hlog.
  { apply log2_lt_pow2; [lia|].
    eapply Z.le_lt_trans; [apply Hn | reflexivity]. }
  split.
  { apply (roundDouble_ge n 0); [lia | apply Z.divide_0_r]. }
  destruct (Z.le_gt_cases n (900000 * 2 ^ 53 - 2 ^ 20)) as [Hle|Hgt].
  - apply roundDouble_le; [lia|].
    apply Z.divide_sub_r.
    + apply Z.divide_mul_r, pow2_divide. lia.
    + apply pow2_divide. lia.
  - assert (Z.log2 n = 72) as Hl.
    { apply Z.log2_unique; [lia|]. split.
      - eapply Z.le_trans; [|apply Z.lt_le_incl, Hgt]. discriminate.
      - apply Z.lt_le_trans with ((2 ^ 53 - 1) * 900000 + 1);
          [lia | discriminate]. }
    unfold roundDouble. rewrite Hl. change (72 - 52) with 20.
    change (20 <=? 0)%Z with false. cbv iota.
    change (2 ^ (20 - 1)) with 524288. change (2 ^ 20) with 1048576 in *.
    change (2 ^ 53) with 9007199254740992 in *.
    assert (n / 1048576 = 7730941132799999
            /\ n mod 1048576 = n - 7730941132799999 * 1048576) as [Hq Hr].
    { Z.to_euclidean_division_equations. lia. }
    rewrite Hq, Hr.
    destruct (Z.ltb_spec (n - 7730941132799999 * 1048576) 524288); lia.
Qed.

Lemma otp_range k :
  0 <= k < 2 ^ 53 ->
  100000 <= Math_floor (Number_plus 100000 (Number_times k 900000))
         <= 999999.
Proof.
  intros Hk. pose proof (product_range k Hk) as Hx.
  unfold Math_floor, Number_plus. set (x := Number_times k 900000) in *.
  set (n := 100000 * 2 ^ 53 + x).
  assert (100000 * 2 ^ 53 <= n <= 1000000 * 2 ^ 53 - 2 ^ 20) as Hn
    by (subst n; lia).
  assert (Z.log2 n < 73) as Hlog.
  { apply log2_lt_pow2; [lia|].
    eapply Z.le_lt_trans; [apply Hn | reflexivity]. }
  assert (0 <= Z.log2 n) as Hlog0 by apply Z.log2_nonneg.
  assert (100000 * 2 ^ 53 <= roundDouble n) as Hlo.
  { apply roundDouble_ge; [lia|].
    apply Z.divide_mul_r, pow2_divide. lia. }
  assert (roundDouble n <= 1000000 * 2 ^ 53 - 2 ^ 20) as Hhi.
  { apply roundDouble_le; [lia|].
    apply Z.divide_sub_r.
    + apply Z.divide_mul_r, pow2_divide. lia.
    + apply pow2_divide. lia. }
  change (2 ^ 53) with 9007199254740992 in *.
  change (2 ^ 20) with 1048576 in *.
  Z.to_euclidean_division_equations. lia.
Qed.

(** The one-time code is six decimal digits. *)
Lemma generateOtp_six_digits k :
  0 <= k < 2 ^ 53 ->
  String.length (AuthController.generateOtp k) = 6%nat
  /\ allDigits (AuthController.generateOtp k) = true.
Proof.
  intros Hk. pose proof (otp_range k Hk) as Hn.
  unfold AuthController.generateOtp, Number_toString.
  set (n := Math_floor _) in *.
  split; [|apply digitsOf_allDigits; reflexivity].
  rewrite digitsOf_length_six; [reflexivity | | exact Hn].
  assert (16 <= Z.log2 n) as Hlog.
  { apply Z.log2_le_pow2; [lia|]. change (2 ^ 16) with 65536. lia. }
  lia.
Qed.

Example otp_lowest : AuthController.generateOtp 0 = "100000".
Proof. reflexivity. Qed.

Example otp_highest :
  AuthController.generateOtp (2 ^ 53 - 1) = "999999".
Proof. reflexivity. Qed.

(** The product is rounded before the floor is taken: at this draw the
    exact value lies below 100015 and the double is 100015. *)
Example otp_rounds_as_double :
  AuthController.generateOtp 150119987579 = "100015"
  /\ 100000 + (150119987579 * 900000) / 2 ^ 53 = 100014.
Proof. split; reflexivity. Qed.

End OneTimeCode.

Section AuthFacts.
Context `{Bcrypt} `{Jwt}.
Import AuthController.

Lemma findOne_byEmail_None email users :
  findOne (byEmail email) users = None
  <-> Forall (fun u => User.email u <> trim email) users.
Proof.
  induction users as [|u users IH]; simpl.
  - split; [constructor | reflexivity].
  - unfold byEmail at 1. case_bool_decide as Hu.
    + split; [discriminate|]. intros Hall. inversion Hall; subst.
      contradiction.
    + rewrite IH. split; [intros Hall; constructor; assumption|].
      intros Hall. inversion Hall; subst. assumption.
Qed.

Lemma findOne_byEmail_email email users user :
  findOne (byEmail email) users = Some user -> User.email user = trim email.
Proof.
  induction users as [|u users IH]; simpl; [discriminate|].
  unfold byEmail at 1. case_bool_decide as Hu; [|exact IH].
  intros [= <-]. exact Hu.
Qed.


Lemma issued_cleared user otp e :
  User.set_resetPasswordExpires None
    (User.set_resetPasswordToken None
       (User.set_resetPasswordExpires e
          (User.set_resetPasswordToken otp user)))
  = User.set_resetPasswordExpires None
      (User.set_resetPasswordToken None user).
Proof. reflexivity. Qed.

Lemma cleared_same user :
  User.resetPasswordToken user = None ->
  User.resetPasswordExpires user = None ->
  User.set_resetPasswordExpires None (User.set_resetPasswordToken None user)
  = user.
Proof. destruct user; simpl; intros -> ->; reflexivity. Qed.

(** C7, as the handler has it. The email is looked up trimmed.
    [forgotPassword] answers 404 and changes nothing when no user has the
    email. Otherwise the code is six decimal digits; when the email is
    delivered the user is stored with that code and an expiry one hour
    after the call, every other field and every other user as before, and
    the code is what was mailed, to the address as it was given; when
    delivery fails the answer is 500, nothing is mailed, and the user is
    stored with code and expiry both absent. The record then equals the
    one before the call only if it held no code before: a code stored by
    an earlier request is erased, not restored. *)
Theorem C7_forgot_password now k sendOk email w :
  0 <= k < 2 ^ 53 ->
  NoDup (map User._id (users w)) ->
  let r := forgotPassword now k sendOk email w in
  let otp := generateOtp k in
  String.length otp = 6%nat
  /\ allDigits otp = true
  /\ (Forall (fun u => User.email u <> trim email) (users w) ->
      r = (ErrorJson 404 "User not found", w))
  /\ (forall user,
        findOne (byEmail email) (users w) = Some user ->
        let issued :=
          User.set_resetPasswordExpires (Some (now + 3600000))
            (User.set_resetPasswordToken (Some otp) user) in
        let cleared :=
          User.set_resetPasswordExpires None
            (User.set_resetPasswordToken None user) in
        User.email user = trim email
        /\ (forall id, id <> User._id user ->
            findById User._id id (users r.2) = findById User._id id (users w))
        /\ (sendOk = true ->
           r = (Json 200 "OTP sent to email",
                mkWorld (replaceDoc User._id issued (users w))
                  (outbox w ++ [mkEmail email "passwordReset" otp]))
           /\ exists user',
                findById User._id (User._id user) (users r.2) = Some user'
                /\ User.resetPasswordToken user' = Some otp
                /\ User.resetPasswordExpires user' = Some (now + 3600000)
                /\ User.password user' = User.password user
                /\ User.email user' = User.email user)
        /\ (sendOk = false ->
           r = (ErrorJson 500 "Failed to send OTP email",
                mkWorld (replaceDoc User._id cleared (users w)) (outbox w))
           /\ (exists user',
                findById User._id (User._id user) (users r.2) = Some user'
                /\ User.resetPasswordToken user' = None
                /\ User.resetPasswordExpires user' = None
                /\ User.password user' = User.password user
                /\ User.email user' = User.email user)
           /\ (User.resetPasswordToken user = None ->
               User.resetPasswordExpires user = None -> r.2 = w)
           /\ (is_Some (User.resetPasswordToken user) -> r.2 <> w))).
Proof.
  intros Hk Hnd r otp. subst r otp.
  destruct (generateOtp_six_digits k Hk) as [Hlen Hdig].
  split; [exact Hlen|]. split; [exact Hdig|]. split.
  - intros Hnone. apply findOne_byEmail_None in Hnone.
    unfold forgotPassword. rewrite Hnone. reflexivity.
  - intros user Hsome issued cleared.
    destruct (findOne_Some _ _ _ Hsome) as [Hin _].
    pose proof (NoDup_findById User._id _ _ Hnd Hin) as Hfind.
    split; [apply (findOne_byEmail_email _ _ _ Hsome)|].
    unfold forgotPassword. rewrite Hsome. split; [|split; intros ->].
    + intros id Hne. destruct sendOk; cbn [snd users].
      * apply findById_replaceDoc_ne. exact Hne.
      * rewrite !findById_replaceDoc_ne by exact Hne. reflexivity.
    + split; [reflexivity|]. cbn [snd users]. exists issued.
      split; [|repeat split].
      apply (findById_replaceDoc_eq User._id issued _ user). exact Hfind.
    + rewrite issued_cleared.
      rewrite (replaceDoc_replaceDoc User._id cleared) by reflexivity.
      fold cleared. split; [reflexivity|]. cbn [snd users].
      assert (findById User._id (User._id user)
                (replaceDoc User._id cleared (users w)) = Some cleared)
        as Hcleared
        by (apply (findById_replaceDoc_eq User._id cleared _ user);
            exact Hfind).
      split; [|split].
      * exists cleared. split; [exact Hcleared | repeat split].
      * intros Ht He. subst cleared. rewrite (cleared_same user Ht He).
        rewrite (replaceDoc_same User._id user _ Hfind).
        destruct w; reflexivity.
      * intros [token Ht] Heq.
        assert (findById User._id (User._id user) (users w) = Some cleared)
          as Hw by (rewrite <- Heq; exact Hcleared).
        rewrite Hfind in Hw. injection Hw as Hw.
        rewrite Hw in Ht. discriminate Ht.
Qed.

Lemma every_answersMatch_three user a0 a1 a2 :
  every (answersMatch user [a0; a1; a2]) = true
  <-> matchAt user 0 a0 /\ matchAt user 1 a1 /\ matchAt user 2 a2.
Proof.
  unfold every, answersMatch, matchAt. simpl.
  rewrite !andb_true_iff.
  assert (forall i a,
    (match User.securityAnswers user !! i with
     | Some stored =>
         if bool_decide (stored = "") then false
         else bcrypt_compare (trim (toLowerCase a)) stored
     | None => false
     end = true)
    <-> exists stored,
          User.securityAnswers user !! i = Some stored
          /\ stored <> ""
          /\ bcrypt_compare (trim (toLowerCase a)) stored = true) as Hone.
  { intros i a. destruct (User.securityAnswers user !! i) as [stored|].
    - case_bool_decide as Hs.
      + split; [discriminate | intros (? & [= <-] & Hne & _); contradiction].
      + split; [intros Hc; eauto | intros (? & [= <-] & _ & Hc); exact Hc].
    - split; [discriminate | intros (? & [=] & _)]. }
  rewrite !Hone. tauto.
Qed.

(** The check goes through exactly when the user exists and each of the
    three answers, lower-cased and trimmed, matches the hash stored at its
    position. *)
Lemma verifySecurityAnswers_ok_iff body users :
  isError (verifySecurityAnswers body users) = false
  <-> verifyEmail body <> ""
      /\ exists a0 a1 a2 user,
           answers body = [a0; a1; a2]
           /\ findOne (byEmail (verifyEmail body)) users = Some user
           /\ matchAt user 0 a0 /\ matchAt user 1 a1 /\ matchAt user 2 a2.
Proof.
  unfold verifySecurityAnswers.
  case_bool_decide as He; cbn -[every answersMatch].
  { split; [discriminate | intros [Hne _]; contradiction]. }
  destruct (answers body) as [|a0 [|a1 [|a2 [|a3 rest]]]] eqn:Ha;
    cbn -[every answersMatch];
    try (split; [discriminate | intros (_ & ? & ? & ? & ? & [=] & _)]).
  destruct (findOne _ users) as [user|] eqn:Hu; cbn -[every answersMatch].
  2: { split; [discriminate | intros (_ & ? & ? & ? & ? & _ & [=] & _)]. }
  destruct (every (answersMatch user [a0; a1; a2])) eqn:Hm;
    cbn -[every answersMatch].
  - split; [intros _ | reflexivity]. split; [exact He|].
    exists a0, a1, a2, user. split; [reflexivity|]. split; [reflexivity|].
    apply every_answersMatch_three, Hm.
  - split; [discriminate|].
    intros (_ & b0 & b1 & b2 & u & [= <- <- <-] & [= <-] & Hall).
    apply every_answersMatch_three in Hall. congruence.
Qed.

(** C8, where the handlers part from the claim. Both handlers answer an
    unknown email with 'Invalid email or security answers' and a known
    email whose answers do not all match with 'Invalid security answers':
    the two failures can be told apart, so the error tells whether the
    email is registered. *)
Theorem C8_security_answer_errors_differ
    email1 users1 email2 users2 user given1 given2 :
  email1 <> "" -> length given1 = 3%nat ->
  findOne (byEmail email1) users1 = None ->
  email2 <> "" -> length given2 = 3%nat ->
  findOne (byEmail email2) users2 = Some user ->
  every (answersMatch user given2) = false ->
  verifySecurityAnswers (mkVerifyBody email1 given1) users1
  = ErrorJson 400 "Invalid email or security answers"
  /\ verifySecurityAnswers (mkVerifyBody email2 given2) users2
     = ErrorJson 400 "Invalid security answers"
  /\ verifySecurityAnswers (mkVerifyBody email1 given1) users1
     <> verifySecurityAnswers (mkVerifyBody email2 given2) users2
  /\ (forall salt pw, pw <> "" ->
        (resetPasswordWithSecurityAnswers salt
           (mkResetSecBody email1 given1 pw) users1).1
        = ErrorJson 400 "Invalid email or security answers"
        /\ (resetPasswordWithSecurityAnswers salt
              (mkResetSecBody email2 given2 pw) users2).1
           = ErrorJson 400 "Invalid security answers").
Proof.
  intros He1 Hl1 Hn1 He2 Hl2 Hs2 Hm.
  assert (verifySecurityAnswers (mkVerifyBody email1 given1) users1
          = ErrorJson 400 "Invalid email or security answers") as H1.
  { unfold verifySecurityAnswers. simpl.
    rewrite bool_decide_false, Hl1, Hn1 by assumption. reflexivity. }
  assert (verifySecurityAnswers (mkVerifyBody email2 given2) users2
          = ErrorJson 400 "Invalid security answers") as H2.
  { unfold verifySecurityAnswers. simpl.
    rewrite bool_decide_false, Hl2, Hs2, Hm by assumption. reflexivity. }
  split; [exact H1|]. split; [exact H2|].
  split; [rewrite H1, H2; discriminate|].
  intros salt pw Hpw. unfold resetPasswordWithSecurityAnswers. simpl.
  rewrite !(bool_decide_false (pw = "")) by assumption.
  rewrite !bool_decide_false, Hl1, Hn1, Hl2, Hs2, Hm by assumption.
  split; reflexivity.
Qed.

End AuthFacts.

Section ResetFacts.
Context `{Bcrypt}.
Import AuthController.

Lemma findOne_is_Some {D} (p : D -> bool) (c : list D) d :
  d ∈ c -> p d = true -> exists e, findOne p c = Some e.
Proof.
  intros Hin Hp. destruct (findOne p c) as [e|] eqn:Hf; [eauto|].
  rewrite (findOne_None p c d Hf Hin) in Hp. discriminate.
Qed.


End ResetFacts.

Section AuthExamples.
Import AuthController.

Lemma people_NoDup token expires :
  NoDup (map User._id (Sample.people token expires)).
Proof.
  simpl. apply NoDup_cons_2; [|apply NoDup_singleton].
  intros Hin. apply list_elem_of_singleton in Hin. discriminate Hin.
Qed.



Example login_succeeds :
  @login Sample.bcrypt Sample.jwt 100
    (mkLoginBody "alice@x.com" (Some "secret")) (Sample.people None None)
  = Json 200 (mkLoginOk "Login successful!" "token" Sample.alice "Alice"
                "alice@x.com").
Proof. reflexivity. Qed.

(** The email of a login is trimmed before it is looked up. *)
Example login_trims_email :
  @login Sample.bcrypt Sample.jwt 100
    (mkLoginBody " alice@x.com " (Some "secret")) (Sample.people None None)
  = Json 200 (mkLoginOk "Login successful!" "token" Sample.alice "Alice"
                "alice@x.com").
Proof. reflexivity. Qed.

(** C7 at Bob's account, his email given with a leading blank: the code
    550000 is stored on Bob, with an expiry one hour later, and mailed;
    and at Alice's account, which holds no code: the delivery fails and the
    world ends as it began. *)
Lemma C7_forgot_password_witness :
  let w := mkWorld (Sample.people None None) [] in
  (exists user',
      findById User._id Sample.bob
        (users (forgotPassword 1000 4503599627370496 true " bob@x.com" w).2)
      = Some user'
      /\ User.resetPasswordToken user' = Some "550000"
      /\ User.resetPasswordExpires user' = Some 3601000)
  /\ (forgotPassword 1000 4503599627370496 false "alice@x.com" w).2 = w.
Proof.
  intros w.
  assert (0 <= 4503599627370496 < 2 ^ 53) as Hk
    by (split; [discriminate | reflexivity]).
  split.
  - pose proof (C7_forgot_password 1000 4503599627370496 true " bob@x.com"
                  w Hk (people_NoDup None None)) as Hthm.
    cbv zeta in Hthm. destruct Hthm as (_ & _ & _ & Hfound).
    destruct (Hfound Sample.bobUser eq_refl) as (_ & _ & Hsent & _).
    destruct (Hsent eq_refl) as (_ & user' & Hu & Ht & He & _).
    exists user'. split; [exact Hu|]. split; [exact Ht | exact He].
  - pose proof (C7_forgot_password 1000 4503599627370496 false "alice@x.com"
                  w Hk (people_NoDup None None)) as Hthm.
    cbv zeta in Hthm. destruct Hthm as (_ & _ & _ & Hfound).
    destruct (Hfound (Sample.aliceUser None None) eq_refl)
      as (_ & _ & _ & Hfail).
    destruct (Hfail eq_refl) as (_ & _ & Hsame & _).
    exact (Hsame eq_refl eq_refl).
Defined.

Example forgot_password_delivers :
  forgotPassword 1000 4503599627370496 true " bob@x.com"
    (mkWorld (Sample.people None None) [])
  = (Json 200 "OTP sent to email",
     mkWorld
       [Sample.aliceUser None None;
        User.set_resetPasswordExpires (Some 3601000)
          (User.set_resetPasswordToken (Some "550000") Sample.bobUser)]
       [mkEmail " bob@x.com" "passwordReset" "550000"]).
Proof. reflexivity. Qed.

(** C7 as stated fails: Alice holds the code 111111, valid until
    9000000; a new request whose email cannot be delivered leaves her
    with no code and no expiry, not with the ones she had. *)
Lemma C7_counterexample :
  let w := mkWorld (Sample.people (Some "111111") (Some 9000000)) [] in
  let r := forgotPassword 6000000 0 false "alice@x.com" w in
  r.1 = ErrorJson 500 "Failed to send OTP email"
  /\ findById User._id Sample.alice (users w)
     = Some (Sample.aliceUser (Some "111111") (Some 9000000))
  /\ findById User._id Sample.alice (users r.2)
     = Some (Sample.aliceUser None None)
  /\ r.2 <> w.
Proof. cbv zeta. repeat split. discriminate. Qed.

(** C8 at Alice's account: a stranger's email and a wrong third answer
    for Alice get different errors. *)
Lemma C8_security_answer_errors_differ_witness :
  @verifySecurityAnswers Sample.bcrypt
    (mkVerifyBody "carol@x.com" ["Rex"; "Pune"; "Blue"])
    (Sample.people None None)
  <> @verifySecurityAnswers Sample.bcrypt
       (mkVerifyBody "alice@x.com" ["Rex"; "Pune"; "Green"])
       (Sample.people None None).
Proof.
  refine (proj1 (proj2 (proj2
    (@C8_security_answer_errors_differ Sample.bcrypt
       "carol@x.com" (Sample.people None None)
       "alice@x.com" (Sample.people None None)
       (Sample.aliceUser None None)
       ["Rex"; "Pune"; "Blue"] ["Rex"; "Pune"; "Green"]
       _ eq_refl eq_refl _ eq_refl eq_refl eq_refl)))); discriminate.
Defined.

(** Case and surrounding blanks of an answer do not matter. *)
Example answers_are_normalised :
  @verifySecurityAnswers Sample.bcrypt
    (mkVerifyBody "alice@x.com" ["  REX"; "Pune  "; " bLuE "])
    (Sample.people None None)
  = Json 200 "Security answers verified successfully".
Proof. reflexivity. Qed.


(** The reset through the code uses the code up. *)
Example code_is_single_use :
  let users := Sample.people (Some "123456") (Some 9000) in
  let body := mkResetBody "alice@x.com" "123456" "again" in
  let users' := (@resetPassword Sample.bcrypt 5000 "salt" body users).2 in
  (@resetPassword Sample.bcrypt 5000 "salt" body users).1
  = Json 200 "Password reset successful"
  /\ (@resetPassword Sample.bcrypt 5001 "salt" body users').1
     = ErrorJson 400 "Invalid or expired OTP".
Proof. split; reflexivity. Qed.

End AuthExamples.

(** ** The catalogue controller *)

Section SortFacts.
Context {A : Type} (compare : A -> A -> Z).


Lemma sortInsert_Permutation x l : Permutation (sortInsert compare x l) (x :: l).
Proof.
  induction l as [|y l IH]; simpl; [reflexivity|].
  destruct (compare x y <=? 0)%Z; [reflexivity|].
  rewrite IH. apply perm_swap.
Qed.

Lemma Array_sort_Permutation l : Permutation (Array_sort compare l) l.
Proof.
  induction l as [|x l IH]; simpl; [reflexivity|].
  rewrite sortInsert_Permutation, IH. reflexivity.
Qed.


Hypothesis compare_total : forall a b, le a b \/ le b a.
Hypothesis compare_trans : forall a b c, le a b -> le b c -> le a c.


End SortFacts.

Section SortTransfer.
Context {A B : Type} (T : A -> B -> Prop).

End SortTransfer.

Section RecommendedFacts.
Context {A : Type} (preferred : A -> bool).


End RecommendedFacts.

Section CatalogueFacts.
Context `{JsRuntime}.
Import BookController.


(** A comparator that tells no two elements apart leaves the array as it
    is. *)
Lemma Array_sort_indifferent {A} (c : A -> A -> Z) l :
  (forall a b, c a b = 0) -> Array_sort c l = l.
Proof.
  intros Hc. induction l as [|x l IH]; simpl; [reflexivity|].
  rewrite IH. destruct l as [|y l]; simpl; [reflexivity|].
  rewrite Hc. reflexivity.
Qed.


Lemma transform_fields users b r :
  transform users b = Some r ->
  id r = Book._id b /\ title r = Book.title b
  /\ bookGenre r = Book.genre b /\ status r = Book.status b
  /\ createdAt r = Book.createdAt b.
Proof.
  unfold transform. destruct (findById User._id (Book.owner b) users);
    [|discriminate].
  intros [= <-]. repeat split.
Qed.

Lemma transform_is_Some users b :
  is_Some (findById User._id (Book.owner b) users) ->
  is_Some (transform users b).
Proof. intros [o Ho]. unfold transform. rewrite Ho. eauto. Qed.

Lemma transformed_ids users l bs :
  Forall2 (fun b r => transform users b = Some r) l bs ->
  map id bs = map Book._id l.
Proof.
  induction 1 as [|b r l bs Hb _ IH]; simpl; [reflexivity|].
  rewrite IH. apply transform_fields in Hb as (-> & _). reflexivity.
Qed.


(** [getBooks] past the search expression and the page number: the page is
    cut, sorted and transformed. *)
Lemma getBooks_listing userId q users collection re :
  compileSearch q = Some re ->
  1 <= currentPageOf q ->
  Forall (fun b => is_Some (findById User._id (Book.owner b) users))
    (pageSlice q re collection) ->
  exists bs,
    Forall2 (fun b r => transform users b = Some r)
      (Array_sort (compareBooks (sortBy q) (userGenresOf userId users))
         (pageSlice q re collection)) bs
    /\ getBooks userId q users collection
       = Json 200
           (mkListing bs
              (mkPagination (currentPageOf q)
                 (ceilDiv (Z.of_nat (length (findBooks q re collection))) 15)
                 (Z.of_nat (length (findBooks q re collection))) 15)).
Proof.
  intros Hre Hpage Howners. unfold getBooks. rewrite Hre.
  destruct (Z.ltb_spec ((currentPageOf q - 1) * ITEMS_PER_PAGE) 0)
    as [Hneg|_]; [unfold ITEMS_PER_PAGE in Hneg; lia|].
  set (sorted := Array_sort _ (pageSlice q re collection)).
  assert (is_Some (mapM (transform users) sorted)) as [bs Hbs].
  { apply mapM_is_Some. subst sorted.
    rewrite Array_sort_Permutation.
    eapply Forall_impl; [|exact Howners].
    intros b Hb. apply transform_is_Some, Hb. }
  rewrite Hbs. exists bs. split; [|reflexivity].
  apply mapM_Some. exact Hbs.
Qed.

(** The owner of a book of the page is gone: the listing fails. *)
Lemma getBooks_orphan userId q users collection re b :
  compileSearch q = Some re ->
  b ∈ pageSlice q re collection ->
  findById User._id (Book.owner b) users = None ->
  getBooks userId q users collection = ErrorJson 500 "Failed to fetch books".
Proof.
  intros Hre Hb Hgone. unfold getBooks. rewrite Hre.
  destruct (_ <? 0)%Z; [reflexivity|].
  set (sorted := Array_sort _ (pageSlice q re collection)).
  destruct (mapM (transform users) sorted) as [bs|] eqn:Hbs; [|reflexivity].
  exfalso. apply mapM_Some in Hbs.
  assert (b ∈ sorted) as Hin
    by (subst sorted; rewrite Array_sort_Permutation; exact Hb).
  apply list_elem_of_lookup in Hin as [i Hi].
  destruct (Forall2_lookup_l _ _ _ _ _ Hbs Hi) as (r & _ & Hr).
  unfold transform in Hr. rewrite Hgone in Hr. discriminate Hr.
Qed.



End CatalogueFacts.

Section CatalogueExamples.
Import BookController.

(** The book that is not 'available' is never listed. *)
Example newest_first :
  Sample.titlesOf (@getBooks Sample.runtime None (Sample.browse None (Some "newest"))
              (Sample.people None None) Sample.shelf)
  = ["Emma"; "The Hobbit"; "Dune"].
Proof. reflexivity. Qed.

Example titles_descending :
  Sample.titlesOf (@getBooks Sample.runtime None (Sample.browse None (Some "title_desc"))
              (Sample.people None None) Sample.shelf)
  = ["The Hobbit"; "Emma"; "Dune"].
Proof. reflexivity. Qed.

(** Alice prefers Fantasy; the other books keep their order. *)
Example recommended_for_alice :
  Sample.titlesOf (@getBooks Sample.runtime (Some Sample.alice)
              (Sample.browse None (Some "recommended"))
              (Sample.people None None) Sample.shelf)
  = ["The Hobbit"; "Dune"; "Emma"].
Proof. reflexivity. Qed.

(** Without an identity there are no preferred genres, and 'recommended'
    leaves the natural order. *)
Example recommended_for_nobody :
  Sample.titlesOf (@getBooks Sample.runtime None (Sample.browse None (Some "recommended"))
              (Sample.people None None) Sample.shelf)
  = ["Dune"; "Emma"; "The Hobbit"].
Proof. reflexivity. Qed.

(** The second page of the sample shelf holds nothing and comes back as a
    listing without books. *)
Example empty_second_page :
  @getBooks Sample.runtime None (Sample.browse (Some 2) None)
    (Sample.people None None) Sample.shelf
  = Json 200 (mkListing [] (mkPagination 2 1 3 15)).
Proof. reflexivity. Qed.

(** A listed book whose owner has left makes the listing fail. *)
Example orphan_book_fails_listing :
  @getBooks Sample.runtime None (Sample.browse None None)
    [Sample.aliceUser None None] Sample.shelf
  = ErrorJson 500 "Failed to fetch books".
Proof. reflexivity. Qed.


End CatalogueExamples.

(** ** The message thread *)

Section ReplaceFacts.
Context {D : Type} (idOf : D -> ObjectId).

Lemma replaceDoc_ids d (c : list D) :
  map idOf (replaceDoc idOf d c) = map idOf c.
Proof.
  induction c as [|x c IH]; simpl; [reflexivity|].
  case_bool_decide as Hx; simpl; [rewrite Hx | rewrite IH]; reflexivity.
Qed.

(** Saving a document relates the collection before and after, document by
    document, by any reflexive relation that relates the replaced document
    to the saved one. *)
Lemma replaceDoc_Forall2 (R : D -> D -> Prop) d (c : list D) :
  (forall x, R x x) ->
  (forall e, findById idOf (idOf d) c = Some e -> R e d) ->
  Forall2 R c (replaceDoc idOf d c).
Proof.
  intros Hrefl. induction c as [|x c IH]; simpl; intros Hd; [constructor|].
  case_bool_decide as Hx.
  - constructor; [apply Hd; reflexivity|].
    clear -Hrefl. induction c; constructor; auto.
  - constructor; [apply Hrefl | apply IH, Hd].
Qed.

Lemma countDocuments_replaceDoc (p : D -> bool) d (c : list D) e :
  findById idOf (idOf d) c = Some e ->
  (countDocuments p (replaceDoc idOf d c) + (if p e then 1 else 0)
   = countDocuments p c + (if p d then 1 else 0))%nat.
Proof.
  unfold countDocuments.
  induction c as [|x c IH]; simpl; [discriminate|].
  case_bool_decide as Hx.
  - intros [= ->]. rewrite !filter_cons.
    destruct (p e), (p d); simpl;
      repeat (rewrite decide_True by exact I);
      repeat (rewrite decide_False by (intros []));
      simpl; lia.
  - intros Hf. specialize (IH Hf). rewrite !filter_cons.
    destruct (decide (Is_true (p x))); simpl; lia.
Qed.
End ReplaceFacts.

Section ThreadFacts.
Import TransactionController ExchangeThread.

(** The document [addMessage] saves. *)
Lemma addMessage_found now userId req db eid t :
  msgExchangeId req ≫= castObjectId = Some eid ->
  findById Transaction._id eid (transactions db) = Some t ->
  addMessage now userId req db =
  if negb (bool_decide (Transaction.owner t = userId)
           || bool_decide (Transaction.requester t = userId))
  then (ErrorJson 403 "Not authorized to message in this exchange", db)
  else if negb (truthy (msgText req))
  then (ErrorJson 500 "Failed to send message", db)
  else
    let t' :=
      Transaction.mk (Transaction._id t) (Transaction.book t)
        (Transaction.requester t) (Transaction.owner t)
        (Transaction.status t) (Transaction.terms t)
        (Transaction.messages t
         ++ [Message.mk userId (default "" (msgText req)) now false true])
        (Transaction.lastModifiedBy t) (Transaction.createdAt t) now in
    (Json 200 t',
     mkDb (books db) (replaceDoc Transaction._id t' (transactions db))).
Proof.
  intros Hc Hf. unfold addMessage. rewrite Hc, Hf.
  destruct (negb _); [reflexivity|].
  unfold Transaction.validMessage. simpl.
  destruct (msgText req) as [text|]; simpl; [|reflexivity].
  case_bool_decide; reflexivity.
Qed.

(** X1. [addMessage] on a stored exchange goes through exactly when the
    caller is its owner or its requester and the message is not empty,
    whatever the status of the exchange. It then appends one message, sent
    by the caller, unread and notified, and touches nothing else of the
    exchange but [updatedAt]: status, terms, parties and [lastModifiedBy]
    stay. A call that fails changes nothing. *)
Theorem X1_addMessage_appends now userId req db eid t :
  msgExchangeId req ≫= castObjectId = Some eid ->
  findById Transaction._id eid (transactions db) = Some t ->
  let r := addMessage now userId req db in
  (isError r.1 = false
   <-> isParticipant t userId /\ truthy (msgText req) = true)
  /\ (isError r.1 = false ->
      exists text t',
        msgText req = Some text
        /\ r.1 = Json 200 t'
        /\ findById Transaction._id eid (transactions r.2) = Some t'
        /\ Transaction.messages t'
           = (Transaction.messages t
              ++ [Message.mk userId text now false true])%list
        /\ Transaction.set_updatedAt (Transaction.updatedAt t)
             (Transaction.set_messages (Transaction.messages t) t') = t
        /\ books r.2 = books db)
  /\ (isError r.1 = true -> r.2 = db).
Proof.
  intros Hc Hf r. subst r. rewrite (addMessage_found _ _ _ _ _ _ Hc Hf).
  unfold isParticipant.
  case_bool_decide as Ho; case_bool_decide as Hr; simpl;
    try (destruct (truthy (msgText req)) eqn:Hm; simpl).
  all: split; [split; [try discriminate; intros _; tauto
                      | try reflexivity; intros [Hp Ht];
                        try discriminate Ht; destruct Hp; contradiction]|].
  all: split; [|try reflexivity; discriminate].
  all: try discriminate.
  all: intros _; destruct (msgText req) as [text|]; [|discriminate Hm].
  all: eexists text, _; split; [reflexivity|]; split; [reflexivity|].
  all: split;
    [pose proof (findById_Some_id _ _ _ _ Hf) as Hid; subst eid;
     match goal with
     | |- findById _ _ (replaceDoc _ ?d _) = _ =>
         apply (findById_replaceDoc_eq Transaction._id d _ t)
     end; exact Hf|].
  all: split; [reflexivity|]; split; [destruct t; reflexivity | reflexivity].
Qed.

(** X1 at Bob's rejected request: Bob can still write to Alice. *)
Lemma X1_addMessage_appends_witness :
  let req := mkMessageReq (Some Sample.requestId) (Some "Thanks anyway") in
  isError (addMessage 4000 Sample.bob req (Sample.db "rejected")).1 = false.
Proof.
  intros req.
  apply (proj1 (X1_addMessage_appends 4000 Sample.bob req
                  (Sample.db "rejected") 32%N (Sample.request "rejected")
                  eq_refl eq_refl)).
  split; [right; reflexivity | reflexivity].
Defined.

End ThreadFacts.

Section UnreadFacts.
Import TransactionController ExchangeThread.

Lemma unreadFilter_after_message v userId text now t t' :
  Transaction.requester t' = Transaction.requester t ->
  Transaction.owner t' = Transaction.owner t ->
  Transaction.messages t'
  = (Transaction.messages t ++ [Message.mk userId text now false true])%list ->
  unreadFilter v t'
  = (bool_decide (Transaction.requester t = v)
     || bool_decide (Transaction.owner t = v))
    && (existsb (unreadFrom v) (Transaction.messages t)
        || negb (bool_decide (userId = v))).
Proof.
  intros Hr Ho Hm. unfold unreadFilter. rewrite Hr, Ho, Hm, existsb_app.
  simpl. unfold unreadFrom at 2. simpl.
  rewrite andb_true_r, orb_false_r. reflexivity.
Qed.

(** X2. After a message that went through, the sender's own unread count
    is what it was, and so is that of anybody outside the exchange; for
    the other party the exchange now counts as unread: the count grows by
    one if the exchange held nothing unread for them before and stays
    otherwise, however many messages are unread in it. *)
Theorem X2_unread_count_after_message now userId req db eid t :
  msgExchangeId req ≫= castObjectId = Some eid ->
  findById Transaction._id eid (transactions db) = Some t ->
  isError (addMessage now userId req db).1 = false ->
  let db' := (addMessage now userId req db).2 in
  forall v,
    (v = userId \/ ~ isParticipant t v ->
     getUnreadCount v db' = getUnreadCount v db)
    /\ (v <> userId -> isParticipant t v ->
        getUnreadCount v db'
        = Json 200
            (countDocuments (unreadFilter v) (transactions db)
             + (if unreadFilter v t then 0 else 1))%nat).
Proof.
  intros Hc Hf Hok db' v. subst db'.
  rewrite (addMessage_found _ _ _ _ _ _ Hc Hf) in Hok |- *.
  destruct (negb (bool_decide (Transaction.owner t = userId)
                  || bool_decide (Transaction.requester t = userId)));
    [discriminate Hok|].
  destruct (truthy (msgText req)) eqn:Hm; [|discriminate Hok].
  simpl negb. cbv iota. cbv zeta. cbn [snd transactions].
  set (t' := Transaction.mk _ _ _ _ _ _ _ _ _ _).
  pose proof (findById_Some_id _ _ _ _ Hf) as Hid. subst eid.
  pose proof (countDocuments_replaceDoc Transaction._id (unreadFilter v)
                t' (transactions db) t Hf) as Hcount.
  rewrite (unreadFilter_after_message v userId
             (default "" (msgText req)) now t t' eq_refl eq_refl eq_refl)
    in Hcount.
  unfold getUnreadCount, isParticipant. cbn [transactions].
  assert (unreadFilter v t
          = (bool_decide (Transaction.requester t = v)
             || bool_decide (Transaction.owner t = v))
            && existsb (unreadFrom v) (Transaction.messages t)) as Hold
    by reflexivity.
  rewrite Hold in Hcount |- *.
  split.
  - intros Hv. f_equal.
    destruct Hv as [->|Hout].
    + rewrite (bool_decide_true (userId = userId)) in Hcount by reflexivity.
      simpl negb in Hcount. rewrite orb_false_r in Hcount. lia.
    + assert (bool_decide (Transaction.requester t = v)
              || bool_decide (Transaction.owner t = v) = false) as Hno.
      { repeat case_bool_decide; simpl; try reflexivity; exfalso; tauto. }
      rewrite Hno in Hcount. simpl in Hcount. lia.
  - intros Hne [Ho|Hr]; f_equal.
    all: rewrite (bool_decide_false (userId = v)) in Hcount by congruence.
    all: simpl negb in Hcount; rewrite orb_true_r, andb_true_r in Hcount.
    all: rewrite ?(bool_decide_true _ Ho), ?(bool_decide_true _ Hr),
           ?orb_true_r in Hcount |- *; simpl orb in Hcount |- *;
         simpl andb in Hcount |- *.
    all: destruct (existsb (unreadFrom v) (Transaction.messages t)); lia.
Qed.

(** X2 at Bob's pending request: Bob writes, and Alice, who had nothing
    unread, now has one exchange to look at. *)
Lemma X2_unread_count_after_message_witness :
  let req := mkMessageReq (Some Sample.requestId) (Some "Still there?") in
  getUnreadCount Sample.alice
    (addMessage 4000 Sample.bob req (Sample.db "pending")).2
  = Json 200 1%nat.
Proof.
  intros req.
  exact (proj2 (X2_unread_count_after_message 4000 Sample.bob req
                  (Sample.db "pending") 32%N (Sample.request "pending")
                  eq_refl eq_refl eq_refl Sample.alice)
           ltac:(discriminate) (or_introl eq_refl)).
Defined.

End UnreadFacts.

(** ** The exchange controller, composed *)

Section ExchangeLifecycle.
Import TransactionController.

Lemma Forall2_same {A} (R : A -> A -> Prop) (l : list A) :
  (forall x, R x x) -> Forall2 R l l.
Proof. intros Hrefl. induction l; constructor; auto. Qed.

Lemma sameExchange_refl t : sameExchange t t.
Proof. repeat split. exists []. rewrite app_nil_r. reflexivity. Qed.

Lemma sameBookButStatus_refl b : sameBookButStatus b b.
Proof. apply set_status_same. Qed.

Lemma booksAfter_same_but_status s t books :
  Forall2 sameBookButStatus books (booksAfter s t books).
Proof.
  unfold booksAfter.
  destruct (findById Book._id (Transaction.book t) books) as [b|] eqn:Hb;
    [|apply Forall2_same, sameBookButStatus_refl].
  apply replaceDoc_Forall2; [apply sameBookButStatus_refl|].
  simpl. intros e He.
  rewrite (findById_Some_id _ _ _ _ Hb) in He.
  assert (e = b) as -> by congruence.
  unfold sameBookButStatus. destruct b; reflexivity.
Qed.

(** X3. Whatever the outcome of [updateExchangeStatus], the two
    collections keep their documents in place: no transaction and no book
    is added or removed; of a transaction only the status, the modifier,
    the update time and the tail of the message log can differ (book,
    parties, terms and the messages already there stay); of a book only the
    status can differ. *)
Theorem X3_status_update_preserves now userId req db :
  let r := updateExchangeStatus now userId req db in
  Forall2 sameExchange (transactions db) (transactions r.2)
  /\ Forall2 sameBookButStatus (books db) (books r.2).
Proof.
  intros r. subst r.
  destruct (exchangeId req ≫= castObjectId) as [eid|] eqn:Hc.
  2: { unfold updateExchangeStatus. rewrite Hc.
       split; apply Forall2_same;
         [apply sameExchange_refl | apply sameBookButStatus_refl]. }
  destruct (findById Transaction._id eid (transactions db)) as [t|] eqn:Hf.
  2: { unfold updateExchangeStatus. rewrite Hc, Hf.
       split; apply Forall2_same;
         [apply sameExchange_refl | apply sameBookButStatus_refl]. }
  rewrite (updateExchangeStatus_found _ _ _ _ _ _ Hc Hf). cbv zeta.
  repeat match goal with
         | |- context [if ?b then _ else _] => destruct b
         end; simpl.
  all: split;
    try (apply Forall2_same;
         first [apply sameExchange_refl | apply sameBookButStatus_refl]);
    try apply booksAfter_same_but_status.
  apply replaceDoc_Forall2; [apply sameExchange_refl|].
  simpl. intros e He.
  rewrite (findById_Some_id _ _ _ _ Hf) in He.
  assert (e = t) as -> by congruence.
  repeat split. eexists. reflexivity.
Qed.

(** A request that goes through, spelled out. *)
Lemma createExchangeRequest_ok now userId body db :
  isError (createExchangeRequest now userId body db).1 = false ->
  exists bid book,
    castObjectId (bookId body) = Some bid
    /\ findById Book._id bid (books db) = Some book
    /\ Book.status book = "available"
    /\ Book.owner book <> userId
    /\ Book.validFields book = true
    /\ let tx :=
         Transaction.mk (freshId (map Transaction._id (transactions db)))
           bid userId (Book.owner book) "pending" (terms body)
           (if truthy (message body)
            then [Message.mk userId (default "" (message body)) now
                             false false]
            else [])
           userId now now in
       createExchangeRequest now userId body db
       = (Json 201 tx,
          mkDb (replaceDoc Book._id (Book.set_status "pending" book)
                  (books db))
               (insertDoc tx (transactions db))).
Proof.
  unfold createExchangeRequest.
  destruct (castObjectId (bookId body)) as [bid|]; [|discriminate].
  destruct (findById Book._id bid (books db)) as [book|] eqn:Hb;
    [|discriminate].
  case_bool_decide as Hav; simpl; [|discriminate].
  case_bool_decide as Hown; simpl; [discriminate|].
  destruct (negb (Transaction.validate _)); [discriminate|].
  rewrite validate_set_status.
  destruct (Book.validFields book) eqn:Hfields; simpl; [|discriminate].
  intros _. exists bid, book. repeat split; assumption.
Qed.

(** X4. Once a request for a book has gone through, the next request for
    that book, from anybody and with any terms, is refused with 'Book is
    not available for exchange' and changes nothing. *)
Theorem X4_second_request_refused now userId body db now' userId' body' :
  isError (createExchangeRequest now userId body db).1 = false ->
  castObjectId (bookId body') = castObjectId (bookId body) ->
  let db1 := (createExchangeRequest now userId body db).2 in
  createExchangeRequest now' userId' body' db1
  = (ErrorJson 400 "Book is not available for exchange", db1).
Proof.
  intros Hok Hsame db1. subst db1.
  destruct (createExchangeRequest_ok _ _ _ _ Hok)
    as (bid & book & Hc & Hb & _ & _ & _ & Hres).
  cbv zeta in Hres. rewrite Hres. cbn [snd].
  unfold createExchangeRequest at 1. rewrite Hsame, Hc. cbn [books].
  pose proof (findById_Some_id _ _ _ _ Hb) as Hid. subst bid.
  rewrite (findById_replaceDoc_eq Book._id (Book.set_status "pending" book)
             _ book) by (destruct book; exact Hb).
  reflexivity.
Qed.

(** X4 at the listed Dune: Bob has asked for it, and the same request
    again is refused. *)
Lemma X4_second_request_refused_witness :
  let body := mkCreateBody Sample.duneId (Sample.byMail 5) None in
  let db1 := (createExchangeRequest 2000 Sample.bob body Sample.dbListed).2 in
  createExchangeRequest 2500 Sample.bob body db1
  = (ErrorJson 400 "Book is not available for exchange", db1).
Proof.
  intros body.
  exact (X4_second_request_refused 2000 Sample.bob body Sample.dbListed
           2500 Sample.bob body eq_refl eq_refl).
Defined.

End ExchangeLifecycle.

Section RequestRoundTrip.
Import TransactionController.

(** Whether a request goes through depends on the books and the request,
    not on the transactions already stored. *)
Lemma createExchangeRequest_isError_books now userId body db db' :
  books db = books db' ->
  isError (createExchangeRequest now userId body db).1
  = isError (createExchangeRequest now userId body db').1.
Proof.
  intros Hb. unfold createExchangeRequest. rewrite Hb.
  destruct (castObjectId (bookId body)); [|reflexivity].
  destruct (findById Book._id _ (books db')); [|reflexivity].
  repeat (case_bool_decide; simpl; try reflexivity).
  unfold Transaction.validate. simpl.
  destruct (Terms.validate (terms body) && _); simpl; [|reflexivity].
  destruct (negb (Book.validate _)); reflexivity.
Qed.

(** X5. A request that went through and is then withdrawn by its requester,
    or rejected by the book's owner, leaves the books collection exactly as
    it was before the request: the update goes through, the stored
    transaction carries the new status, and any later request is decided
    as it would have been before the first one. *)
Theorem X5_request_then_release now userId body db tx now' caller req :
  (createExchangeRequest now userId body db).1 = Json 201 tx ->
  exchangeId req ≫= castObjectId = Some (Transaction._id tx) ->
  (status req = "cancelled" /\ caller = userId)
  \/ (status req = "rejected" /\ caller = Transaction.owner tx) ->
  let db1 := (createExchangeRequest now userId body db).2 in
  let r := updateExchangeStatus now' caller req db1 in
  updateSucceeds r (Transaction._id tx) (status req)
  /\ books r.2 = books db
  /\ (forall now2 userId2 body2,
        isError (createExchangeRequest now2 userId2 body2 r.2).1
        = isError (createExchangeRequest now2 userId2 body2 db).1).
Proof.
  intros Hres Hcast Hwho db1 r.
  assert (isError (createExchangeRequest now userId body db).1 = false)
    as Hok by (rewrite Hres; reflexivity).
  destruct (createExchangeRequest_ok _ _ _ _ Hok)
    as (bid & book & Hc & Hb & Hav & Hown & Hfields & Heq).
  cbv zeta in Heq. subst r db1. rewrite Heq in Hres |- *.
  injection Hres as <-. cbn [snd] in *.
  set (tx := Transaction.mk _ _ _ _ _ _ _ _ _ _) in *.
  set (db1 := mkDb _ _).
  assert (findById Transaction._id (Transaction._id tx) (transactions db1)
          = Some tx) as Hf.
  { apply (findById_insertDoc_new Transaction._id tx).
    apply (findById_freshId Transaction._id). }
  assert (updateSucceeds (updateExchangeStatus now' caller req db1)
            (Transaction._id tx) (status req)) as Hs.
  { apply (updateSucceeds_iff now' caller req db1 _ tx Hcast Hf).
    assert (bookSaves (status req) tx (books db1)) as Hsaves.
    { apply bookSaves_three;
        [destruct Hwho as [[Hst _]|[Hst _]]; rewrite Hst; auto|].
      intros b Hb'. subst db1. cbn [books] in Hb'.
      change (Transaction.book tx) with bid in Hb'.
      pose proof (findById_Some_id _ _ _ _ Hb) as Hid.
      rewrite <- Hid in Hb' at 1.
      rewrite (findById_replaceDoc_eq Book._id
                 (Book.set_status "pending" book) _ book) in Hb'
        by (simpl; rewrite Hid; exact Hb).
      injection Hb' as <-. exact Hfields. }
    unfold isParticipant, roleFits.
    destruct Hwho as [[Hst ->]|[Hst ->]]; rewrite Hst in *; simpl.
    - split; [right; reflexivity|].
      split; [split; [intros [Hk|Hk]; discriminate Hk | reflexivity]|].
      split; [reflexivity | exact Hsaves].
    - split; [left; reflexivity|].
      split; [split; [reflexivity | intros Hk; discriminate Hk]|].
      split; [reflexivity | exact Hsaves]. }
  assert (books (updateExchangeStatus now' caller req db1).2 = books db)
    as Hbooks.
  { rewrite (updateSucceeds_result now' caller req db1 _ tx Hcast Hf Hs).
    cbn [snd books]. unfold booksAfter. subst db1. cbn [books].
    change (Transaction.book tx) with bid.
    pose proof (findById_Some_id _ _ _ _ Hb) as Hid. subst bid.
    rewrite (findById_replaceDoc_eq Book._id (Book.set_status "pending" book)
               _ book) by (destruct book; exact Hb).
    rewrite (replaceDoc_replaceDoc Book._id) by reflexivity.
    assert (bookStatusAfter (status req) "pending" = "available") as Hst
      by (destruct Hwho as [[-> _]|[-> _]]; reflexivity).
    simpl Book.status. rewrite Hst.
    assert (Book.set_status "available" (Book.set_status "pending" book)
            = book) as -> by (destruct book; simpl in Hav; subst;
                              reflexivity).
    apply replaceDoc_same. exact Hb. }
  split; [exact Hs|]. split; [exact Hbooks|].
  intros now2 userId2 body2.
  apply createExchangeRequest_isError_books. exact Hbooks.
Qed.

(** X5 at the listed Dune: Bob asks for it and withdraws; the shelf is as
    it was. *)
Lemma X5_request_then_release_witness :
  let body := mkCreateBody Sample.duneId (Sample.byMail 5) None in
  let db1 := (createExchangeRequest 2000 Sample.bob body Sample.dbListed).2 in
  let req :=
    mkUpdateReq (Some "000000000000000000000001") "cancelled" None in
  books (updateExchangeStatus 2500 Sample.bob req db1).2
  = books Sample.dbListed.
Proof.
  intros body db1 req.
  exact (proj1 (proj2
    (X5_request_then_release 2000 Sample.bob body Sample.dbListed _
       2500 Sample.bob req eq_refl eq_refl
       (or_introl (conj eq_refl eq_refl))))).
Defined.

End RequestRoundTrip.

(** ** Registration and passwords *)

Section TrimFacts.

Lemma trimStart_trimmedStart s : trimmedStart (trimStart s).
Proof.
  induction s as [|c s IH]; simpl; [exact I|].
  destruct (isWhiteSpace c) eqn:Hc; [exact IH | exact Hc].
Qed.

Lemma trimStart_fixed s : trimmedStart s -> trimStart s = s.
Proof. destruct s as [|c s]; simpl; [reflexivity | intros ->; reflexivity]. Qed.

Lemma trimEnd_trimmedStart s : trimmedStart s -> trimmedStart (trimEnd s).
Proof.
  destruct s as [|c s]; simpl; [intros _; exact I|].
  intros Hc. destruct (trimEnd s); [rewrite Hc|]; exact Hc.
Qed.

Lemma trimEnd_idem s : trimEnd (trimEnd s) = trimEnd s.
Proof.
  induction s as [|c s IH]; simpl; [reflexivity|].
  destruct (trimEnd s) as [|d t] eqn:Ht.
  - destruct (isWhiteSpace c) eqn:Hc; simpl; [reflexivity|].
    rewrite Hc. reflexivity.
  - change (trimEnd (String c (String d t)))
      with (match trimEnd (String d t) with
            | EmptyString =>
                if isWhiteSpace c then EmptyString else String c EmptyString
            | u => String c u
            end).
    rewrite IH. reflexivity.
Qed.

(** [trim] changes nothing of a string it has produced. *)
Lemma trim_idem s : trim (trim s) = trim s.
Proof.
  unfold trim.
  rewrite (trimStart_fixed (trimEnd (trimStart s)))
    by apply trimEnd_trimmedStart, trimStart_trimmedStart.
  apply trimEnd_idem.
Qed.

End TrimFacts.

Section EmailFacts.

Lemma findOne_app_None {D} (p : D -> bool) (l k : list D) :
  findOne p l = None -> findOne p (l ++ k) = findOne p k.
Proof.
  induction l as [|x l IH]; simpl; [reflexivity|].
  destruct (p x); [discriminate | exact IH].
Qed.

Lemma findOne_None_not_elem (email : string) (c : list User.t) :
  findOne (AuthController.byEmail email) c = None ->
  trim email ∉ map User.email c.
Proof.
  intros Hnone Hin. apply list_elem_of_In, in_map_iff in Hin.
  destruct Hin as (u & Hu & Hin). apply list_elem_of_In in Hin.
  pose proof (findOne_None _ _ _ Hnone Hin) as Hp.
  unfold AuthController.byEmail in Hp.
  apply bool_decide_eq_false in Hp. contradiction.
Qed.

Lemma freshId_not_elem {D} (idOf : D -> ObjectId) (c : list D) :
  freshId (map idOf c) ∉ map idOf c.
Proof.
  intros Hin. apply list_elem_of_In, in_map_iff in Hin.
  destruct Hin as (d & Hd & Hin). apply list_elem_of_In in Hin.
  destruct (elem_findById idOf c d Hin) as [e He].
  rewrite Hd, findById_freshId in He. discriminate.
Qed.

Lemma NoDup_map_snoc {D K} (f : D -> K) (c : list D) d :
  NoDup (map f c) -> f d ∉ map f c -> NoDup (map f (c ++ [d])).
Proof.
  induction c as [|x c IH]; simpl; intros Hnd Hout.
  - apply NoDup_singleton.
  - pose proof (NoDup_cons_1_1 _ _ Hnd) as Hx.
    apply NoDup_cons_1_2 in Hnd.
    apply NoDup_cons_2.
    + rewrite map_app. simpl. intros Hin.
      apply elem_of_app in Hin as [Hin|Hin]; [contradiction|].
      apply list_elem_of_singleton in Hin.
      apply Hout. rewrite Hin. left.
    + apply IH; [exact Hnd|]. intros Hin. apply Hout. right. exact Hin.
Qed.

(** Where a key is unique in the collection, two stored documents with
    the same key are the same document. *)
Lemma NoDup_map_inj {D K} (f : D -> K) (c : list D) d e :
  NoDup (map f c) -> d ∈ c -> e ∈ c -> f d = f e -> d = e.
Proof.
  induction c as [|x c IH]; [intros _ Hd; inversion Hd|].
  simpl. intros Hnd Hd He Heq.
  pose proof (NoDup_cons_1_1 _ _ Hnd) as Hx.
  apply NoDup_cons_1_2 in Hnd.
  assert (forall y, y ∈ c -> f y <> f x) as Hfresh.
  { intros y Hy Hfy. apply Hx. rewrite <- Hfy.
    apply list_elem_of_In, in_map, list_elem_of_In. exact Hy. }
  inversion Hd; inversion He; subst; try reflexivity.
  - exfalso. eapply Hfresh; eauto.
  - exfalso. eapply Hfresh; eauto.
  - auto.
Qed.

Lemma replaceDoc_map_same {D K} (idOf : D -> ObjectId) (f : D -> K) d
    (c : list D) e :
  findById idOf (idOf d) c = Some e -> f d = f e ->
  map f (replaceDoc idOf d c) = map f c.
Proof.
  induction c as [|x c IH]; simpl; [reflexivity|].
  case_bool_decide as Hx.
  - intros [= ->] Hf. simpl. rewrite Hf. reflexivity.
  - intros He Hf. simpl. rewrite IH by assumption. reflexivity.
Qed.

(** With unique emails, the user found under an email that trims to the
    email of a stored user is that user. *)
Lemma findOne_byEmail_elem (c : list User.t) u email :
  NoDup (map User.email c) -> u ∈ c -> trim email = User.email u ->
  findOne (AuthController.byEmail email) c = Some u.
Proof.
  intros Hnd Hin Hu.
  destruct (findOne_is_Some (AuthController.byEmail email) c u Hin)
    as [e He].
  { unfold AuthController.byEmail. apply bool_decide_eq_true.
    symmetry. exact Hu. }
  rewrite He. f_equal.
  destruct (findOne_Some _ _ _ He) as [Hein Hmail].
  unfold AuthController.byEmail in Hmail.
  apply bool_decide_eq_true in Hmail.
  apply (NoDup_map_inj User.email c e u Hnd Hein Hin). congruence.
Qed.

(** A user stored at the end under an email nobody has is found under it. *)
Lemma findOne_byEmail_new (c : list User.t) u email :
  findOne (AuthController.byEmail email) c = None ->
  User.email u = trim email ->
  findOne (AuthController.byEmail email) (c ++ [u]) = Some u.
Proof.
  intros Hnone Hu. rewrite (findOne_app_None _ _ _ Hnone).
  cbn [findOne]. unfold AuthController.byEmail.
  rewrite bool_decide_true by exact Hu. reflexivity.
Qed.

End EmailFacts.

Section RegistrationFacts.
Context `{Bcrypt} `{Jwt}.
Import AuthController Accounts.

Lemma truthy_Some v :
  truthy v = true -> exists s, v = Some s /\ s <> "".
Proof.
  destruct v as [s|]; simpl; [|discriminate].
  case_bool_decide; [discriminate|]. eauto.
Qed.

(** A registration that goes through, spelled out. *)
Lemma register_ok now salt sendOk body w :
  isError (register now salt sendOk body w).1 = false ->
  exists email password name a0 a1 a2,
    regEmail body = Some email /\ regPassword body = Some password
    /\ regName body = Some name /\ regAnswers body = Some [a0; a1; a2]
    /\ trim email <> "" /\ trim name <> ""
    /\ findOne (byEmail email) (users w) = None
    /\ findOne (byEmail (trim email)) (users w) = None
    /\ let user :=
         User.mk (freshId (map User._id (users w))) (trim email)
           (bcrypt_hash password salt) (trim name) None None None []
           (hashAnswers salt [a0; a1; a2]) 0 now None None in
       register now salt sendOk body w
       = (Json 201
            (mkRegisterOk (jwt_sign (User._id user) now) (User._id user)
               (trim name) (trim email) []),
          mkWorld (users w ++ [user])
            (if sendOk
             then (outbox w ++ [mkEmail email "welcome" name])%list
             else outbox w)).
Proof.
  unfold register.
  destruct (truthy (regEmail body)) eqn:Te; simpl; [|discriminate].
  destruct (truthy (regPassword body)) eqn:Tp; simpl; [|discriminate].
  destruct (truthy (regName body)) eqn:Tn; simpl; [|discriminate].
  destruct (truthy_Some _ Te) as (email & -> & _).
  destruct (truthy_Some _ Tp) as (password & -> & _).
  destruct (truthy_Some _ Tn) as (name & -> & _).
  destruct (regAnswers body) as [answers|]; simpl; [|discriminate].
  destruct answers as [|a0 [|a1 [|a2 [|a3 rest]]]]; try discriminate.
  destruct (negb _ || existsb _ _); [discriminate|].
  destruct (findOne (byEmail email) (users w)) eqn:Hraw; [discriminate|].
  case_bool_decide as He; [discriminate|].
  case_bool_decide as Hn; [discriminate|].
  destruct (emailTaken _ _); [discriminate|].
  intros _. exists email, password, name, a0, a1, a2.
  do 7 (split; [first [reflexivity | assumption]|]).
  split; [|reflexivity].
  apply findOne_byEmail_None. rewrite trim_idem.
  apply findOne_byEmail_None. exact Hraw.
Qed.

Lemma register_failure_frame now salt sendOk body w :
  isError (register now salt sendOk body w).1 = true ->
  (register now salt sendOk body w).2 = w.
Proof.
  unfold register.
  repeat match goal with
         | |- context [if ?b then _ else _] => destruct b
         | |- context [match findOne ?p ?c with _ => _ end] =>
             destruct (findOne p c)
         end; simpl; try reflexivity; discriminate.
Qed.

(** X6. [register] keeps emails and ids unique and never touches a user
    already stored: a registration that fails changes nothing; one that
    goes through stores exactly one more user, at the end, under the id
    the response returns, with the trimmed email and name, the hash of the
    password and no reset code. With an email that, trimmed, some stored
    user has, it always fails, and with 'Email already registered' when
    the other fields are in order. *)
Theorem X6_register_keeps_emails_unique now salt sendOk body w :
  NoDup (map User.email (users w)) ->
  NoDup (map User._id (users w)) ->
  let r := register now salt sendOk body w in
  NoDup (map User.email (users r.2))
  /\ NoDup (map User._id (users r.2))
  /\ (isError r.1 = true -> r.2 = w)
  /\ (isError r.1 = false ->
      exists ok user email password name,
        r.1 = Json 201 ok
        /\ regEmail body = Some email /\ regPassword body = Some password
        /\ regName body = Some name
        /\ users r.2 = (users w ++ [user])%list
        /\ User._id user = regId ok
        /\ User.email user = trim email /\ regUserEmail ok = trim email
        /\ User.name user = trim name /\ regUserName ok = trim name
        /\ User.password user = bcrypt_hash password salt
        /\ User.resetPasswordToken user = None
        /\ User.resetPasswordExpires user = None)
  /\ (forall email u,
        regEmail body = Some email -> u ∈ users w ->
        User.email u = trim email ->
        isError r.1 = true
        /\ (truthy (regEmail body) = true ->
            truthy (regPassword body) = true ->
            truthy (regName body) = true ->
            (exists a0 a1 a2,
                regAnswers body = Some [a0; a1; a2]
                /\ a0 <> "" /\ a1 <> "" /\ a2 <> "") ->
            r.1 = ErrorJson 400 "Email already registered")).
Proof.
  intros Hmails Hids r. subst r.
  destruct (isError (register now salt sendOk body w).1) eqn:Herr.
  - rewrite (register_failure_frame _ _ _ _ _ Herr).
    split; [exact Hmails|]. split; [exact Hids|].
    split; [reflexivity|]. split; [discriminate|].
    intros email u He Hin Hu. split; [reflexivity|].
    intros Te Tp Tn (a0 & a1 & a2 & Ha & H0' & H1' & H2').
    unfold register. rewrite Te, Tp, Tn, Ha. simpl.
    rewrite !bool_decide_false by assumption. simpl.
    rewrite He. simpl.
    destruct (findOne_is_Some (byEmail email) (users w) u Hin) as [e Hf].
    { unfold byEmail. apply bool_decide_eq_true. exact Hu. }
    rewrite Hf. reflexivity.
  - destruct (register_ok _ _ _ _ _ Herr)
      as (email & password & name & a0 & a1 & a2 & He & Hp & Hn & Ha
          & Hte & Htn & Hraw & Hfree & Hres).
    cbv zeta in Hres. rewrite Hres. cbn [fst snd users].
    split.
    { apply NoDup_map_snoc; [exact Hmails|].
      apply findOne_None_not_elem. exact Hraw. }
    split.
    { apply NoDup_map_snoc; [exact Hids|]. apply freshId_not_elem. }
    split; [discriminate|].
    split.
    { intros _. eexists _, _, email, password, name.
      split; [reflexivity|]. do 3 (split; [assumption|]).
      split; [reflexivity|]. repeat split. }
    intros email' u He' Hin Hu. exfalso.
    rewrite He in He'. injection He' as <-.
    pose proof (findOne_None _ _ _ Hraw Hin) as Hno.
    unfold byEmail in Hno. apply bool_decide_eq_false in Hno.
    contradiction.
Qed.

End RegistrationFacts.

Section RegistrationRoundTrips.
Context `{Bcrypt} `{Jwt}.
Import AuthController Accounts.

(** X7. With a bcrypt whose [compare] accepts the data a hash was made
    from, a registration that goes through can be followed by a login with
    the email the response returned and the registered password: it
    answers 200 for the user just created. *)
Theorem X7_register_then_login now salt sendOk body w ok now' :
  (forall data s, bcrypt_compare data (bcrypt_hash data s) = true) ->
  (register now salt sendOk body w).1 = Json 201 ok ->
  exists password,
    regPassword body = Some password
    /\ login now' (mkLoginBody (regUserEmail ok) (Some password))
         (users (register now salt sendOk body w).2)
       = Json 200
           (mkLoginOk "Login successful!" (jwt_sign (regId ok) now')
              (regId ok) (regUserName ok) (regUserEmail ok)).
Proof.
  intros Hlaw Hres.
  assert (isError (register now salt sendOk body w).1 = false) as Hok
    by (rewrite Hres; reflexivity).
  destruct (register_ok _ _ _ _ _ Hok)
    as (email & password & name & a0 & a1 & a2 & He & Hp & Hn & Ha
        & Hte & Htn & Hraw & Hfree & Heq).
  cbv zeta in Heq. rewrite Heq in Hres |- *.
  injection Hres as <-. cbn [snd users regUserEmail regId regUserName].
  exists password. split; [exact Hp|].
  unfold login. cbn [loginEmail loginPassword].
  rewrite (findOne_byEmail_new _ _ _ Hfree)
    by (symmetry; apply trim_idem).
  cbn [User.password User._id User.name User.email].
  rewrite Hlaw. reflexivity.
Qed.

(** X8. With such a bcrypt, whose hashes are moreover never empty, the
    answers given at registration verify afterwards, and so does any
    spelling of them that differs only in case or in surrounding blanks. *)
Theorem X8_register_then_verify_answers now salt sendOk body w ok given :
  (forall data s, bcrypt_compare data (bcrypt_hash data s) = true) ->
  (forall data s, bcrypt_hash data s <> "") ->
  (register now salt sendOk body w).1 = Json 201 ok ->
  (exists registered,
      regAnswers body = Some registered
      /\ map (fun a => trim (toLowerCase a)) given
         = map (fun a => trim (toLowerCase a)) registered) ->
  verifySecurityAnswers (mkVerifyBody (regUserEmail ok) given)
    (users (register now salt sendOk body w).2)
  = Json 200 "Security answers verified successfully".
Proof.
  intros Hlaw Hfull Hres (registered & Hreg & Hsame).
  assert (isError (register now salt sendOk body w).1 = false) as Hok
    by (rewrite Hres; reflexivity).
  destruct (register_ok _ _ _ _ _ Hok)
    as (email & password & name & a0 & a1 & a2 & He & Hp & Hn & Ha
        & Hte & Htn & Hraw & Hfree & Heq).
  cbv zeta in Heq. rewrite Heq in Hres |- *.
  injection Hres as <-. cbn [snd users regUserEmail].
  rewrite Ha in Hreg. injection Hreg as <-.
  destruct given as [|b0 [|b1 [|b2 [|b3 rest]]]]; try discriminate Hsame.
  simpl in Hsame. injection Hsame as E0 E1 E2.
  unfold verifySecurityAnswers. cbn [verifyEmail answers].
  rewrite bool_decide_false by exact Hte. simpl orb. cbv iota.
  rewrite (findOne_byEmail_new _ _ _ Hfree)
    by (symmetry; apply trim_idem).
  unfold answersMatch, every. simpl.
  rewrite !bool_decide_false by apply Hfull.
  rewrite E0, E1, E2, !Hlaw. reflexivity.
Qed.

(** X9. The welcome email is best effort: whether it is delivered or not,
    [register] gives the same response and stores the same users; only the
    outbox tells the two apart, by the one welcome email. *)
Theorem X9_welcome_email_is_best_effort now salt body w :
  (register now salt false body w).1 = (register now salt true body w).1
  /\ users (register now salt false body w).2
     = users (register now salt true body w).2
  /\ outbox (register now salt false body w).2 = outbox w
  /\ (isError (register now salt true body w).1 = false ->
      exists email name,
        regEmail body = Some email /\ regName body = Some name
        /\ outbox (register now salt true body w).2
           = (outbox w ++ [mkEmail email "welcome" name])%list).
Proof.
  split; [|split; [|split]].
  - unfold register.
    repeat match goal with
           | |- context [if ?b then _ else _] => destruct b
           | |- context [match findOne ?p ?c with _ => _ end] =>
               destruct (findOne p c)
           end; reflexivity.
  - unfold register.
    repeat match goal with
           | |- context [if ?b then _ else _] => destruct b
           | |- context [match findOne ?p ?c with _ => _ end] =>
               destruct (findOne p c)
           end; reflexivity.
  - unfold register.
    repeat match goal with
           | |- context [if ?b then _ else _] => destruct b
           | |- context [match findOne ?p ?c with _ => _ end] =>
               destruct (findOne p c)
           end; reflexivity.
  - intros Hok.
    destruct (register_ok _ _ _ _ _ Hok)
      as (email & password & name & a0 & a1 & a2 & He & Hp & Hn & Ha
          & Hte & Htn & Hraw & Hfree & Heq).
    cbv zeta in Heq. rewrite Heq. exists email, name.
    split; [exact He|]. split; [exact Hn|]. reflexivity.
Qed.

End RegistrationRoundTrips.

Section RegistrationExamples.
Import AuthController Accounts.

Lemma sampleBcrypt_compare data s :
  @bcrypt_compare Sample.bcrypt data (@bcrypt_hash Sample.bcrypt data s)
  = true.
Proof. simpl. apply bool_decide_eq_true. reflexivity. Qed.

Lemma sampleBcrypt_nonempty data s :
  @bcrypt_hash Sample.bcrypt data s <> "".
Proof. simpl. discriminate. Qed.

Lemma people_emails_NoDup token expires :
  NoDup (map User.email (Sample.people token expires)).
Proof.
  simpl. apply NoDup_cons_2; [|apply NoDup_singleton].
  intros Hin. apply list_elem_of_singleton in Hin. discriminate Hin.
Qed.

(** X6 at the sample users: Carol joins as the third user, under her
    trimmed email, and emails are still unique. *)
Lemma X6_register_keeps_emails_unique_witness :
  let r :=
    @register Sample.bcrypt Sample.jwt 7000 "salt" true Sample.carolBody
      (mkWorld (Sample.people None None) []) in
  NoDup (map User.email (users r.2))
  /\ exists user,
       users r.2 = (Sample.people None None ++ [user])%list
       /\ User.email user = "carol@x.com".
Proof.
  intros r.
  destruct (@X6_register_keeps_emails_unique Sample.bcrypt Sample.jwt
              7000 "salt" true Sample.carolBody
              (mkWorld (Sample.people None None) [])
              (people_emails_NoDup None None) (people_NoDup None None))
    as (Hnd & _ & _ & Hok & _).
  split; [exact Hnd|].
  destruct (Hok eq_refl)
    as (ok & user & email & password & name & _ & He & _ & _ & Husers
        & _ & Hmail & _).
  injection He as <-. exists user. split; [exact Husers | exact Hmail].
Defined.

(** An email that differs from a stored one by blanks only is taken. *)
Example padded_email_is_taken :
  (@register Sample.bcrypt Sample.jwt 7000 "salt" true
     (mkRegisterBody (Some " alice@x.com ") (Some "pa55word") (Some "Al")
        (Some ["Milo"; "Agra"; "Teal"]))
     (mkWorld (Sample.people None None) [])).1
  = ErrorJson 400 "Email already registered".
Proof. reflexivity. Qed.

(** X7 at the sample users: Carol registers and logs in. *)
Lemma X7_register_then_login_witness :
  @login Sample.bcrypt Sample.jwt 8000
    (mkLoginBody "carol@x.com" (Some "pa55word"))
    (users (@register Sample.bcrypt Sample.jwt 7000 "salt" true
              Sample.carolBody (mkWorld (Sample.people None None) [])).2)
  = Json 200 (mkLoginOk "Login successful!" "token" 3%N "Carol" "carol@x.com").
Proof.
  destruct (@X7_register_then_login Sample.bcrypt Sample.jwt 7000 "salt" true
              Sample.carolBody (mkWorld (Sample.people None None) []) _ 8000
              sampleBcrypt_compare eq_refl) as (password & Hp & Hlogin).
  injection Hp as <-. exact Hlogin.
Defined.

(** X8 at the sample users: Carol's answers verify in another spelling. *)
Lemma X8_register_then_verify_answers_witness :
  @verifySecurityAnswers Sample.bcrypt
    (mkVerifyBody "carol@x.com" ["milo "; " AGRA"; "teal"])
    (users (@register Sample.bcrypt Sample.jwt 7000 "salt" true
              Sample.carolBody (mkWorld (Sample.people None None) [])).2)
  = Json 200 "Security answers verified successfully".
Proof.
  exact (@X8_register_then_verify_answers Sample.bcrypt Sample.jwt 7000
           "salt" true Sample.carolBody (mkWorld (Sample.people None None) []) _
           ["milo "; " AGRA"; "teal"]
           sampleBcrypt_compare sampleBcrypt_nonempty eq_refl
           (ex_intro _ ["Milo"; "Agra"; "Teal"] (conj eq_refl eq_refl))).
Defined.

(** X9 at the sample users: Carol's welcome email, when it is delivered. *)
Lemma X9_welcome_email_is_best_effort_witness :
  outbox (@register Sample.bcrypt Sample.jwt 7000 "salt" true Sample.carolBody
            (mkWorld (Sample.people None None) [])).2
  = [mkEmail " carol@x.com" "welcome" "Carol "].
Proof.
  destruct (proj2 (proj2 (proj2
    (@X9_welcome_email_is_best_effort Sample.bcrypt Sample.jwt 7000 "salt"
       Sample.carolBody (mkWorld (Sample.people None None) [])))) eq_refl)
    as (email & name & He & Hn & Hout).
  injection He as <-. injection Hn as <-. exact Hout.
Defined.

End RegistrationExamples.

Section PasswordFacts.
Context `{Bcrypt} `{Jwt}.
Import AuthController Accounts.

(** Saving a stored user under the same id and email keeps emails unique,
    and the saved user is the one an email that trims to its own finds. *)
Lemma findOne_byEmail_saved (users : list User.t) user user' email :
  NoDup (map User.email users) ->
  findById User._id (User._id user) users = Some user ->
  User._id user' = User._id user ->
  User.email user' = User.email user ->
  trim email = User.email user ->
  NoDup (map User.email (replaceDoc User._id user' users))
  /\ user' ∈ replaceDoc User._id user' users
  /\ findOne (byEmail email) (replaceDoc User._id user' users) = Some user'.
Proof.
  intros Hnd Hf Hid Hmail Htrim. rewrite <- Hid in Hf.
  assert (NoDup (map User.email (replaceDoc User._id user' users))) as Hnd'.
  { rewrite (replaceDoc_map_same User._id User.email user' users user Hf Hmail).
    exact Hnd. }
  assert (user' ∈ replaceDoc User._id user' users) as Hin
    by (eapply replaceDoc_elem; exact Hf).
  split; [exact Hnd'|]. split; [exact Hin|].
  apply findOne_byEmail_elem; [assumption | assumption | congruence].
Qed.


(** X11. A code that [forgotPassword] mailed resets the password at any
    time strictly before one hour has passed since the request: the user
    is then stored with the hash of the new password and without code and
    expiry, every other user as before. From that hour on the code is
    refused, with nothing changed. *)
Theorem X11_code_lasts_one_hour now k email w user now' salt pw :
  NoDup (map User._id (users w)) ->
  NoDup (map User.email (users w)) ->
  findOne (byEmail email) (users w) = Some user ->
  let w1 := (forgotPassword now k true email w).2 in
  let attempt :=
    resetPassword now' salt (mkResetBody email (generateOtp k) pw)
      (users w1) in
  (now' < now + 3600000 ->
   attempt.1 = Json 200 "Password reset successful"
   /\ (exists user',
         findById User._id (User._id user) attempt.2 = Some user'
         /\ User.password user' = bcrypt_hash pw salt
         /\ User.resetPasswordToken user' = None
         /\ User.resetPasswordExpires user' = None
         /\ User.email user' = User.email user
         /\ User.name user' = User.name user)
   /\ (forall id, id <> User._id user ->
       findById User._id id attempt.2 = findById User._id id (users w)))
  /\ (now + 3600000 <= now' ->
      attempt = (ErrorJson 400 "Invalid or expired OTP", users w1)).
Proof.
  intros Hids Hmails Hu w1 attempt. subst attempt w1.
  destruct (findOne_Some _ _ _ Hu) as [Hin Hmail].
  unfold byEmail in Hmail. apply bool_decide_eq_true in Hmail.
  pose proof (NoDup_findById User._id _ _ Hids Hin) as Hf.
  unfold forgotPassword. rewrite Hu. cbn [snd users].
  set (issued := User.set_resetPasswordExpires _ _).
  destruct (findOne_byEmail_saved (users w) user issued email Hmails Hf
              eq_refl eq_refl (eq_sym Hmail)) as (Hnd' & Hin' & _).
  assert (forall e,
            findOne (otpFilter now' email (generateOtp k))
              (replaceDoc User._id issued (users w)) = Some e ->
            e = issued /\ now' < now + 3600000) as Hfound.
  { intros e He. destruct (findOne_Some _ _ _ He) as [Hein Hfilter].
    unfold otpFilter in Hfilter.
    apply andb_true_iff in Hfilter as [Hfilter Hexp].
    apply andb_true_iff in Hfilter as [Hbe _].
    unfold byEmail in Hbe. apply bool_decide_eq_true in Hbe.
    assert (e = issued) as ->.
    { apply (NoDup_map_inj User.email _ e issued Hnd' Hein Hin').
      rewrite Hbe. symmetry. exact Hmail. }
    split; [reflexivity|]. simpl in Hexp. apply Z.ltb_lt in Hexp. exact Hexp. }
  unfold resetPassword. cbn [resetEmail otp newPassword].
  split.
  - intros Hlt.
    destruct (findOne_is_Some (otpFilter now' email (generateOtp k))
                (replaceDoc User._id issued (users w)) issued Hin')
      as [e He].
    { unfold otpFilter, byEmail. cbn [User.email User.resetPasswordToken
        User.resetPasswordExpires issued User.set_resetPasswordExpires
        User.set_resetPasswordToken].
      rewrite !bool_decide_true by (reflexivity || exact Hmail).
      apply Z.ltb_lt. exact Hlt. }
    rewrite He. destruct (Hfound e He) as [-> _]. cbn [fst snd].
    split; [reflexivity|]. split.
    + set (final :=
             User.set_resetPasswordExpires None
               (User.set_resetPasswordToken None
                  (User.set_password (bcrypt_hash pw salt) issued))).
      exists final. split; [|repeat split].
      rewrite (replaceDoc_replaceDoc User._id) by reflexivity.
      change (User._id user) with (User._id final).
      apply (findById_replaceDoc_eq User._id final _ user). exact Hf.
    + intros id Hne. rewrite !findById_replaceDoc_ne by exact Hne.
      reflexivity.
  - intros Hle.
    destruct (findOne (otpFilter now' email (generateOtp k))
                (replaceDoc User._id issued (users w))) as [e|] eqn:He;
      [|reflexivity].
    exfalso. destruct (Hfound e eq_refl) as [_ Hlt]. lia.
Qed.

(** X12. A reset through the code uses the code up and installs the new
    password: afterwards the same code is refused at any time, with
    nothing changed, and, with a bcrypt whose [compare] accepts the data a
    hash was made from, a login with the new password goes through. *)
Theorem X12_code_is_used_up now salt body users :
  (forall data s, bcrypt_compare data (bcrypt_hash data s) = true) ->
  NoDup (map User._id users) ->
  NoDup (map User.email users) ->
  isError (resetPassword now salt body users).1 = false ->
  let users' := (resetPassword now salt body users).2 in
  (forall now2 salt2 pw2,
      resetPassword now2 salt2
        (mkResetBody (resetEmail body) (otp body) pw2) users'
      = (ErrorJson 400 "Invalid or expired OTP", users'))
  /\ (forall now2,
        exists user,
          findOne (byEmail (resetEmail body)) users = Some user
          /\ login now2
               (mkLoginBody (resetEmail body) (Some (newPassword body)))
               users'
             = Json 200
                 (mkLoginOk "Login successful!"
                    (jwt_sign (User._id user) now2) (User._id user)
                    (User.name user) (User.email user))).
Proof.
  intros Hlaw Hids Hmails Hok users'. subst users'.
  unfold resetPassword in Hok |- *.
  destruct (findOne (otpFilter now (resetEmail body) (otp body)) users)
    as [user|] eqn:Hu; [|discriminate Hok].
  clear Hok. cbn [snd].
  destruct (findOne_Some _ _ _ Hu) as [Hin Hfilter].
  unfold otpFilter in Hfilter.
  apply andb_true_iff in Hfilter as [Hfilter _].
  apply andb_true_iff in Hfilter as [Hmail _].
  unfold byEmail in Hmail. apply bool_decide_eq_true in Hmail.
  pose proof (NoDup_findById User._id _ _ Hids Hin) as Hf.
  set (user' := User.set_resetPasswordExpires None _).
  destruct (findOne_byEmail_saved users user user' (resetEmail body)
              Hmails Hf eq_refl eq_refl (eq_sym Hmail))
    as (Hnd' & Hin' & Hfound).
  split.
  - intros now2 salt2 pw2. cbn [resetEmail otp].
    destruct (findOne (otpFilter now2 (resetEmail body) (otp body))
                (replaceDoc User._id user' users)) as [e|] eqn:He;
      [|reflexivity].
    exfalso. destruct (findOne_Some _ _ _ He) as [Hein Hfilter].
    unfold otpFilter in Hfilter.
    apply andb_true_iff in Hfilter as [Hfilter _].
    apply andb_true_iff in Hfilter as [Hbe Htok].
    unfold byEmail in Hbe. apply bool_decide_eq_true in Hbe.
    assert (e = user') as ->.
    { apply (NoDup_map_inj User.email _ e user' Hnd' Hein Hin').
      rewrite Hbe. symmetry. exact Hmail. }
    apply bool_decide_eq_true in Htok. discriminate Htok.
  - intros now2. exists user. split.
    + apply findOne_byEmail_elem; [assumption | assumption | congruence].
    + unfold login. cbn [loginEmail loginPassword].
      rewrite Hfound.
      cbn [User.password User.set_password user']. simpl.
      rewrite Hlaw. reflexivity.
Qed.

End PasswordFacts.

Section PasswordExamples.
Import AuthController Accounts.


(** X11 at Bob's account: the code mailed at 1000 still works one
    millisecond before 3601000, when Bob's password becomes the hash of
    the new one, and no longer at 3601000. *)
Lemma X11_code_lasts_one_hour_witness :
  let w1 :=
    (forgotPassword 1000 0 true "bob@x.com"
       (mkWorld (Sample.people None None) [])).2 in
  (exists user',
      findById User._id Sample.bob
        (@resetPassword Sample.bcrypt 3600999 "salt"
           (mkResetBody "bob@x.com" "100000" "again") (users w1)).2
      = Some user'
      /\ User.password user' = "$again"
      /\ User.resetPasswordToken user' = None)
  /\ (@resetPassword Sample.bcrypt 3601000 "salt"
        (mkResetBody "bob@x.com" "100000" "again") (users w1)).1
     = ErrorJson 400 "Invalid or expired OTP".
Proof.
  intros w1. split.
  - destruct (proj1 (@X11_code_lasts_one_hour Sample.bcrypt 1000 0
                       "bob@x.com" (mkWorld (Sample.people None None) [])
                       Sample.bobUser 3600999 "salt" "again"
                       (people_NoDup None None)
                       (people_emails_NoDup None None) eq_refl) eq_refl)
      as (_ & (user' & Hu & Hpw & Htok & _) & _).
    exists user'. split; [exact Hu|]. split; [exact Hpw | exact Htok].
  - exact (f_equal fst
             (proj2 (@X11_code_lasts_one_hour Sample.bcrypt 1000 0
                       "bob@x.com" (mkWorld (Sample.people None None) [])
                       Sample.bobUser 3601000 "salt" "again"
                       (people_NoDup None None)
                       (people_emails_NoDup None None) eq_refl)
                ltac:(discriminate))).
Defined.

(** X12 at Alice's account, which holds the code 123456 until 9000: once
    used at 5000, the code is refused at 5001. *)
Lemma X12_code_is_used_up_witness :
  let body := mkResetBody "alice@x.com" "123456" "again" in
  let users' :=
    (@resetPassword Sample.bcrypt 5000 "salt" body
       (Sample.people (Some "123456") (Some 9000))).2 in
  @resetPassword Sample.bcrypt 5001 "salt" body users'
  = (ErrorJson 400 "Invalid or expired OTP", users').
Proof.
  intros body users'.
  exact (proj1 (@X12_code_is_used_up Sample.bcrypt Sample.jwt 5000 "salt"
                  body (Sample.people (Some "123456") (Some 9000))
                  sampleBcrypt_compare (people_NoDup _ _)
                  (people_emails_NoDup _ _) eq_refl)
           5001 "salt" "again").
Defined.

End PasswordExamples.

(** ** The owner's operations on books *)

Section DeleteFacts.
Context {D : Type} (idOf : D -> ObjectId).

Lemma deleteOne_length (p : D -> bool) (c : list D) d :
  findOne p c = Some d -> (length (deleteOne p c) + 1 = length c)%nat.
Proof.
  induction c as [|x c IH]; simpl; [discriminate|].
  destruct (p x); [intros _; lia|].
  intros Hf. simpl. rewrite <- (IH Hf). lia.
Qed.

(** Removing a document found by a filter that fixes the id leaves the
    documents under every other id where they were. *)
Lemma findById_deleteOne_ne (p : D -> bool) (c : list D) i id :
  (forall d, p d = true -> idOf d = i) -> id <> i ->
  findById idOf id (deleteOne p c) = findById idOf id c.
Proof.
  intros Hp Hne. induction c as [|x c IH]; simpl; [reflexivity|].
  destruct (p x) eqn:Hx.
  - rewrite bool_decide_false; [reflexivity|].
    rewrite (Hp x Hx). congruence.
  - simpl. rewrite IH. reflexivity.
Qed.

Lemma deleteOne_subseteq (p : D -> bool) (c : list D) :
  deleteOne p c ⊆ c.
Proof.
  induction c as [|x c IH]; simpl; [reflexivity|].
  destruct (p x).
  - intros d Hd. right. exact Hd.
  - intros d Hd. inversion Hd; subst; [left | right; apply IH; assumption].
Qed.

(** With unique ids, what is removed under an id is gone. *)
Lemma findById_deleteOne_eq (p : D -> bool) (c : list D) i d :
  NoDup (map idOf c) ->
  (forall d, p d = true -> idOf d = i) ->
  findOne p c = Some d ->
  findById idOf i (deleteOne p c) = None.
Proof.
  intros Hnd Hp. induction c as [|x c IH]; simpl; [discriminate|].
  pose proof (NoDup_cons_1_1 _ _ Hnd) as Hx.
  apply NoDup_cons_1_2 in Hnd.
  destruct (p x) eqn:Hpx.
  - intros _. rewrite <- (Hp x Hpx).
    destruct (findById idOf (idOf x) c) as [e|] eqn:He; [|reflexivity].
    exfalso. apply Hx. rewrite <- (findById_Some_id _ _ _ _ He).
    apply list_elem_of_In, in_map, list_elem_of_In.
    eapply findById_Some_elem. exact He.
  - intros Hf. simpl.
    destruct (findOne_Some _ _ _ Hf) as [Hin Hpd].
    rewrite bool_decide_false; [apply IH; assumption|].
    intros Heq. apply Hx. rewrite Heq, <- (Hp d Hpd).
    apply list_elem_of_In, in_map, list_elem_of_In. exact Hin.
Qed.
End DeleteFacts.

Section BookOwnerFacts.
Import BookController BookOwner.

(** What [updateBook] leaves of a book. *)
Lemma applyUpdate_keeps body b :
  Book._id (applyUpdate body b) = Book._id b
  /\ Book.owner (applyUpdate body b) = Book.owner b
  /\ Book.status (applyUpdate body b) = Book.status b
  /\ Book.createdAt (applyUpdate body b) = Book.createdAt b.
Proof. repeat split. Qed.

(** X13. [updateBook] never changes the status, the owner, the id or the
    creation time of any book, whatever the body holds and whatever the
    outcome, and it adds or removes none; a caller who is not the owner of
    the book gets 403 and changes nothing. *)
Theorem X13_updateBook_keeps_status_and_owner
    userId idParam body users books :
  let r := updateBook userId idParam body users books in
  Forall2
    (fun b b' =>
       Book._id b' = Book._id b /\ Book.owner b' = Book.owner b
       /\ Book.status b' = Book.status b
       /\ Book.createdAt b' = Book.createdAt b)
    books r.2
  /\ (forall bookId existing,
        castObjectId idParam = Some bookId ->
        findById Book._id bookId books = Some existing ->
        Book.owner existing <> userId ->
        r = (ErrorJson 403 "Not authorized to update this book", books))
  /\ (forall response, r.1 = Json 200 response ->
      exists bookId existing,
        castObjectId idParam = Some bookId
        /\ findById Book._id bookId books = Some existing
        /\ Book.owner existing = userId
        /\ findById Book._id bookId r.2 = Some (applyUpdate body existing)
        /\ status response = Book.status existing).
Proof.
  intros r. subst r. unfold updateBook.
  assert (Forall2
            (fun b b' =>
               Book._id b' = Book._id b /\ Book.owner b' = Book.owner b
               /\ Book.status b' = Book.status b
               /\ Book.createdAt b' = Book.createdAt b) books books)
    as Hsame by (apply Forall2_same; intros; repeat split).
  destruct (castObjectId idParam) as [bookId|];
    [|split; [exact Hsame|]; split;
      [intros ? ? Hx; discriminate Hx | intros ? Hx; discriminate Hx]].
  destruct (findById Book._id bookId books) as [existing|] eqn:Hf;
    [|split; [exact Hsame|]; split;
      [intros ? ? [= <-] Hx; congruence | intros ? Hx; discriminate Hx]].
  case_bool_decide as Hown; simpl negb; cbv iota.
  2: { split; [exact Hsame|]. split; [|intros ? Hx; discriminate Hx].
       intros ? ? _ _ _. reflexivity. }
  assert (Forall2
            (fun b b' =>
               Book._id b' = Book._id b /\ Book.owner b' = Book.owner b
               /\ Book.status b' = Book.status b
               /\ Book.createdAt b' = Book.createdAt b) books
            (replaceDoc Book._id (applyUpdate body existing) books))
    as Hupd.
  { apply replaceDoc_Forall2; [intros; repeat split|].
    simpl. intros e He.
    rewrite (findById_Some_id _ _ _ _ Hf) in He.
    assert (e = existing) as -> by congruence. repeat split. }
  destruct (transform users (applyUpdate body existing)) as [resp|] eqn:Ht;
    cbn [fst snd].
  - split; [exact Hupd|]. split.
    + intros ? ? [= <-] Hx Hne. rewrite Hf in Hx. injection Hx as <-.
      contradiction.
    + intros response [= <-]. exists bookId, existing.
      do 3 (split; [first [reflexivity | assumption]|]).
      split.
      * pose proof (findById_Some_id _ _ _ _ Hf) as Hid. subst bookId.
        apply (findById_replaceDoc_eq Book._id (applyUpdate body existing)
                 _ existing). exact Hf.
      * apply transform_fields in Ht as (_ & _ & _ & -> & _). reflexivity.
  - split; [exact Hupd|]. split; [|intros ? Hx; discriminate Hx].
    intros ? ? [= <-] Hx Hne. rewrite Hf in Hx. injection Hx as <-.
    contradiction.
Qed.

(** X13 at the sample shelf: Bob tries to retitle Alice's Dune. *)
Lemma X13_updateBook_keeps_status_and_owner_witness :
  updateBook Sample.bob Sample.duneId
    (mkUpdateBody (Some "Mine") None None None None None)
    (Sample.people None None) Sample.shelf
  = (ErrorJson 403 "Not authorized to update this book", Sample.shelf).
Proof.
  exact (proj1 (proj2
    (X13_updateBook_keeps_status_and_owner Sample.bob Sample.duneId
       (mkUpdateBody (Some "Mine") None None None None None)
       (Sample.people None None) Sample.shelf))
    16%N (Sample.dune "available") eq_refl eq_refl ltac:(discriminate)).
Defined.

Lemma ownedBook_id bookId userId b :
  ownedBook bookId userId b = true -> Book._id b = bookId.
Proof.
  unfold ownedBook. intros Hb. apply andb_true_iff in Hb as [Hb _].
  apply bool_decide_eq_true in Hb. exact Hb.
Qed.

(** X14. [deleteBook] removes a book exactly when it exists and the caller
    owns it; otherwise it answers with an error and removes nothing. A
    removal takes that one book: with unique ids it is gone afterwards,
    every other book is where it was, and the collection is one shorter. *)
Theorem X14_deleteBook_owner_only userId idParam books :
  NoDup (map Book._id books) ->
  let r := deleteBook userId idParam books in
  (isError r.1 = false
   <-> exists bookId b,
         castObjectId idParam = Some bookId
         /\ findById Book._id bookId books = Some b
         /\ Book.owner b = userId)
  /\ (isError r.1 = true -> r.2 = books)
  /\ (isError r.1 = false ->
      forall bookId,
        castObjectId idParam = Some bookId ->
        findById Book._id bookId r.2 = None
        /\ (forall id, id <> bookId ->
            findById Book._id id r.2 = findById Book._id id books)
        /\ (length r.2 + 1 = length books)%nat).
Proof.
  intros Hnd r. subst r. unfold deleteBook.
  destruct (castObjectId idParam) as [bookId|].
  2: { split; [split; [discriminate | intros (? & ? & [=] & _)]|].
       split; [reflexivity | discriminate]. }
  destruct (findOne (ownedBook bookId userId) books) as [b|] eqn:Hf;
    cbn [fst snd isError].
  - destruct (findOne_Some _ _ _ Hf) as [Hin Hp].
    pose proof (ownedBook_id _ _ _ Hp) as Hid.
    split.
    { split; [intros _ | reflexivity]. exists bookId, b.
      split; [reflexivity|]. split.
      - rewrite <- Hid. apply NoDup_findById; assumption.
      - unfold ownedBook in Hp. apply andb_true_iff in Hp as [_ Hp].
        apply bool_decide_eq_true in Hp. exact Hp. }
    split; [discriminate|].
    intros _ bookId' [= <-]. split.
    { eapply (findById_deleteOne_eq Book._id); eauto using ownedBook_id. }
    split.
    { intros id Hne. apply (findById_deleteOne_ne Book._id _ _ bookId);
        eauto using ownedBook_id. }
    eapply deleteOne_length. exact Hf.
  - split; [|split; [reflexivity | discriminate]].
    split; [discriminate|].
    intros (bookId' & b & [= <-] & Hb & Hown). exfalso.
    pose proof (findById_Some_elem _ _ _ _ Hb) as Hin.
    pose proof (findOne_None _ _ _ Hf Hin) as Hno.
    pose proof (findById_Some_id _ _ _ _ Hb) as Hid.
    unfold ownedBook in Hno.
    repeat case_bool_decide; simpl in Hno;
      first [discriminate Hno | contradiction].
Qed.

Lemma shelf_NoDup : NoDup (map Book._id Sample.shelf).
Proof.
  simpl. repeat (apply NoDup_cons_2;
                 [intros Hin; repeat (apply elem_of_cons in Hin
                                      as [Hin|Hin]; [discriminate Hin|]);
                  inversion Hin|]).
  apply NoDup_nil_2.
Qed.

(** X14 at the sample shelf: Bob cannot delete Alice's Dune. *)
Lemma X14_deleteBook_owner_only_witness :
  (deleteBook Sample.bob Sample.duneId Sample.shelf).2 = Sample.shelf.
Proof.
  exact (proj1 (proj2
    (X14_deleteBook_owner_only Sample.bob Sample.duneId Sample.shelf
       shelf_NoDup)) eq_refl).
Defined.

End BookOwnerFacts.

(** ** Account deletion *)

Section MapFilterFacts.
Context {D : Type} (idOf : D -> ObjectId).

Lemma findById_map (f : D -> D) (c : list D) id :
  (forall d, idOf (f d) = idOf d) ->
  findById idOf id (map f c) = f <$> findById idOf id c.
Proof.
  intros Hid. induction c as [|x c IH]; simpl; [reflexivity|].
  rewrite Hid. case_bool_decide; [reflexivity | exact IH].
Qed.

Lemma findById_filter (P : D -> Prop) `{!forall d, Decision (P d)}
    (c : list D) id d :
  findById idOf id c = Some d -> P d ->
  findById idOf id (filter P c) = Some d.
Proof.
  intros Hf Hd. induction c as [|x c IH]; simpl in *; [discriminate|].
  rewrite filter_cons. case_bool_decide as Hx.
  - injection Hf as ->. rewrite decide_True by assumption. simpl.
    rewrite bool_decide_true by assumption. reflexivity.
  - destruct (decide (P x)); simpl; [|apply IH, Hf].
    rewrite bool_decide_false by assumption. apply IH, Hf.
Qed.
End MapFilterFacts.

Section DeleteAccountFacts.
Import UserController.

Lemma cancelInvolved_id now userId t :
  Transaction._id (cancelInvolved now userId t) = Transaction._id t.
Proof. unfold cancelInvolved. destruct (involves userId t); reflexivity. Qed.

Lemma byId_id userId (u : User.t) :
  bool_decide (User._id u = userId) = true -> User._id u = userId.
Proof. apply bool_decide_eq_true. Qed.

Lemma findOne_byId (users : list User.t) userId user :
  findById User._id userId users = Some user ->
  findOne (fun u => bool_decide (User._id u = userId)) users = Some user.
Proof.
  induction users as [|x users IH]; simpl; [discriminate|].
  case_bool_decide as Hx; [intros Hs; exact Hs | exact IH].
Qed.

(** X15. [deleteAccount] of a stored user removes that user and no other,
    removes every book the user owns and no other book, and sets every
    exchange the user is a party of to 'cancelled', whatever its status
    was; every other exchange, and every book of another owner, its status
    included, stays as it was. *)
Theorem X15_deleteAccount_effect now userId w user :
  NoDup (map User._id (users w)) ->
  findById User._id userId (users w) = Some user ->
  let r := deleteAccount now userId w in
  r.1 = Json 200 "Account deleted successfully"
  /\ findById User._id userId (users r.2) = None
  /\ (forall id, id <> userId ->
      findById User._id id (users r.2) = findById User._id id (users w))
  /\ Forall (fun b => Book.owner b <> userId) (books r.2)
  /\ (forall id b,
        findById Book._id id (books w) = Some b -> Book.owner b <> userId ->
        findById Book._id id (books r.2) = Some b)
  /\ (forall id t,
        findById Transaction._id id (transactions w) = Some t ->
        exists t',
          findById Transaction._id id (transactions r.2) = Some t'
          /\ (involves userId t = true ->
              Transaction.status t' = "cancelled"
              /\ Transaction.set_updatedAt (Transaction.updatedAt t)
                   (Transaction.set_status (Transaction.status t) t') = t)
          /\ (involves userId t = false -> t' = t)).
Proof.
  intros Hnd Hf r. subst r. unfold deleteAccount. rewrite Hf.
  cbn [fst snd users books transactions].
  split; [reflexivity|]. split.
  { eapply (findById_deleteOne_eq User._id);
      [exact Hnd | apply byId_id | apply findOne_byId; exact Hf]. }
  split.
  { intros id Hne.
    apply (findById_deleteOne_ne User._id _ _ userId);
      [apply byId_id | exact Hne]. }
  split.
  { apply list.Forall_forall. intros b Hb.
    apply list_elem_of_filter in Hb as [Hb _]. exact Hb. }
  split.
  { intros id b Hb Hown. apply findById_filter; assumption. }
  intros id t Ht.
  rewrite (findById_map Transaction._id) by apply cancelInvolved_id.
  rewrite Ht. simpl. eexists. split; [reflexivity|].
  unfold cancelInvolved. split; intros ->.
  - split; [reflexivity | destruct t; reflexivity].
  - reflexivity.
Qed.

(** X16. Deleting the account of a requester does not free the book: a
    book of another owner that was 'pending' for the deleted user's request
    is still stored as 'pending' although the request is now 'cancelled',
    and a new request for it, from anybody, is refused with 'Book is not
    available for exchange'. *)
Theorem X16_deleted_requester_leaves_book_pending
    now userId w user t book now' caller body :
  findById User._id userId (users w) = Some user ->
  findById Transaction._id (Transaction._id t) (transactions w) = Some t ->
  Transaction.requester t = userId ->
  findById Book._id (Transaction.book t) (books w) = Some book ->
  Book.owner book <> userId ->
  Book.status book = "pending" ->
  castObjectId (TransactionController.bookId body)
  = Some (Transaction.book t) ->
  let r := deleteAccount now userId w in
  let db := TransactionController.mkDb (books r.2) (transactions r.2) in
  (Transaction.status <$>
     findById Transaction._id (Transaction._id t) (transactions r.2))
  = Some "cancelled"
  /\ findById Book._id (Transaction.book t) (books r.2) = Some book
  /\ TransactionController.createExchangeRequest now' caller body db
     = (ErrorJson 400 "Book is not available for exchange", db).
Proof.
  intros Hu Ht Hreq Hb Hown Hpending Hcast r db. subst db r.
  unfold deleteAccount. rewrite Hu.
  cbn [fst snd users books transactions].
  assert (findById Book._id (Transaction.book t)
            (filter (fun b => Book.owner b <> userId) (books w))
          = Some book) as Hb'
    by (apply findById_filter; assumption).
  split.
  { rewrite (findById_map Transaction._id) by apply cancelInvolved_id.
    rewrite Ht. simpl. unfold cancelInvolved, involves.
    rewrite (bool_decide_true _ Hreq). reflexivity. }
  split; [exact Hb'|].
  unfold TransactionController.createExchangeRequest.
  rewrite Hcast. cbn [TransactionController.books].
  rewrite Hb', Hpending. reflexivity.
Qed.

End DeleteAccountFacts.

Section DeleteAccountLogin.
Context `{Bcrypt} `{Jwt}.
Import UserController.

(** X17. With unique ids and emails, nobody logs in as a deleted user:
    after [deleteAccount] a login with the user's email, in any spelling
    that trims to the stored one, is answered 'Invalid credentials',
    whatever the password, an absent one included. *)
Theorem X17_deleted_user_cannot_login now userId w user now' email password :
  NoDup (map User._id (users w)) ->
  NoDup (map User.email (users w)) ->
  findById User._id userId (users w) = Some user ->
  trim email = User.email user ->
  AuthController.login now' (AuthController.mkLoginBody email password)
    (users (deleteAccount now userId w).2)
  = ErrorJson 400 "Invalid credentials".
Proof.
  intros Hids Hmails Hu Htrim. unfold deleteAccount. rewrite Hu.
  cbn [snd users]. unfold AuthController.login.
  cbn [AuthController.loginEmail].
  set (rest := deleteOne _ (users w)).
  destruct (findOne (AuthController.byEmail email) rest)
    as [e|] eqn:He; [|reflexivity].
  exfalso. destruct (findOne_Some _ _ _ He) as [Hein Hmail].
  unfold AuthController.byEmail in Hmail.
  apply bool_decide_eq_true in Hmail. rewrite Htrim in Hmail.
  pose proof (findById_Some_elem _ _ _ _ Hu) as Huin.
  assert (e ∈ users w) as Hein' by (eapply deleteOne_subseteq; exact Hein).
  assert (e = user) as ->
    by exact (NoDup_map_inj User.email _ e user Hmails Hein' Huin Hmail).
  assert (findById User._id userId rest = None) as Hgone.
  { eapply (findById_deleteOne_eq User._id);
      [exact Hids | apply byId_id | apply findOne_byId; exact Hu]. }
  destruct (elem_findById User._id rest user Hein) as [e' He'].
  rewrite (findById_Some_id _ _ _ _ Hu), Hgone in He'. discriminate He'.
Qed.

End DeleteAccountLogin.

Section DeleteAccountExamples.
Import UserController.

(** X15 at the pending world: Bob deletes his account. *)
Lemma X15_deleteAccount_effect_witness :
  findById User._id Sample.bob
    (users (deleteAccount 9000 Sample.bob Sample.pendingWorld).2) = None.
Proof.
  exact (proj1 (proj2
    (X15_deleteAccount_effect 9000 Sample.bob Sample.pendingWorld Sample.bobUser
       (people_NoDup None None) eq_refl))).
Defined.

(** X16 at the pending world: Bob is gone, and Dune cannot be asked for. *)
Lemma X16_deleted_requester_leaves_book_pending_witness :
  let r := deleteAccount 9000 Sample.bob Sample.pendingWorld in
  let db := TransactionController.mkDb (books r.2) (transactions r.2) in
  TransactionController.createExchangeRequest 9500 3%N
    (TransactionController.mkCreateBody Sample.duneId (Sample.byMail 7) None)
    db
  = (ErrorJson 400 "Book is not available for exchange", db).
Proof.
  intros r db.
  exact (proj2 (proj2
    (X16_deleted_requester_leaves_book_pending 9000 Sample.bob Sample.pendingWorld
       Sample.bobUser (Sample.request "pending") (Sample.dune "pending")
       9500 3%N
       (TransactionController.mkCreateBody Sample.duneId (Sample.byMail 7)
          None)
       eq_refl eq_refl eq_refl eq_refl ltac:(discriminate) eq_refl
       eq_refl))).
Defined.

(** X17 at the pending world: Bob's password no longer opens anything. *)
Lemma X17_deleted_user_cannot_login_witness :
  @AuthController.login Sample.bcrypt Sample.jwt 9500
    (AuthController.mkLoginBody "bob@x.com " (Some "hunter2"))
    (users (deleteAccount 9000 Sample.bob Sample.pendingWorld).2)
  = ErrorJson 400 "Invalid credentials".
Proof.
  exact (@X17_deleted_user_cannot_login Sample.bcrypt Sample.jwt 9000
           Sample.bob Sample.pendingWorld Sample.bobUser 9500 "bob@x.com "
           (Some "hunter2")
           (people_NoDup None None) (people_emails_NoDup None None)
           eq_refl eq_refl).
Defined.

End DeleteAccountExamples.

Section StatsFacts.
Import UserController.

Lemma countDocuments_snoc {D} (p : D -> bool) (c : list D) d :
  countDocuments p (c ++ [d])
  = (countDocuments p c + (if p d then 1 else 0))%nat.
Proof.
  unfold countDocuments. induction c as [|x c IH]; simpl.
  - rewrite filter_cons.
    destruct (decide (Is_true (p d))) as [Hd|Hd]; destruct (p d); simpl;
      try reflexivity; [destruct Hd | exfalso; apply Hd; exact I].
  - rewrite !filter_cons. destruct (decide (Is_true (p x))); simpl;
      rewrite IH; reflexivity.
Qed.

(** X18. A request that goes through shows in the statistics: the number
    of active exchanges grows by one for the requester and for the owner
    of the book, and for nobody else; the numbers of books and of
    completed exchanges, and the reputation, stay. *)
Theorem X18_request_counts_as_active now userId body w tx v stats :
  (TransactionController.createExchangeRequest now userId body
     (TransactionController.mkDb (books w) (transactions w))).1
  = Json 201 tx ->
  getUserStats v w = Json 200 stats ->
  let db' :=
    (TransactionController.createExchangeRequest now userId body
       (TransactionController.mkDb (books w) (transactions w))).2 in
  let w' :=
    mkWorld (users w) (TransactionController.books db')
      (TransactionController.transactions db') (files w) in
  Transaction.requester tx = userId
  /\ getUserStats v w'
     = Json 200
         (mkStats (totalBooks stats)
            (activeExchanges stats + (if involves v tx then 1 else 0))
            (completedExchanges stats) (reputation stats)).
Proof.
  intros Hres Hstats db' w'. subst w' db'.
  assert (isError (TransactionController.createExchangeRequest now userId
                     body (TransactionController.mkDb (books w)
                             (transactions w))).1 = false) as Hok
    by (rewrite Hres; reflexivity).
  destruct (createExchangeRequest_ok _ _ _ _ Hok)
    as (bid & book & Hc & Hb & Hav & Hown & _ & Heq).
  cbv zeta in Heq. rewrite Heq in Hres |- *. injection Hres as <-.
  cbn [snd TransactionController.books TransactionController.transactions]
    in *.
  split; [reflexivity|].
  unfold getUserStats in Hstats |- *. cbn [users books transactions].
  destruct (findById User._id v (users w)) as [u|]; [|discriminate Hstats].
  injection Hstats as <-.
  cbn [totalBooks activeExchanges completedExchanges reputation].
  unfold insertDoc. rewrite !countDocuments_snoc.
  pose proof (countDocuments_replaceDoc Book._id
                (fun b => bool_decide (Book.owner b = v))
                (Book.set_status "pending" book) (books w) book) as Hbooks.
  cbn [Book._id Book.set_status Book.owner] in Hbooks.
  rewrite (findById_Some_id _ _ _ _ Hb) in Hbooks.
  specialize (Hbooks Hb).
  f_equal. f_equal.
  - lia.
  - cbn [Transaction.status]. simpl bool_decide.
    rewrite orb_true_l, andb_true_r. reflexivity.
  - cbn [Transaction.status]. simpl bool_decide.
    rewrite andb_false_r. lia.
Qed.

(** X18 at the listed Dune: Bob's request is Alice's first active
    exchange. *)
Lemma X18_request_counts_as_active_witness :
  let w := mkWorld (Sample.people None None) [Sample.dune "available"] [] [] in
  let db' :=
    (TransactionController.createExchangeRequest 2000 Sample.bob
       (TransactionController.mkCreateBody Sample.duneId (Sample.byMail 5)
          None)
       (TransactionController.mkDb (books w) (transactions w))).2 in
  getUserStats Sample.alice
    (mkWorld (users w) (TransactionController.books db')
       (TransactionController.transactions db') (files w))
  = Json 200 (mkStats 1 1 0 0).
Proof.
  intros w db'.
  exact (proj2
    (X18_request_counts_as_active 2000 Sample.bob
       (TransactionController.mkCreateBody Sample.duneId (Sample.byMail 5)
          None)
       w _ Sample.alice (mkStats 1 0 0 0) eq_refl eq_refl)).
Defined.

End StatsFacts.

(** ** Pages of the catalogue *)

Section PageFacts.
Context `{JsRuntime}.
Import BookController.

Lemma chunks_cover {A} (n : nat) (k : nat) : forall l : list A,
  (length l <= k * n)%nat ->
  concat (map (fun i => take n (drop (i * n) l)) (seq 0 k)) = l.
Proof.
  induction k as [|k IH]; intros l Hlen.
  - simpl in *. destruct l; [reflexivity | simpl in Hlen; lia].
  - simpl seq. rewrite <- seq_shift. cbn [map concat]. rewrite map_map.
    change (0 * n)%nat with 0%nat. rewrite drop_0.
    rewrite (map_ext (fun i => take n (drop (S i * n) l))
               (fun i => take n (drop (i * n) (drop n l)))).
    + rewrite IH by (rewrite length_drop; lia). apply take_drop.
    + intros i. rewrite drop_drop. repeat f_equal; lia.
Qed.

Lemma pageSlice_setPage i q re collection :
  pageSlice (setPage (Z.of_nat (S i)) q) re collection
  = take 15 (drop (i * 15) (findBooks q re collection)).
Proof.
  unfold pageSlice, currentPageOf, setPage, ITEMS_PER_PAGE. cbn [page].
  destruct (Z.eqb_spec (Z.of_nat (S i)) 0) as [Hz|_]; [lia|].
  change (Z.to_nat 15) with 15%nat.
  replace (Z.to_nat ((Z.of_nat (S i) - 1) * 15)) with (i * 15)%nat by lia.
  reflexivity.
Qed.

Lemma currentPageOf_setPage p q : p <> 0 -> currentPageOf (setPage p q) = p.
Proof.
  intros Hp. unfold currentPageOf, setPage. cbn [page].
  destruct (Z.eqb_spec p 0); [contradiction | reflexivity].
Qed.

Lemma Permutation_concat_map {A B} (f g : A -> list B) (l : list A) :
  (forall x, Permutation (f x) (g x)) ->
  Permutation (concat (map f l)) (concat (map g l)).
Proof.
  intros Hfg. induction l as [|x l IH]; simpl; [reflexivity|].
  apply Permutation_app; [apply Hfg | exact IH].
Qed.

Lemma concat_map_map {A B C} (h : B -> C) (c : A -> list B) (l : list A) :
  concat (map (fun x => map h (c x)) l) = map h (concat (map c l)).
Proof.
  induction l as [|x l IH]; simpl; [reflexivity|].
  rewrite IH, map_app. reflexivity.
Qed.

(** The answer to the request for one page, when the owners of the books
    found are stored. *)
Lemma getBooks_setPage userId q users collection re p :
  compileSearch q = Some re ->
  Forall (fun b => is_Some (findById User._id (Book.owner b) users))
    (findBooks q re collection) ->
  1 <= p ->
  exists bs,
    getBooks userId (setPage p q) users collection
    = Json 200
        (mkListing bs
           (mkPagination p
              (ceilDiv (Z.of_nat (length (findBooks q re collection))) 15)
              (Z.of_nat (length (findBooks q re collection))) 15))
    /\ map id bs
       = map Book._id
           (Array_sort (compareBooks (sortBy q) (userGenresOf userId users))
              (pageSlice (setPage p q) re collection)).
Proof.
  intros Hre Howners Hp.
  destruct (getBooks_listing userId (setPage p q) users collection re)
    as (bs & H2 & Hget).
  - exact Hre.
  - rewrite currentPageOf_setPage by lia. exact Hp.
  - apply list.Forall_forall. intros b Hb. unfold pageSlice in Hb.
    apply subseteq_take, subseteq_drop in Hb.
    rewrite list.Forall_forall in Howners. apply Howners. exact Hb.
  - exists bs. rewrite currentPageOf_setPage in Hget by lia.
    split; [exact Hget|]. apply (transformed_ids _ _ _ H2).
Qed.

(** X19. Paging loses no book and repeats none. With a well-formed search
    expression and the owners of the books found still stored, every page
    from 1 on is answered 200 and reports the same [totalPages] and
    [totalItems]; the books of the pages numbered from 1 to [totalPages],
    as [getBooks] returns them, put end to end, are the books the query
    finds, each once; without a sort mode they come in the natural order
    of the collection; every page after [totalPages] is answered with no
    books. *)
Theorem X19_pages_cover_the_result userId q users collection re :
  compileSearch q = Some re ->
  let found := filter (fun b => Is_true (matches q re b)) collection in
  let pages := Z.to_nat (ceilDiv (Z.of_nat (length found)) 15) in
  let answer p := getBooks userId (setPage p q) users collection in
  let listed :=
    concat (map (fun i => listedIds (answer (Z.of_nat (S i))))
              (seq 0 pages)) in
  Forall (fun b => is_Some (findById User._id (Book.owner b) users)) found ->
  (forall p, 1 <= p ->
     exists listing,
       answer p = Json 200 listing
       /\ currentPage (pagination listing) = p
       /\ totalPages (pagination listing) = Z.of_nat pages
       /\ totalItems (pagination listing) = Z.of_nat (length found))
  /\ Permutation listed (map Book._id found)
  /\ (sortBy q = None -> listed = map Book._id found)
  /\ (forall p, Z.of_nat pages < p -> listedIds (answer p) = []).
Proof.
  intros Hre found pages answer listed Howners.
  assert (0 <= ceilDiv (Z.of_nat (length found)) 15) as Hpos.
  { unfold ceilDiv. Z.to_euclidean_division_equations. lia. }
  assert (Z.of_nat (length found)
          <= ceilDiv (Z.of_nat (length found)) 15 * 15) as Hcover.
  { unfold ceilDiv. Z.to_euclidean_division_equations. lia. }
  set (cmp := compareBooks (sortBy q) (userGenresOf userId users)).
  assert (forall i,
            listedIds (answer (Z.of_nat (S i)))
            = map Book._id (Array_sort cmp (take 15 (drop (i * 15) found))))
    as Hpage.
  { intros i. subst answer. cbv beta.
    destruct (getBooks_setPage userId q users collection re
                (Z.of_nat (S i)) Hre Howners ltac:(lia))
      as (bs & -> & Hids).
    cbn [listedIds books]. rewrite Hids, pageSlice_setPage. reflexivity. }
  assert (concat (map (fun i => take 15 (drop (i * 15) found)) (seq 0 pages))
          = found) as Hchunks
    by (apply chunks_cover; subst pages; lia).
  split; [|split; [|split]].
  - intros p Hp.
    destruct (getBooks_setPage userId q users collection re p Hre Howners Hp)
      as (bs & Hget & _).
    eexists. split; [exact Hget|]. cbn [pagination currentPage totalPages
                                         totalItems].
    split; [reflexivity|]. split; [|reflexivity].
    subst pages. rewrite Z2Nat.id by exact Hpos. reflexivity.
  - subst listed.
    rewrite (map_ext _ _ Hpage).
    rewrite (Permutation_concat_map _
               (fun i => map Book._id (take 15 (drop (i * 15) found))))
      by (intros i; apply Permutation_map, Array_sort_Permutation).
    rewrite concat_map_map, Hchunks. reflexivity.
  - intros Hmode. subst listed.
    rewrite (map_ext _ _ Hpage).
    rewrite (map_ext _
               (fun i => map Book._id (take 15 (drop (i * 15) found)))).
    + rewrite concat_map_map, Hchunks. reflexivity.
    + intros i. f_equal. apply Array_sort_indifferent.
      intros a b. subst cmp. rewrite Hmode. reflexivity.
  - intros p Hp. subst answer. cbv beta.
    destruct (getBooks_setPage userId q users collection re p Hre Howners
                ltac:(lia)) as (bs & -> & Hids).
    cbn [listedIds books]. rewrite Hids.
    unfold pageSlice. rewrite currentPageOf_setPage by lia.
    change (findBooks (setPage p q) re collection) with found.
    rewrite drop_ge; [reflexivity|]. unfold ITEMS_PER_PAGE. lia.
Qed.

End PageFacts.

Section PageExamples.
Import BookController.

Lemma shelf_owners :
  Forall (fun b => is_Some (findById User._id (Book.owner b)
                              (Sample.people None None)))
    (filter (fun b => Is_true (matches (Sample.browse None (Some "newest"))
                                 None b))
       Sample.shelf).
Proof. repeat constructor; eexists; reflexivity. Qed.

(** X19 at the sample shelf, newest first: its one page returns the three
    available books, and the second page none. *)
Lemma X19_pages_cover_the_result_witness :
  Permutation
    (listedIds (@getBooks Sample.runtime None
                  (setPage 1 (Sample.browse None (Some "newest")))
                  (Sample.people None None) Sample.shelf) ++ [])
    [16%N; 17%N; 18%N]
  /\ listedIds (@getBooks Sample.runtime None
                  (setPage 2 (Sample.browse None (Some "newest")))
                  (Sample.people None None) Sample.shelf) = [].
Proof.
  destruct (@X19_pages_cover_the_result Sample.runtime None
              (Sample.browse None (Some "newest")) (Sample.people None None)
              Sample.shelf None eq_refl shelf_owners)
    as (_ & Hperm & _ & Hlast).
  split; [exact Hperm | apply Hlast; reflexivity].
Defined.

End PageExamples.

(** ** What the handlers keep of the collections *)

Section StoredInvariants.
Import TransactionController ExchangeThread.

Lemma Forall_replaceDoc {D} (idOf : D -> ObjectId) (P : D -> Prop) d
    (c : list D) :
  Forall P c -> P d -> Forall P (replaceDoc idOf d c).
Proof.
  intros Hc Hd. induction Hc as [|x c Hx Hc IH]; simpl; [constructor|].
  case_bool_decide; constructor; assumption.
Qed.

Lemma Forall_findById {D} (idOf : D -> ObjectId) (P : D -> Prop)
    (c : list D) id d :
  Forall P c -> findById idOf id c = Some d -> P d.
Proof.
  intros Hc Hf. apply findById_Some_elem in Hf.
  rewrite list.Forall_forall in Hc. auto.
Qed.

Lemma storedValid_parts t :
  storedValid t ->
  Transaction.validStatus (Transaction.status t) = true
  /\ Terms.validate (Transaction.terms t) = true
  /\ forallb Transaction.validMessage (Transaction.messages t) = true.
Proof.
  unfold storedValid, Transaction.validate. intros Hv.
  apply andb_true_iff in Hv as [Hv Hm].
  apply andb_true_iff in Hv as [Hs Ht]. auto.
Qed.

Lemma storedValid_build t s ms :
  storedValid t ->
  Transaction.validStatus s = true ->
  forallb Transaction.validMessage ms = true ->
  forall t',
    Transaction.status t' = s ->
    Transaction.terms t' = Transaction.terms t ->
    Transaction.messages t' = (Transaction.messages t ++ ms)%list ->
    storedValid t'.
Proof.
  intros Ht Hs Hms t' Es Et Em.
  destruct (storedValid_parts t Ht) as (_ & Hterms & Hold).
  unfold storedValid, Transaction.validate.
  rewrite Es, Et, Em, forallb_app, Hs, Hterms, Hold, Hms. reflexivity.
Qed.

(** X20. The writes keep the transactions within their schema: if every
    stored transaction passes the schema's validation (status in the enum,
    terms in range, no empty message), so does every stored transaction
    after [createExchangeRequest], [updateExchangeStatus], [addMessage]
    and [deleteAccount], whatever the request holds. *)
Theorem X20_transactions_stay_valid db :
  Forall storedValid (transactions db) ->
  (forall now userId body,
      Forall storedValid
        (transactions (createExchangeRequest now userId body db).2))
  /\ (forall now userId req,
        Forall storedValid
          (transactions (updateExchangeStatus now userId req db).2))
  /\ (forall now userId req,
        Forall storedValid (transactions (addMessage now userId req db).2))
  /\ (forall now userId users files,
        Forall storedValid
          (UserController.transactions
             (UserController.deleteAccount now userId
                (UserController.mkWorld users (books db) (transactions db)
                   files)).2)).
Proof.
  intros Hall. split; [|split; [|split]].
  - intros now userId body. unfold createExchangeRequest.
    destruct (castObjectId (bookId body)); [|exact Hall].
    destruct (findById Book._id _ (books db)); [|exact Hall].
    destruct (negb (bool_decide _)); [exact Hall|].
    destruct (bool_decide _); [exact Hall|].
    destruct (Transaction.validate _) eqn:Hv; simpl; [|exact Hall].
    destruct (negb (Book.validate _)); cbn [snd transactions];
      unfold insertDoc; apply Forall_app; (split; [exact Hall|]);
      (constructor; [exact Hv | constructor]).
  - intros now userId req.
    destruct (exchangeId req ≫= castObjectId) as [eid|] eqn:Hc;
      [|unfold updateExchangeStatus; rewrite Hc; exact Hall].
    destruct (findById Transaction._id eid (transactions db)) as [t|] eqn:Hf;
      [|unfold updateExchangeStatus; rewrite Hc, Hf; exact Hall].
    pose proof (updateExchangeStatus_cases now userId req db eid t Hc Hf)
      as Hcases.
    cbv zeta in Hcases.
    destruct Hcases as
      [[_ Hr]|[(_ & _ & _ & Hr)|[(_ & _ & _ & Hr)
      |[(_ & _ & _ & Hr)|(_ & _ & _ & Hv & Hr)]]]]; rewrite Hr;
      try exact Hall.
    cbn [snd transactions]. apply Forall_replaceDoc; [exact Hall|].
    apply (storedValid_build t (status req) (pushedMessage now userId req));
      [eapply Forall_findById; eassumption | exact Hv
      | apply pushedMessage_valid | reflexivity..].
  - intros now userId req.
    destruct (msgExchangeId req ≫= castObjectId) as [eid|] eqn:Hc;
      [|unfold addMessage; rewrite Hc; exact Hall].
    destruct (findById Transaction._id eid (transactions db)) as [t|] eqn:Hf;
      [|unfold addMessage; rewrite Hc, Hf; exact Hall].
    rewrite (addMessage_found _ _ _ _ _ _ Hc Hf).
    destruct (negb (_ || _)); [exact Hall|].
    destruct (truthy (msgText req)) eqn:Hm; simpl negb; cbv iota;
      [|exact Hall].
    cbv zeta. cbn [snd transactions].
    pose proof (Forall_findById _ _ _ _ _ Hall Hf) as Ht.
    apply Forall_replaceDoc; [exact Hall|].
    apply (storedValid_build t (Transaction.status t)
             [Message.mk userId (default "" (msgText req)) now false true]);
      [exact Ht | apply (storedValid_parts t Ht) | | reflexivity..].
    destruct (msgText req) as [text|]; [|discriminate Hm].
    simpl in Hm |- *. unfold Transaction.validMessage. simpl.
    rewrite Hm. reflexivity.
  - intros now userId users files. unfold UserController.deleteAccount.
    destruct (findById User._id userId _); cbn [snd];
      cbn [UserController.transactions]; [|exact Hall].
    induction Hall as [|x c Ht Hc IH]; simpl; constructor; [|exact IH].
    unfold UserController.cancelInvolved.
    destruct (UserController.involves userId x); [|exact Ht].
    apply (storedValid_build x "cancelled" []);
      [exact Ht | reflexivity | reflexivity | reflexivity | reflexivity|].
    simpl. rewrite app_nil_r. reflexivity.
Qed.

(** X20 at Bob's pending request: a status no schema knows changes
    nothing, and the stored request is still valid. *)
Lemma X20_transactions_stay_valid_witness :
  Forall storedValid
    (transactions
       (updateExchangeStatus 3000 Sample.alice
          (mkUpdateReq (Some Sample.requestId) "archived" None)
          (Sample.db "pending")).2).
Proof.
  apply (proj1 (proj2 (X20_transactions_stay_valid (Sample.db "pending")
                         ltac:(repeat constructor)))).
Defined.

End StoredInvariants.

Section NeverExchanged.
Import TransactionController.

Lemma Forall_subseteq {A} (P : A -> Prop) (l k : list A) :
  l ⊆ k -> Forall P k -> Forall P l.
Proof.
  intros Hsub Hk. rewrite list.Forall_forall in Hk |- *.
  intros x Hx. apply Hk, Hsub, Hx.
Qed.

Lemma booksAfter_notExchanged s t books :
  Forall notExchanged books -> Forall notExchanged (booksAfter s t books).
Proof.
  intros Hall. unfold booksAfter.
  destruct (findById Book._id (Transaction.book t) books) as [b|] eqn:Hb;
    [|exact Hall].
  apply Forall_replaceDoc; [exact Hall|].
  pose proof (Forall_findById _ _ _ _ _ Hall Hb) as Hold.
  unfold notExchanged, bookStatusAfter in *. simpl.
  repeat case_bool_decide; simpl; first [discriminate | exact Hold].
Qed.

(** X21. None of [createExchangeRequest], [updateExchangeStatus],
    [updateBook], [deleteBook] and [deleteAccount] ever gives a book the
    status 'exchanged': if no stored book has it, none has it afterwards,
    whatever the request holds, a status update to 'completed' included. *)
Theorem X21_no_book_becomes_exchanged db :
  Forall notExchanged (books db) ->
  (forall now userId body,
      Forall notExchanged (books (createExchangeRequest now userId body db).2))
  /\ (forall now userId req,
        Forall notExchanged
          (books (updateExchangeStatus now userId req db).2))
  /\ (forall userId idParam body users,
        Forall notExchanged
          (BookOwner.updateBook userId idParam body users (books db)).2)
  /\ (forall userId idParam,
        Forall notExchanged
          (BookOwner.deleteBook userId idParam (books db)).2)
  /\ (forall now userId users files,
        Forall notExchanged
          (UserController.books
             (UserController.deleteAccount now userId
                (UserController.mkWorld users (books db) (transactions db)
                   files)).2)).
Proof.
  intros Hall. split; [|split; [|split; [|split]]].
  - intros now userId body. unfold createExchangeRequest.
    destruct (castObjectId (bookId body)); [|exact Hall].
    destruct (findById Book._id _ (books db)); [|exact Hall].
    destruct (negb (bool_decide _)); [exact Hall|].
    destruct (bool_decide _); [exact Hall|].
    destruct (negb (Transaction.validate _)); [exact Hall|].
    destruct (negb (Book.validate _)); cbn [snd books]; [exact Hall|].
    apply Forall_replaceDoc; [exact Hall|].
    unfold notExchanged. simpl. discriminate.
  - intros now userId req.
    destruct (exchangeId req ≫= castObjectId) as [eid|] eqn:Hc;
      [|unfold updateExchangeStatus; rewrite Hc; exact Hall].
    destruct (findById Transaction._id eid (transactions db)) as [t|] eqn:Hf;
      [|unfold updateExchangeStatus; rewrite Hc, Hf; exact Hall].
    rewrite (updateExchangeStatus_found _ _ _ _ _ _ Hc Hf). cbv zeta.
    repeat match goal with
           | |- context [if ?b then _ else _] => destruct b
           end; cbn [snd books];
      first [exact Hall | apply booksAfter_notExchanged; exact Hall].
  - intros userId idParam body users. unfold BookOwner.updateBook.
    destruct (castObjectId idParam); [|exact Hall].
    destruct (findById Book._id _ (books db)) as [b|] eqn:Hb; [|exact Hall].
    destruct (negb (bool_decide _)); [exact Hall|].
    assert (Forall notExchanged
              (replaceDoc Book._id (BookOwner.applyUpdate body b) (books db)))
      as Hupd.
    { apply Forall_replaceDoc; [exact Hall|].
      exact (Forall_findById _ _ _ _ _ Hall Hb). }
    destruct (BookController.transform users _); exact Hupd.
  - intros userId idParam. unfold BookOwner.deleteBook.
    destruct (castObjectId idParam); [|exact Hall].
    destruct (findOne _ (books db)); [|exact Hall].
    cbn [snd]. eapply Forall_subseteq; [apply deleteOne_subseteq | exact Hall].
  - intros now userId users files. unfold UserController.deleteAccount.
    destruct (findById User._id userId _); cbn [snd];
      cbn [UserController.books]; [|exact Hall].
    eapply Forall_subseteq; [|exact Hall].
    intros b Hb. apply list_elem_of_filter in Hb as [_ Hb]. exact Hb.
Qed.

(** X21 at Bob's accepted request: Alice marks it completed, and Dune is
    still not 'exchanged'. *)
Lemma X21_no_book_becomes_exchanged_witness :
  Forall notExchanged
    (books
       (updateExchangeStatus 3000 Sample.alice
          (mkUpdateReq (Some Sample.requestId) "completed" None)
          (Sample.db "accepted")).2).
Proof.
  apply (proj1 (proj2 (X21_no_book_becomes_exchanged (Sample.db "accepted")
                         ltac:(repeat constructor; discriminate)))).
Defined.

Example completed_leaves_book_pending :
  books
    (updateExchangeStatus 3000 Sample.alice
       (mkUpdateReq (Some Sample.requestId) "completed" None)
       (Sample.db "accepted")).2
  = [Sample.dune "pending"].
Proof. reflexivity. Qed.

End NeverExchanged.
